(** * Request-capture handlers: a shallow embedding and its properties

    The repository is a handful of serverless HTTP handlers (TypeScript)
    which echo an inbound request, classify its body (JSON, XML, form,
    text), extract light XML metadata, try to store the capture in
    Firestore, and answer with an envelope.

    Layout of this development:
    - [JsString]   the string built-ins the handlers call
                   ([includes], [trim], [startsWith], [indexOf],
                   [substring], the root-element regular expression);
    - [JsValue]    JavaScript values as the handlers inspect them
                   ([truthy], [typeof], property access);
    - [Builtins]   the remaining library functions, as an interface
                   (JSON.parse, JSON.stringify, URLSearchParams, ...);
    - [Js]         a state-and-exception monad for [res.setHeader],
                   [db.collection(...).add], [console.error], stream
                   listeners and [try]/[catch];
    - one module per handler, transcribed from the sources;
    - [Reference]  one implementation of the library functions, and
                   [Examples], the requests the handlers are run on;
    - the specification-level definitions, then lemmas and theorems. *)

From Stdlib Require Import ZArith List Bool Ascii String DecimalString Lia.
Import ListNotations.

Set Warnings "-register-all".

Open Scope string_scope.
Open Scope list_scope.

(** ** Strings

    A JavaScript string is a sequence of code units.  The model uses
    [string], whose code units are the 256 values of [ascii]: every
    literal the handlers search for is ASCII, and the only place where
    wider code units would matter is the white space that [trim] strips
    (of which the model knows the ones below 256). *)

Module JsString.

Definition code (c : ascii) : nat := nat_of_ascii c.

(** White space and line terminators of ECMAScript below 256:
    TAB, LF, VT, FF, CR, SPACE, NBSP. *)
Definition is_ws (c : ascii) : bool :=
  let n := code c in
  (((9 <=? n) && (n <=? 13)) || (n =? 32) || (n =? 160))%nat.

(** [a-zA-Z] *)
Definition is_letter (c : ascii) : bool :=
  let n := code c in
  (((65 <=? n) && (n <=? 90)) || ((97 <=? n) && (n <=? 122)))%nat.

(** [a-zA-Z0-9] *)
Definition is_alnum (c : ascii) : bool :=
  let n := code c in
  is_letter c || ((48 <=? n) && (n <=? 57))%nat.

Fixpoint trimStart (s : string) : string :=
  match s with
  | EmptyString => EmptyString
  | String c s' => if is_ws c then trimStart s' else s
  end.

Fixpoint trimEnd (s : string) : string :=
  match s with
  | EmptyString => EmptyString
  | String c s' =>
      match trimEnd s' with
      | EmptyString => if is_ws c then EmptyString else String c EmptyString
      | t => String c t
      end
  end.

(** [s.trim()] *)
Definition trim (s : string) : string := trimEnd (trimStart s).

(** [p] is how [s] begins. *)
Fixpoint prefix_of (p s : string) : bool :=
  match p with
  | EmptyString => true
  | String a p' =>
      match s with
      | EmptyString => false
      | String b s' => Ascii.eqb a b && prefix_of p' s'
      end
  end.

(** [s.startsWith(p)] *)
Definition startsWith (s p : string) : bool := prefix_of p s.

(** Position of the first occurrence of [p] in [s], if any. *)
Fixpoint find (p s : string) : option nat :=
  if prefix_of p s then Some 0
  else match s with
       | EmptyString => None
       | String _ s' => option_map S (find p s')
       end.

(** [s.indexOf(p)]: the position of the first occurrence, or -1. *)
Definition indexOf (s p : string) : Z :=
  match find p s with
  | Some i => Z.of_nat i
  | None => (-1)%Z
  end.

(** [s.includes(p)] *)
Definition includes (s p : string) : bool :=
  match find p s with
  | Some _ => true
  | None => false
  end.

(** What is left of [s] from position [n] on. *)
Fixpoint drop (n : nat) (s : string) : string :=
  match n, s with
  | S n', String _ s' => drop n' s'
  | _, _ => s
  end.

(** An index argument of [substring], clamped to [0 .. s.length]. *)
Definition clamp (len : nat) (z : Z) : nat :=
  Z.to_nat (Z.min (Z.max z 0) (Z.of_nat len)).

(** [s.substring(a, b)]: both indices are clamped, and swapped when
    [a > b]; the result runs from the smaller to just before the
    larger. *)
Definition substring (s : string) (a b : Z) : string :=
  let i := clamp (String.length s) a in
  let j := clamp (String.length s) b in
  String.substring (Nat.min i j) (Nat.max i j - Nat.min i j) s.

(** The longest prefix made of [a-zA-Z0-9]. *)
Fixpoint take_alnum (s : string) : string :=
  match s with
  | EmptyString => EmptyString
  | String c s' => if is_alnum c then String c (take_alnum s') else EmptyString
  end.

(** [s.match(re)] for the handlers' regular expression, a [<] followed
    by the group "one of a-zA-Z, then any number of a-zA-Z0-9", reduced to
    its capture group: the leftmost [<] that a letter follows, and the
    (greedy) run of letters and digits after it; [None] is the [null] of
    no match. *)
Fixpoint match_tag (s : string) : option string :=
  match s with
  | EmptyString => None
  | String c s' =>
      if Ascii.eqb c "<"%char then
        match s' with
        | String d _ => if is_letter d then Some (take_alnum s') else match_tag s'
        | EmptyString => None
        end
      else match_tag s'
  end.

(** The double quote, for literals that contain one. *)
Definition dquote : ascii := ascii_of_nat 34.

End JsString.

(** ** Values *)

(** What a handler can meet in [req.body], [req.query] and its own object
    literals.  Numbers are integers (the handlers only test a number for
    truthiness and [typeof]); a [Date] is known by its ISO text; a
    [Buffer] by its bytes, one code unit each; an object is the list of
    its own properties in insertion order.  [JDict] is an object with no
    prototype, hence with no [toString] method, as [querystring.parse]
    returns for a form body. *)
Inductive JsValue : Type :=
| JUndefined
| JNull
| JBool (b : bool)
| JNumber (n : Z)
| JString (s : string)
| JDate (iso : string)
| JBuffer (bytes : string)
| JArray (items : list JsValue)
| JObject (fields : list (string * JsValue))
| JDict (fields : list (string * JsValue)).

(** Truthiness, as [if (v)], [!v], [a || b] and [c ? a : b] test it. *)
Definition truthy (v : JsValue) : bool :=
  match v with
  | JUndefined | JNull => false
  | JBool b => b
  | JNumber n => negb (n =? 0)%Z
  | JString s => negb (s =? EmptyString)
  | JDate _ | JBuffer _ | JArray _ | JObject _ | JDict _ => true
  end.

(** [typeof v] *)
Definition typeof (v : JsValue) : string :=
  match v with
  | JUndefined => "undefined"
  | JBool _ => "boolean"
  | JNumber _ => "number"
  | JString _ => "string"
  | JNull | JDate _ | JBuffer _ | JArray _ | JObject _ | JDict _ => "object"
  end.

(** [a || b] *)
Definition js_or (a b : JsValue) : JsValue := if truthy a then a else b.

(** The string inside a value whose [typeof] is ["string"]. *)
Definition str (v : JsValue) : string :=
  match v with
  | JString s => s
  | _ => EmptyString
  end.

(** [s || null], for a string [s]. *)
Definition or_null (s : string) : JsValue :=
  js_or (JString s) JNull.

Fixpoint assoc {A : Type} (k : string) (l : list (string * A)) : option A :=
  match l with
  | [] => None
  | (k', v) :: l' => if k' =? k then Some v else assoc k l'
  end.

(** [o[k]] (or [o.k]): the property, [undefined] when there is none. *)
Definition get (o : JsValue) (k : string) : JsValue :=
  match o with
  | JObject fields | JDict fields =>
      match assoc k fields with
      | Some v => v
      | None => JUndefined
      end
  | _ => JUndefined
  end.

(** [{ ...o, extra }], for keys of [extra] that [o] does not have. *)
Definition spread (o : JsValue) (extra : list (string * JsValue)) : JsValue :=
  match o with
  | JObject fields | JDict fields => JObject (fields ++ extra)
  | _ => JObject extra
  end.

(** What [v.toString] finds on an object.  An own property of that
    name comes first, and in a body that a parser made it is data, never
    a function, since neither JSON nor a form has functions.  Without an
    own property the method is inherited, except by an object with no
    prototype. *)
Inductive Member : Type :=
| Method
| Data (v : JsValue)
| Missing.

Definition toString_member (v : JsValue) : Member :=
  match v with
  | JObject fields =>
      match assoc "toString" fields with
      | Some m => Data m
      | None => Method
      end
  | JDict fields =>
      match assoc "toString" fields with
      | Some m => Data m
      | None => Missing
      end
  | _ => Method
  end.

(** [Object.fromEntries(pairs)]: a later pair replaces the value of an
    earlier one with the same key, in place. *)
Fixpoint set_entry (k : string) (v : JsValue) (fields : list (string * JsValue))
  : list (string * JsValue) :=
  match fields with
  | [] => [(k, v)]
  | (k', v') :: rest =>
      if k' =? k then (k', v) :: rest else (k', v') :: set_entry k v rest
  end.

Definition fromEntries (pairs : list (string * string)) : JsValue :=
  JObject (fold_left (fun acc kv => set_entry (fst kv) (JString (snd kv)) acc) pairs []).

(** ** Exceptions *)

(** What a [catch] clause receives: an [Error] (with its message) or any
    other thrown value. *)
Inductive Thrown : Type :=
| ErrorObject (message : string)
| ThrownValue (v : JsValue).

Inductive Outcome (A : Type) : Type :=
| Returned (a : A)
| Threw (e : Thrown).

Arguments Returned {A} a.
Arguments Threw {A} e.

(** [e instanceof Error ? e.message : fallback] *)
Definition message_or (e : Thrown) (fallback : string) : string :=
  match e with
  | ErrorObject m => m
  | ThrownValue _ => fallback
  end.

(** ** Library functions

    The functions of the language and of Node that the handlers call and
    whose results they only pass on.  Theorems hold for every
    implementation; [reference_builtins] below is one, for running the
    handlers on examples. *)
Class Builtins : Type := {
  (** [JSON.parse(s)]; throws a [SyntaxError] on a malformed text. *)
  JSON_parse : string -> Outcome JsValue;
  (** [JSON.stringify(v, null, indent)] for a value that has a JSON
      text. *)
  JSON_stringify : nat -> JsValue -> string;
  (** [v.toString('utf8')], for an object that inherits the method:
      the text of a [Buffer], the joined items of an array (which throws
      when an item has no string form), the tag of a plain object. *)
  toString_utf8 : JsValue -> Outcome string;
  (** [String(v)]; throws a [TypeError] for an object that has no
      callable [toString] or [valueOf] giving a primitive: an object
      without prototype, an object with an own [toString] that is data. *)
  String_of : JsValue -> Outcome string;
  (** The entries of [new URLSearchParams(s)]. *)
  URLSearchParams : string -> Outcome (list (string * string))
}.

(** ** Requests, responses and the world around a handler *)

(** The [VercelRequest] fields the handlers read.  [headers] has the
    names as Node gives them, in lower case; [body] is what the hosting
    framework made of the payload ([undefined] when it parsed nothing);
    [remoteAddress] is [req.connection?.remoteAddress]; [stream] holds the
    chunks the request stream would still emit to a ['data'] listener. *)
Record Request : Type := {
  method : string;
  url : string;
  headers : list (string * string);
  query : JsValue;
  body : JsValue;
  remoteAddress : JsValue;
  stream : list string
}.

(** [req.headers[name]] *)
Definition header (req : Request) (name : string) : JsValue :=
  match assoc name (headers req) with
  | Some v => JString v
  | None => JUndefined
  end.

(** [req.headers] as the object it is. *)
Definition headers_object (req : Request) : JsValue :=
  JObject (map (fun kv => (fst kv, JString (snd kv))) (headers req)).

(** What the response ends as: [res.status(n).json(v)] gives
    [Some v], [res.status(n).end()] gives no body. *)
Record Response : Type := {
  status : Z;
  payload : option JsValue
}.

(** The variables of a handler that its stream listeners close over. *)
Record Closure : Type := {
  chunks : list string;
  var_rawBody : string;
  var_bodyData : JsValue
}.

(** Everything a handler acts upon: the headers set on the response so
    far, the documents [add] was called with, the lines logged with
    [console.error], the unread chunks of the request stream, and the
    closure of the listeners registered on it, if any. *)
Record World : Type := {
  res_headers : list (string * string);
  db_added : list JsValue;
  console_error : list string;
  socket : list string;
  listeners : option Closure
}.

(** The world a handler starts in. *)
Definition world_of (req : Request) : World :=
  {| res_headers := []; db_added := []; console_error := [];
     socket := stream req; listeners := None |}.

(** How a write to the store goes.  [db.collection(..).add(doc)] either
    throws before it returns a promise (the client refuses the document),
    and then the handler is never suspended; or it returns a promise and
    the handler is suspended at [await] until the promise settles, with
    the id of the new document or with a rejection.  [events] is how many
    events the request stream emits to its listeners in the meantime, if
    it has listeners: that depends on the timing of the network and is
    no business of the handler. *)
Inductive Write : Type :=
| Throws (e : Thrown)
| Awaited (events : nat) (o : Outcome string).

(** What the handler's [try] around the write sees. *)
Definition outcome (w : Write) : Outcome string :=
  match w with
  | Throws e => Threw e
  | Awaited _ o => o
  end.

(** What a run of a handler reads from outside: the Firestore collection,
    the clock and the random source. *)
Record Env : Type := {
  db_add : JsValue -> Write;
  now_iso : string;
  now_ms : Z;
  random_suffix : string
}.

(** ** The monad of handler code: state and exceptions *)

Definition Js (A : Type) : Type := World -> Outcome A * World.

Definition ret {A : Type} (a : A) : Js A := fun w => (Returned a, w).

Definition throw {A : Type} (e : Thrown) : Js A := fun w => (Threw e, w).

Definition bind {A B : Type} (m : Js A) (k : A -> Js B) : Js B :=
  fun w =>
    match m w with
    | (Returned a, w') => k a w'
    | (Threw e, w') => (Threw e, w')
    end.

(** [try { m } catch (e) { h e }] *)
Definition try_catch {A : Type} (m : Js A) (h : Thrown -> Js A) : Js A :=
  fun w =>
    match m w with
    | (Returned a, w') => (Returned a, w')
    | (Threw e, w') => h e w'
    end.

(** A call of a library function that may throw. *)
Definition call {A : Type} (o : Outcome A) : Js A := fun w => (o, w).

Notation "x <- m ;; k" := (bind m (fun x => k))
  (at level 61, m at next level, right associativity).
Notation "m ;; k" := (bind m (fun _ => k))
  (at level 61, right associativity).

(** [res.setHeader(name, value)] *)
Definition setHeader (name value : string) : Js unit :=
  fun w =>
    (Returned tt,
     {| res_headers := res_headers w ++ [(name, value)];
        db_added := db_added w; console_error := console_error w;
        socket := socket w; listeners := listeners w |}).

(** [console.error(label, e)] *)
Definition log_error (label : string) : Js unit :=
  fun w =>
    (Returned tt,
     {| res_headers := res_headers w; db_added := db_added w;
        console_error := console_error w ++ [label];
        socket := socket w; listeners := listeners w |}).

(** [req.on('data', ...)] and [req.on('end', ...)]: the two listeners are
    registered, with the variables they close over.  Registering runs
    neither of them: the stream emits on a later turn of the event
    loop. *)
Definition req_on_data_end (c : Closure) : Js unit :=
  fun w =>
    (Returned tt,
     {| res_headers := res_headers w; db_added := db_added w;
        console_error := console_error w;
        socket := socket w; listeners := Some c |}).

(** [Buffer.concat(chunks).toString('utf8')] *)
Definition concat_chunks (l : list string) : string := String.concat EmptyString l.

(** The ['data'] listener: the chunk is pushed. *)
Definition on_data (chunk : string) (c : Closure) : Closure :=
  {| chunks := chunks c ++ [chunk];
     var_rawBody := var_rawBody c; var_bodyData := var_bodyData c |}.

(** The ['end'] listener: when there are chunks, [rawBody] and
    [bodyData] are assigned their concatenation. *)
Definition on_end (c : Closure) : Closure :=
  match chunks c with
  | [] => c
  | _ :: _ =>
      let rawBody := concat_chunks (chunks c) in
      {| chunks := chunks c; var_rawBody := rawBody; var_bodyData := JString rawBody |}
  end.

(** The first [n] events of a stream that still holds [pending]: a
    ['data'] event for each chunk, in order, then ['end'].  What comes
    back is what the stream still holds and the listeners' variables. *)
Fixpoint emit (n : nat) (pending : list string) (c : Closure) : list string * Closure :=
  match n with
  | O => (pending, c)
  | S n' =>
      match pending with
      | chunk :: rest => emit n' rest (on_data chunk c)
      | [] => ([], on_end c)
      end
  end.

(** The event loop while the handler is suspended: a stream with
    listeners emits [n] events; a stream without a ['data'] listener is
    not flowing and keeps what it holds. *)
Definition event_loop (n : nat) : Js unit :=
  fun w =>
    match listeners w with
    | None => (Returned tt, w)
    | Some c =>
        (Returned tt,
         {| res_headers := res_headers w; db_added := db_added w;
            console_error := console_error w;
            socket := fst (emit n (socket w) c);
            listeners := Some (snd (emit n (socket w) c)) |})
    end.

(** [await db.collection('api_requests').add(doc)]: [add] is called with
    the document; when it throws, the exception goes on at once; when it
    returns a promise, the handler is suspended, the event loop runs, and
    the handler resumes with the document's id or with the rejection
    thrown. *)
Definition add (env : Env) (doc : JsValue) : Js string :=
  fun w =>
    let w1 := {| res_headers := res_headers w; db_added := db_added w ++ [doc];
                 console_error := console_error w;
                 socket := socket w; listeners := listeners w |} in
    match db_add env doc with
    | Throws e => (Threw e, w1)
    | Awaited events o =>
        match event_loop events w1 with
        | (_, w2) => (o, w2)
        end
    end.

(** [res.status(n).json(v)] and [res.status(n).end()] *)
Definition json (n : Z) (v : JsValue) : Js Response :=
  ret {| status := n; payload := Some v |}.

Definition end_ (n : Z) : Js Response :=
  ret {| status := n; payload := None |}.

(** Running a handler on a request. *)
Definition run (h : Request -> Js Response) (req : Request) : Outcome Response * World :=
  h req (world_of req).

(** ** Shared shapes of the handlers *)

(** The TypeScript interface [FirestoreResult]. *)
Record FirestoreResult : Type := {
  success : bool;
  documentId : option string;
  message : string;
  error : option string
}.

Definition optional (k : string) (o : option string) : list (string * JsValue) :=
  match o with
  | Some s => [(k, JString s)]
  | None => []
  end.

(** A [FirestoreResult] as the object it is: an optional member that was
    not given is not a property.  The members come in the order of the
    handlers' two literals: [success, documentId, message] for a write
    that went through, [success, error, message] for one that did not. *)
Definition FirestoreResult_object (r : FirestoreResult) : JsValue :=
  JObject ([("success", JBool (success r))]
           ++ optional "documentId" (documentId r)
           ++ optional "error" (error r)
           ++ [("message", JString (message r))]).

(** The TypeScript interface [XMLMetadata]. *)
Record XMLMetadata : Type := {
  declaration : string;
  rootElement : string;
  length : Z;
  hasDoctype : bool;
  encoding : string
}.

Definition XMLMetadata_object (m : XMLMetadata) : JsValue :=
  JObject [("declaration", JString (declaration m));
           ("rootElement", JString (rootElement m));
           ("length", JNumber (length m));
           ("hasDoctype", JBool (hasDoctype m));
           ("encoding", JString (encoding m))].

(** The 405 answer, the same object literal in every capture handler. *)
Definition method_not_allowed (req : Request) : JsValue :=
  JObject [("error", JString "Method not allowed. Only POST requests are accepted.");
           ("allowedMethod", JString "POST");
           ("receivedMethod", JString (method req))].

(** The 500 answer of the outer [catch], the same in every handler. *)
Definition internal_error (label : string) (error : Thrown) : Js Response :=
  log_error label ;;
  json 500 (JObject [("success", JBool false);
                     ("error", JString "Internal server error");
                     ("message", JString (message_or error "Unknown error"))]).

(** The three [res.setHeader] calls for cross-origin requests. *)
Definition set_cors_headers (methods : string) : Js unit :=
  setHeader "Access-Control-Allow-Origin" "*" ;;
  setHeader "Access-Control-Allow-Methods" methods ;;
  setHeader "Access-Control-Allow-Headers" "Content-Type".

(** The decimal text of an integer, as a template literal prints it. *)
Definition decimal (z : Z) : string := NilZero.string_of_int (Z.to_int z).

(** The [requestId] template literal: [Date.now()], a dash, and nine
    characters of [Math.random()] in base 36. *)
Definition requestId (env : Env) : string :=
  (decimal (now_ms env) ++ "-" ++ random_suffix env)%string.

(** The inner [try]/[catch] around the Firestore write, the same in every
    capture handler up to the document and the message of success. *)
Definition save_to_firestore (env : Env) (doc : JsValue) (saved : string)
  : Js FirestoreResult :=
  try_catch
    (docRef <- add env doc ;;
     ret {| success := true;
            documentId := Some docRef;
            message := saved;
            error := None |})
    (fun firestoreError =>
       log_error "Firestore error:" ;;
       ret {| success := false;
              documentId := None;
              error := Some "Failed to save to Firestore";
              message := message_or firestoreError "Unknown Firestore error" |}).

(** The envelope of a capture. *)
Definition envelope (msg : string) (capturedData : JsValue) (firestoreResult : FirestoreResult)
  : JsValue :=
  JObject [("success", JBool true);
           ("message", JString msg);
           ("data", capturedData);
           ("firestore", FirestoreResult_object firestoreResult)].

(** [req.headers['content-type'] || ''] *)
Definition contentType (req : Request) : string :=
  str (js_or (header req "content-type") (JString EmptyString)).

(** [req.headers['x-forwarded-for'] || req.connection?.remoteAddress] *)
Definition ip (req : Request) : JsValue :=
  js_or (header req "x-forwarded-for") (remoteAddress req).

(** The XML test, written the same way in the three handlers that have
    it ([&&] binds tighter than [||], in JavaScript as here). *)
Definition isXML (contentType rawBody : string) : bool :=
  JsString.includes contentType "xml" ||
  JsString.includes contentType "text/plain" && JsString.startsWith (JsString.trim rawBody) "<?xml" ||
  JsString.startsWith (JsString.trim rawBody) "<?xml".

Definition isJSON (contentType : string) : bool :=
  JsString.includes contentType "application/json".

Definition isFormData (contentType : string) : bool :=
  JsString.includes contentType "application/x-www-form-urlencoded" ||
  JsString.includes contentType "multipart/form-data".

Definition isTextPlain (contentType : string) : bool :=
  JsString.includes contentType "text/plain".

(** ** The handlers *)

(** *** src/api/test-capture.ts, first handler: the diagnostic endpoint *)
Module Diagnostic.
Section Handler.
Context {B : Builtins}.
Variable env : Env.

Definition cors_methods : string := "GET, POST, PUT, DELETE, OPTIONS".

(** The [response] object, given [bodyString]. *)
Definition response (req : Request) (bodyString : JsValue) : JsValue :=
  let bodyData := body req in
  let bodyType := typeof bodyData in
  let bodyJSON := if truthy bodyData then JString (JSON_stringify 2 bodyData) else JNull in
  let contentType := str (js_or (header req "content-type") (JString "not-set")) in
  let contentLength := js_or (header req "content-length") (JString "not-set") in
  JObject [("timestamp", JString (now_iso env));
           ("method", JString (method req));
           ("url", JString (url req));
           ("body",
             JObject [("data", bodyData);
                      ("type", JString bodyType);
                      ("string", bodyString);
                      ("json", bodyJSON);
                      ("exists", JBool (truthy bodyData));
                      ("length",
                        JNumber (if truthy bodyString
                                 then Z.of_nat (String.length (str bodyString))
                                 else 0%Z))]);
           ("headers",
             JObject [("all", headers_object req);
                      ("contentType", JString contentType);
                      ("contentLength", contentLength);
                      ("userAgent", js_or (header req "user-agent") (JString "not-set"))]);
           ("query", query req);
           ("ip", ip req);
           ("debug",
             JObject [("bodyIsNull",
                        JBool match bodyData with JNull => true | _ => false end);
                      ("bodyIsUndefined",
                        JBool match bodyData with JUndefined => true | _ => false end);
                      ("bodyIsEmptyString",
                        JBool match bodyData with
                              | JString s => s =? EmptyString
                              | _ => false
                              end);
                      (* JSON.stringify(undefined) is undefined, not a text *)
                      ("bodyIsEmptyObject",
                        JBool match bodyData with
                              | JUndefined => false
                              | _ => JSON_stringify 0 bodyData =? "{}"
                              end);
                      ("contentTypeIncludesJson", JBool (JsString.includes contentType "json"));
                      ("contentTypeIncludesForm", JBool (JsString.includes contentType "form"));
                      ("contentTypeIncludesText", JBool (JsString.includes contentType "text"))])].

(** [String(bodyData)] is the one call of the handler that can throw;
    it is made for a truthy body only. *)
Definition handler (req : Request) : Js Response :=
  if method req =? "OPTIONS" then
    set_cors_headers cors_methods ;;
    end_ 200
  else
    try_catch
      (let bodyData := body req in
       bodyString <- (if truthy bodyData
                      then s <- call (String_of bodyData) ;; ret (JString s)
                      else ret JNull) ;;
       let response := response req bodyString in
       set_cors_headers cors_methods ;;
       json 200 (JObject [("success", JBool true);
                          ("message", JString "Test capture completed");
                          ("data", response)]))
      (internal_error "Error in test capture:").

End Handler.
End Diagnostic.

(** *** src/unnamed/part_001, first handler: the plain capture *)
Module CaptureBasic.
Section Handler.
Variable env : Env.

Definition capturedData (req : Request) : JsValue :=
  JObject [("timestamp", JString (now_iso env));
           ("method", JString (method req));
           ("url", JString (url req));
           ("headers", headers_object req);
           ("query", query req);
           ("body", body req);
           ("ip", ip req);
           ("userAgent", header req "user-agent");
           ("contentType", header req "content-type");
           ("contentLength", header req "content-length");
           ("vercelHeaders",
             JObject [("x-vercel-id", header req "x-vercel-id");
                      ("x-real-ip", header req "x-real-ip");
                      ("x-forwarded-proto", header req "x-forwarded-proto");
                      ("x-forwarded-host", header req "x-forwarded-host")])].

Definition handler (req : Request) : Js Response :=
  if negb (method req =? "POST") then
    json 405 (method_not_allowed req)
  else
    try_catch
      (let capturedData := capturedData req in
       set_cors_headers "POST, OPTIONS" ;;
       if method req =? "OPTIONS" then
         end_ 200
       else
         firestoreResult <-
           save_to_firestore env
             (spread capturedData [("createdAt", JDate (now_iso env));
                                   ("requestId", JString (requestId env))])
             "Data saved to Firestore successfully" ;;
         json 200 (envelope "Request data captured successfully" capturedData firestoreResult))
      (internal_error "Error capturing request data:").

End Handler.
End CaptureBasic.

(** *** src/api/test-capture.ts, second handler: capture with a body type *)
Module CaptureTyped.
Section Handler.
Context {B : Builtins}.
Variable env : Env.

(** [rawBody] after the conversion of the body to a string. *)
Definition rawBody (bodyData : JsValue) : string :=
  let rawBody := EmptyString in
  if truthy bodyData then
    if typeof bodyData =? "string" then str bodyData
    else if typeof bodyData =? "object" then JSON_stringify 2 bodyData
    else rawBody
  else rawBody.

Definition bodyType (contentType rawBody : string) : string :=
  if isJSON contentType then "json"
  else if isXML contentType rawBody then "xml"
  else if isFormData contentType then "form"
  else "unknown".

Definition capturedData (req : Request) : JsValue :=
  let bodyData := body req in
  let rawBody := rawBody bodyData in
  let contentType := contentType req in
  let isJSON := isJSON contentType in
  let isXML := isXML contentType rawBody in
  let isFormData := isFormData contentType in
  JObject [("timestamp", JString (now_iso env));
           ("method", JString (method req));
           ("url", JString (url req));
           ("headers", headers_object req);
           ("query", query req);
           ("body", bodyData);
           ("rawBody", or_null rawBody);
           ("bodyType", JString (bodyType contentType rawBody));
           ("contentType", JString contentType);
           ("isJSON", JBool isJSON);
           ("isXML", JBool isXML);
           ("isFormData", JBool isFormData);
           ("ip", ip req);
           ("userAgent", header req "user-agent");
           ("contentLength", header req "content-length")].

Definition handler (req : Request) : Js Response :=
  if negb (method req =? "POST") then
    json 405 (method_not_allowed req)
  else
    try_catch
      (let capturedData := capturedData req in
       set_cors_headers "POST, OPTIONS" ;;
       if method req =? "OPTIONS" then
         end_ 200
       else
         firestoreResult <-
           save_to_firestore env
             (spread capturedData [("createdAt", JDate (now_iso env));
                                   ("requestId", JString (requestId env))])
             "Data saved to Firestore successfully" ;;
         json 200 (envelope "Request data captured successfully" capturedData firestoreResult))
      (internal_error "Error capturing request data:").

End Handler.
End CaptureTyped.

(** *** src/unnamed/part_001, second handler: capture with body parsing *)
Module CaptureFormats.
Section Handler.
Context {B : Builtins}.
Variable env : Env.

(** [rawBody] after the conversion of the body to a string. *)
Definition rawBody (bodyData : JsValue) : string :=
  let rawBody := EmptyString in
  if truthy bodyData then
    if typeof bodyData =? "string" then str bodyData
    else if typeof bodyData =? "object" then JSON_stringify 2 bodyData
    else rawBody
  else rawBody.

(** The fallback on the raw request: when the body is empty, the two
    listeners are put on the stream.  They assign [rawBody] and
    [bodyData] when they run, which is not before the handler is
    suspended; until then both variables keep their values. *)
Definition read_raw_request (bodyData : JsValue) (rawBody : string) : Js unit :=
  if negb (truthy bodyData) && negb (truthy (JString rawBody)) then
    req_on_data_end {| chunks := []; var_rawBody := rawBody; var_bodyData := bodyData |}
  else ret tt.

(** [parsedBody]: the body parsed according to the content type. *)
Definition parsedBody (contentType : string) (bodyData : JsValue) : Js JsValue :=
  if isJSON contentType && (typeof bodyData =? "string") then
    try_catch
      (call (JSON_parse (str bodyData)))
      (fun e => ret bodyData)
  else if isFormData contentType && (typeof bodyData =? "string") then
    try_catch
      (formData <- call (URLSearchParams (str bodyData)) ;;
       ret (fromEntries formData))
      (fun e => ret bodyData)
  else ret bodyData.

Definition bodyType (contentType rawBody : string) : string :=
  if isJSON contentType then "json"
  else if isXML contentType rawBody then "xml"
  else if isFormData contentType then "form"
  else if isTextPlain contentType then "text"
  else "unknown".

Definition capturedData (req : Request) (bodyData : JsValue) (rawBody : string)
  (parsedBody : JsValue) : JsValue :=
  let contentType := contentType req in
  JObject [("timestamp", JString (now_iso env));
           ("method", JString (method req));
           ("url", JString (url req));
           ("headers", headers_object req);
           ("query", query req);
           ("body", parsedBody);
           ("rawBody", or_null rawBody);
           ("bodyType", JString (bodyType contentType rawBody));
           ("contentType", JString contentType);
           ("isJSON", JBool (isJSON contentType));
           ("isXML", JBool (isXML contentType rawBody));
           ("isFormData", JBool (isFormData contentType));
           ("isTextPlain", JBool (isTextPlain contentType));
           ("ip", ip req);
           ("userAgent", header req "user-agent");
           ("contentLength", header req "content-length");
           ("bodyExists", JBool (truthy bodyData));
           ("rawBodyExists", JBool (truthy (JString rawBody)));
           ("bodyDataType", JString (typeof bodyData));
           ("rawBodyLength",
             JNumber (if truthy (JString rawBody)
                      then Z.of_nat (String.length rawBody)
                      else 0%Z))].

Definition handler (req : Request) : Js Response :=
  if negb (method req =? "POST") then
    json 405 (method_not_allowed req)
  else
    try_catch
      (let bodyData := body req in
       let rawBody := rawBody bodyData in
       read_raw_request bodyData rawBody ;;
       parsedBody <- parsedBody (contentType req) bodyData ;;
       let capturedData := capturedData req bodyData rawBody parsedBody in
       set_cors_headers "POST, OPTIONS" ;;
       if method req =? "OPTIONS" then
         end_ 200
       else
         firestoreResult <-
           save_to_firestore env
             (spread capturedData [("createdAt", JDate (now_iso env));
                                   ("requestId", JString (requestId env))])
             "Data saved to Firestore successfully" ;;
         json 200 (envelope "Request data captured successfully" capturedData firestoreResult))
      (internal_error "Error capturing request data:").

End Handler.
End CaptureFormats.

(** *** src/unnamed/part_002: capture with XML metadata *)
Module CaptureXml.
Section Handler.
Context {B : Builtins}.
Variable env : Env.

(** [rawBody] after the conversion of the body to a string.  The call
    [req.body.toString('utf8')] is made whenever [req.body.toString] is
    truthy: on an own property that is data it throws a [TypeError]. *)
Definition rawBody (body : JsValue) : Outcome string :=
  let rawBody := EmptyString in
  if truthy body then
    if typeof body =? "string" then Returned (str body)
    else if typeof body =? "object" then
      match toString_member body with
      | Method => toString_utf8 body
      | Data m =>
          if truthy m then Threw (ErrorObject "req.body.toString is not a function")
          else Returned (JSON_stringify 2 body)
      | Missing => Returned (JSON_stringify 2 body)
      end
    else Returned rawBody
  else Returned rawBody.

(** The text [encoding="UTF-8"]. *)
Definition encoding_utf8 : string :=
  ("encoding=" ++ String JsString.dquote ("UTF-8" ++ String JsString.dquote EmptyString))%string.

(** [xmlMetadata]; [None] is its initial [null].  The [try] around the
    extraction is not modelled: nothing in it throws. *)
Definition xmlMetadata (contentType rawBody : string) : option XMLMetadata :=
  if isXML contentType rawBody && truthy (JString rawBody) then
    let xmlStart := JsString.indexOf rawBody "<?xml" in
    let xmlEnd := JsString.indexOf rawBody "?>" in
    if negb (xmlStart =? -1)%Z && negb (xmlEnd =? -1)%Z then
      let xmlDeclaration := JsString.substring rawBody xmlStart (xmlEnd + 2)%Z in
      let rootMatch := JsString.match_tag rawBody in
      let rootElement := match rootMatch with
                         | Some group1 => group1
                         | None => "unknown"
                         end in
      Some {| declaration := xmlDeclaration;
              rootElement := rootElement;
              length := Z.of_nat (String.length rawBody);
              hasDoctype := JsString.includes rawBody "<!DOCTYPE";
              encoding := if JsString.includes xmlDeclaration encoding_utf8
                          then "UTF-8" else "unknown" |}
    else None
  else None.

Definition capturedData (req : Request) (rawBody : string) : JsValue :=
  let contentType := contentType req in
  JObject [("timestamp", JString (now_iso env));
           ("method", JString (method req));
           ("url", JString (url req));
           ("headers", headers_object req);
           ("query", query req);
           ("body", body req);
           ("rawBody", or_null rawBody);
           ("contentType", JString contentType);
           ("isXML", JBool (isXML contentType rawBody));
           ("xmlMetadata",
             match xmlMetadata contentType rawBody with
             | Some m => XMLMetadata_object m
             | None => JNull
             end);
           ("ip", ip req);
           ("userAgent", header req "user-agent");
           ("contentLength", header req "content-length")].

Definition handler (req : Request) : Js Response :=
  if negb (method req =? "POST") then
    json 405 (method_not_allowed req)
  else
    try_catch
      (rawBody <- call (rawBody (body req)) ;;
       let capturedData := capturedData req rawBody in
       set_cors_headers "POST, OPTIONS" ;;
       if method req =? "OPTIONS" then
         end_ 200
       else
         firestoreResult <-
           save_to_firestore env
             (spread capturedData [("createdAt", JDate (now_iso env));
                                   ("requestId", JString (requestId env));
                                   ("collectionType", JString "xml_capture")])
             "XML data saved to Firestore successfully" ;;
         json 200
           (envelope (if isXML (contentType req) rawBody
                      then "XML data captured successfully"
                      else "Request data captured successfully")
                     capturedData firestoreResult))
      (internal_error "Error capturing request data:").

End Handler.
End CaptureXml.

(** ** A reference implementation of the library functions

    Enough of each function to run the handlers on examples: JSON with
    integer numbers and the two-character escapes, form decoding with
    [+] and percent escapes of one byte. *)
Module Reference.

Definition chr (n : nat) : string := String (ascii_of_nat n) EmptyString.

Definition hex_digit (n : nat) : string :=
  chr (if n <? 10 then 48 + n else 87 + n)%nat.

(** A character inside a JSON string literal. *)
Definition escape_char (c : ascii) : string :=
  let n := nat_of_ascii c in
  if (n =? 34)%nat then String "\" (chr 34)
  else if (n =? 92)%nat then "\\"
  else if (n =? 8)%nat then "\b"
  else if (n =? 12)%nat then "\f"
  else if (n =? 10)%nat then "\n"
  else if (n =? 13)%nat then "\r"
  else if (n =? 9)%nat then "\t"
  else if (n <? 32)%nat then ("\u00" ++ hex_digit (n / 16) ++ hex_digit (n mod 16))%string
  else String c EmptyString.

Fixpoint escape (s : string) : string :=
  match s with
  | EmptyString => EmptyString
  | String c s' => (escape_char c ++ escape s')%string
  end.

Definition quote (s : string) : string := (chr 34 ++ escape s ++ chr 34)%string.

Fixpoint spaces (n : nat) : string :=
  match n with
  | O => EmptyString
  | S n' => String " " (spaces n')
  end.

(** The members of an array or object between their brackets, at nesting
    depth [level]; with no indentation the text is compact. *)
Definition bracket (indent level : nat) (opening closing : string) (members : list string)
  : string :=
  match members with
  | [] => (opening ++ closing)%string
  | _ :: _ =>
      if (indent =? 0)%nat then
        (opening ++ String.concat "," members ++ closing)%string
      else
        let nl := chr 10 in
        let inner := (nl ++ spaces (indent * S level))%string in
        (opening ++ inner ++ String.concat ("," ++ inner) members
           ++ nl ++ spaces (indent * level) ++ closing)%string
  end.

Definition bytes_of (s : string) : list string :=
  map (fun c => decimal (Z.of_nat (nat_of_ascii c))) (list_ascii_of_string s).

(** The JSON text of a value; [None] where JSON.stringify gives
    [undefined]. *)
Fixpoint stringify (indent level : nat) (v : JsValue) : option string :=
  let colon := if (indent =? 0)%nat then ":" else ": " in
  match v with
  | JUndefined => None
  | JNull => Some "null"
  | JBool true => Some "true"
  | JBool false => Some "false"
  | JNumber n => Some (decimal n)
  | JString s => Some (quote s)
  | JDate iso => Some (quote iso)
  | JBuffer bytes =>
      Some (bracket indent level "{" "}"
              [(quote "type" ++ colon ++ quote "Buffer")%string;
               (quote "data" ++ colon
                  ++ bracket indent (S level) "[" "]" (bytes_of bytes))%string])
  | JArray items =>
      let fix members (l : list JsValue) : list string :=
        match l with
        | [] => []
        | x :: rest =>
            match stringify indent (S level) x with
            | Some s => s
            | None => "null"
            end :: members rest
        end in
      Some (bracket indent level "[" "]" (members items))
  | JObject fields | JDict fields =>
      let fix members (l : list (string * JsValue)) : list string :=
        match l with
        | [] => []
        | (k, x) :: rest =>
            match stringify indent (S level) x with
            | Some s => (quote k ++ colon ++ s)%string :: members rest
            | None => members rest
            end
        end in
      Some (bracket indent level "{" "}" (members fields))
  end.

(** What [String(v)] throws for an object with no string form. *)
Definition no_primitive : Thrown :=
  ErrorObject "Cannot convert object to primitive value".

(** [String(v)]: an array joins the string forms of its items with
    commas; a plain object gives its tag through the inherited method,
    unless an own [toString] (data, not callable) shadows it; an object
    without prototype has no method at all.  A [Date] stands here for its
    ISO text, where JavaScript prints the local date: no example has
    one. *)
Fixpoint to_string (v : JsValue) : Outcome string :=
  match v with
  | JUndefined => Returned "undefined"
  | JNull => Returned "null"
  | JBool true => Returned "true"
  | JBool false => Returned "false"
  | JNumber n => Returned (decimal n)
  | JString s => Returned s
  | JDate iso => Returned iso
  | JBuffer bytes => Returned bytes
  | JArray items =>
      let fix members (l : list JsValue) : Outcome (list string) :=
        match l with
        | [] => Returned []
        | x :: rest =>
            match match x with
                  | JUndefined | JNull => Returned EmptyString
                  | _ => to_string x
                  end with
            | Returned s =>
                match members rest with
                | Returned ss => Returned (s :: ss)
                | Threw e => Threw e
                end
            | Threw e => Threw e
            end
        end in
      match members items with
      | Returned ss => Returned (String.concat "," ss)
      | Threw e => Threw e
      end
  | JObject fields =>
      match assoc "toString" fields with
      | Some _ => Threw no_primitive
      | None => Returned "[object Object]"
      end
  | JDict _ => Threw no_primitive
  end.

(** The inherited [toString]: [Object.prototype.toString] gives the tag
    whatever the object holds; the other values as [String]. *)
Definition inherited_toString (v : JsValue) : Outcome string :=
  match v with
  | JObject _ | JDict _ => Returned "[object Object]"
  | _ => to_string v
  end.

(** *** JSON.parse *)

Definition is_json_ws (c : ascii) : bool :=
  let n := nat_of_ascii c in
  ((n =? 32) || (n =? 9) || (n =? 10) || (n =? 13))%nat.

Definition is_digit (c : ascii) : bool :=
  let n := nat_of_ascii c in
  ((48 <=? n) && (n <=? 57))%nat.

Fixpoint skip_ws (s : string) : string :=
  match s with
  | EmptyString => EmptyString
  | String c s' => if is_json_ws c then skip_ws s' else s
  end.

Fixpoint parse_digits (s : string) (acc : Z) : Z * string :=
  match s with
  | EmptyString => (acc, s)
  | String c s' =>
      if is_digit c
      then parse_digits s' (10 * acc + Z.of_nat (nat_of_ascii c - 48))%Z
      else (acc, s)
  end.

(** An integer, with no leading zero; a fraction or an exponent is
    outside what this implementation reads. *)
Definition parse_unsigned (s : string) : option (Z * string) :=
  match s with
  | String c s' =>
      if is_digit c then
        let (n, rest) := parse_digits s 0%Z in
        let leading_zero :=
          Ascii.eqb c "0" && match s' with
                             | String d _ => is_digit d
                             | EmptyString => false
                             end in
        let continues :=
          match rest with
          | String d _ => Ascii.eqb d "." || Ascii.eqb d "e" || Ascii.eqb d "E"
          | EmptyString => false
          end in
        if leading_zero || continues then None else Some (n, rest)
      else None
  | EmptyString => None
  end.

Definition parse_number (s : string) : option (Z * string) :=
  match s with
  | String "-" s' =>
      match parse_unsigned s' with
      | Some (n, rest) => Some ((- n)%Z, rest)
      | None => None
      end
  | _ => parse_unsigned s
  end.

(** A string literal after its opening quote. *)
Fixpoint parse_chars (s : string) : option (string * string) :=
  match s with
  | EmptyString => None
  | String c s' =>
      let n := nat_of_ascii c in
      if (n =? 34)%nat then Some (EmptyString, s')
      else if (n <? 32)%nat then None
      else if (n =? 92)%nat then
        match s' with
        | String e s'' =>
            let m := nat_of_ascii e in
            let unescaped :=
              if (m =? 34)%nat then Some 34%nat
              else if (m =? 92)%nat then Some 92%nat
              else if (m =? 47)%nat then Some 47%nat
              else if (m =? 98)%nat then Some 8%nat
              else if (m =? 102)%nat then Some 12%nat
              else if (m =? 110)%nat then Some 10%nat
              else if (m =? 114)%nat then Some 13%nat
              else if (m =? 116)%nat then Some 9%nat
              else None in
            match unescaped, parse_chars s'' with
            | Some u, Some (t, rest) => Some (String (ascii_of_nat u) t, rest)
            | _, _ => None
            end
        | EmptyString => None
        end
      else
        match parse_chars s' with
        | Some (t, rest) => Some (String c t, rest)
        | None => None
        end
  end.

Section Members.
Variable parse_value : string -> option (JsValue * string).

(** The items of an array after its first one was found to start. *)
Fixpoint parse_items (n : nat) (s : string) : option (list JsValue * string) :=
  match n with
  | O => None
  | S n' =>
      match parse_value s with
      | Some (v, rest) =>
          match skip_ws rest with
          | String "," rest' =>
              match parse_items n' rest' with
              | Some (vs, rest'') => Some (v :: vs, rest'')
              | None => None
              end
          | String "]" rest' => Some ([v], rest')
          | _ => None
          end
      | None => None
      end
  end.

Fixpoint parse_fields (n : nat) (s : string) : option (list (string * JsValue) * string) :=
  match n with
  | O => None
  | S n' =>
      match skip_ws s with
      | String q s1 =>
          if (nat_of_ascii q =? 34)%nat then
            match parse_chars s1 with
            | Some (k, s2) =>
                match skip_ws s2 with
                | String ":" s3 =>
                    match parse_value s3 with
                    | Some (v, rest) =>
                        match skip_ws rest with
                        | String "," rest' =>
                            match parse_fields n' rest' with
                            | Some (fs, rest'') => Some ((k, v) :: fs, rest'')
                            | None => None
                            end
                        | String "}" rest' => Some ([(k, v)], rest')
                        | _ => None
                        end
                    | None => None
                    end
                | _ => None
                end
            | None => None
            end
          else None
      | EmptyString => None
      end
  end.

End Members.

Fixpoint parse_value (fuel : nat) (s : string) : option (JsValue * string) :=
  match fuel with
  | O => None
  | S fuel' =>
      let s := skip_ws s in
      if String.prefix "null" s then Some (JNull, JsString.drop 4 s)
      else if String.prefix "true" s then Some (JBool true, JsString.drop 4 s)
      else if String.prefix "false" s then Some (JBool false, JsString.drop 5 s)
      else
        match s with
        | String c s' =>
            if (nat_of_ascii c =? 34)%nat then
              match parse_chars s' with
              | Some (t, rest) => Some (JString t, rest)
              | None => None
              end
            else if Ascii.eqb c "[" then
              match skip_ws s' with
              | String "]" rest => Some (JArray [], rest)
              | _ =>
                  match parse_items (parse_value fuel') fuel' s' with
                  | Some (vs, rest) => Some (JArray vs, rest)
                  | None => None
                  end
              end
            else if Ascii.eqb c "{" then
              match skip_ws s' with
              | String "}" rest => Some (JObject [], rest)
              | _ =>
                  match parse_fields (parse_value fuel') fuel' s' with
                  | Some (fs, rest) => Some (JObject (fold_left (fun acc kv => set_entry (fst kv) (snd kv) acc) fs []), rest)
                  | None => None
                  end
              end
            else
              match parse_number s with
              | Some (n, rest) => Some (JNumber n, rest)
              | None => None
              end
        | EmptyString => None
        end
  end.

Definition parse (s : string) : Outcome JsValue :=
  match parse_value (S (String.length s)) s with
  | Some (v, rest) =>
      match skip_ws rest with
      | EmptyString => Returned v
      | String _ _ => Threw (ErrorObject "Unexpected non-whitespace character after JSON")
      end
  | None => Threw (ErrorObject "Unexpected token in JSON")
  end.

(** *** URLSearchParams *)

Fixpoint split_on (sep : ascii) (s : string) : list string :=
  match s with
  | EmptyString => [EmptyString]
  | String c s' =>
      if Ascii.eqb c sep then EmptyString :: split_on sep s'
      else match split_on sep s' with
           | h :: t => String c h :: t
           | [] => [String c EmptyString]
           end
  end.

Definition hex_value (c : ascii) : option nat :=
  let n := nat_of_ascii c in
  if ((48 <=? n) && (n <=? 57))%nat then Some (n - 48)%nat
  else if ((65 <=? n) && (n <=? 70))%nat then Some (n - 55)%nat
  else if ((97 <=? n) && (n <=? 102))%nat then Some (n - 87)%nat
  else None.

(** [+] is a space, [%XX] the byte XX; anything else stands for itself. *)
Fixpoint form_decode (s : string) : string :=
  match s with
  | EmptyString => EmptyString
  | String c s' =>
      if Ascii.eqb c "+" then String " " (form_decode s')
      else if Ascii.eqb c "%" then
        match s' with
        | String h (String l s'') =>
            match hex_value h, hex_value l with
            | Some a, Some b => String (ascii_of_nat (16 * a + b)) (form_decode s'')
            | _, _ => String c (form_decode s')
            end
        | _ => String c (form_decode s')
        end
      else String c (form_decode s')
  end.

(** A [name=value] piece, cut at its first [=]. *)
Definition form_pair (piece : string) : string * string :=
  match split_on "=" piece with
  | name :: value => (form_decode name, form_decode (String.concat "=" value))
  | [] => (EmptyString, EmptyString)
  end.

Definition search_params (s : string) : list (string * string) :=
  let s := match s with
           | String "?" s' => s'
           | _ => s
           end in
  map form_pair
      (filter (fun piece => negb (piece =? EmptyString)) (split_on "&" s)).

End Reference.

Definition reference_builtins : Builtins := {|
  JSON_parse := Reference.parse;
  JSON_stringify := fun indent v =>
    match Reference.stringify indent 0 v with
    | Some s => s
    | None => "undefined"
    end;
  toString_utf8 := Reference.inherited_toString;
  String_of := Reference.to_string;
  URLSearchParams := fun s => Returned (Reference.search_params s)
|}.

(** ** What the specification says, as definitions *)

(** [p] is found in [s]. *)
Definition contains (s p : string) : Prop :=
  exists before after : string, s = (before ++ p ++ after)%string.

(** The classification by priority, in the specification's words: JSON
    when the content type contains [application/json]; else XML when the
    content type contains [xml], or it contains [text/plain] and the
    trimmed raw body starts with the XML declaration, or the trimmed raw
    body starts with it; else form; else text; else unknown. *)
Definition bodyType_spec (contentType rawBody : string) : string :=
  if JsString.includes contentType "application/json" then "json"
  else if JsString.includes contentType "xml"
          || (JsString.includes contentType "text/plain"
              && JsString.startsWith (JsString.trim rawBody) "<?xml")
          || JsString.startsWith (JsString.trim rawBody) "<?xml" then "xml"
  else if JsString.includes contentType "application/x-www-form-urlencoded"
          || JsString.includes contentType "multipart/form-data" then "form"
  else if JsString.includes contentType "text/plain" then "text"
  else "unknown".

(** The same order without the text class. *)
Definition bodyType_spec_without_text (contentType rawBody : string) : string :=
  if JsString.includes contentType "application/json" then "json"
  else if JsString.includes contentType "xml"
          || (JsString.includes contentType "text/plain"
              && JsString.startsWith (JsString.trim rawBody) "<?xml")
          || JsString.startsWith (JsString.trim rawBody) "<?xml" then "xml"
  else if JsString.includes contentType "application/x-www-form-urlencoded"
          || JsString.includes contentType "multipart/form-data" then "form"
  else "unknown".

(** The XML test with two clauses. *)
Definition isXML_two_clauses (contentType rawBody : string) : bool :=
  JsString.includes contentType "xml" ||
  JsString.startsWith (JsString.trim rawBody) "<?xml".

(** The declaration, in the specification's words: from the first
    occurrence of the opening of an XML declaration to the first [?>] at
    or after it, both included. *)
Definition declaration_spec (rawBody : string) : option string :=
  match JsString.find "<?xml" rawBody with
  | Some i =>
      match JsString.find "?>" (JsString.drop i rawBody) with
      | Some j => Some (String.substring i (j + 2) rawBody)
      | None => None
      end
  | None => None
  end.

(** A [?>] stands in the body before the first opening of a
    declaration. *)
Definition close_before_open (rawBody : string) : Prop :=
  exists i j : nat,
    JsString.find "<?xml" rawBody = Some i /\
    JsString.find "?>" rawBody = Some j /\
    j < i.

(** A tag name: a letter, then letters and digits. *)
Fixpoint all_alnum (s : string) : bool :=
  match s with
  | EmptyString => true
  | String c s' => JsString.is_alnum c && all_alnum s'
  end.

Definition tag_name (name : string) : bool :=
  match name with
  | EmptyString => false
  | String c rest => JsString.is_letter c && all_alnum rest
  end.

(** [name] is the first tag name of [s]: it stands after a [<], stops
    where the letters and digits stop, and no [<] before it has a letter
    after it. *)
Definition first_tag_name (s name : string) : Prop :=
  exists before after : string,
    s = (before ++ String "<" (name ++ after))%string /\
    tag_name name = true /\
    match after with
    | EmptyString => True
    | String c _ => JsString.is_alnum c = false
    end /\
    forall (p q : string) (d : ascii),
      before = (p ++ String "<" (String d q))%string -> JsString.is_letter d = false.

(** ** What a run amounts to *)

(** The outcome of the write as the handler reports it. *)
Definition firestoreResult (env : Env) (doc : JsValue) (saved : string) : FirestoreResult :=
  match outcome (db_add env doc) with
  | Returned docRef =>
      {| success := true; documentId := Some docRef; message := saved; error := None |}
  | Threw firestoreError =>
      {| success := false; documentId := None;
         error := Some "Failed to save to Firestore";
         message := message_or firestoreError "Unknown Firestore error" |}
  end.

(** ** Requests and environments of the examples *)

Module Examples.

(** The stream events that fit into a round trip to the store, in the
    examples. *)
Definition round_trip : nat := 8.

(** A store that takes every document. *)
Definition store_ok : Env :=
  {| db_add := fun _ => Awaited round_trip (Returned "doc-1");
     now_iso := "2024-05-01T10:00:00.000Z";
     now_ms := 1714557600000;
     random_suffix := "k3j9x0q1z" |}.

(** A store that rejects every document. *)
Definition store_down : Env :=
  {| db_add := fun _ => Awaited round_trip (Threw (ErrorObject "DEADLINE_EXCEEDED"));
     now_iso := "2024-05-01T10:00:00.000Z";
     now_ms := 1714557600000;
     random_suffix := "k3j9x0q1z" |}.

(** A client that refuses every document before it sends anything. *)
Definition store_strict : Env :=
  {| db_add := fun _ => Throws (ErrorObject "Value for argument data is not a valid Firestore document.");
     now_iso := "2024-05-01T10:00:00.000Z";
     now_ms := 1714557600000;
     random_suffix := "k3j9x0q1z" |}.

(** A store that answers when the stream has emitted one event. *)
Definition store_fast : Env :=
  {| db_add := fun _ => Awaited 1 (Returned "doc-1");
     now_iso := "2024-05-01T10:00:00.000Z";
     now_ms := 1714557600000;
     random_suffix := "k3j9x0q1z" |}.

Definition request (m contentType : string) (b : JsValue) : Request :=
  {| method := m;
     url := "/api/capture";
     headers := [("content-type", contentType); ("user-agent", "curl/8.5.0")];
     query := JObject [];
     body := b;
     remoteAddress := JString "203.0.113.7";
     stream := [] |}.

(** A preflight request. *)
Definition preflight : Request :=
  {| method := "OPTIONS";
     url := "/api/capture";
     headers := [("origin", "https://example.org");
                 ("access-control-request-method", "POST")];
     query := JObject [];
     body := JUndefined;
     remoteAddress := JString "203.0.113.7";
     stream := [] |}.

(** Plain text that is no XML. *)
Definition plain_text : Request := request "POST" "text/plain" (JString "hello").

(** A JSON string whose content is an XML document: the payload is the
    quoted text, the framework hands over the string. *)
Definition xml_in_json : Request :=
  request "POST" "application/json" (JString "<?xml version='1.0'?><a/>").

(** A text that is no JSON, sent as JSON. *)
Definition broken_json : Request :=
  request "POST" "application/json" (JString "{oops").

(** An XML document after a stray [?>]. *)
Definition stray_close : Request :=
  request "POST" "application/xml" (JString "?> <?xml version='1.0'?><a/>").

(** A [?>], then the opening of a declaration that is never closed. *)
Definition unclosed : Request :=
  request "POST" "application/xml" (JString "?> <?xml version='1.0'").

(** An XML document with its declaration. *)
Definition note_text : string :=
  "<?xml version='1.0' encoding='UTF-8'?><note><to>Ada</to></note>".

Definition note_xml : Request := request "POST" "text/plain" (JString note_text).

(** An XML fragment sent as XML, with no declaration. *)
Definition fragment_xml : Request := request "POST" "application/xml" (JString "<a/>").

(** A payload the framework did not parse: it is still in the stream. *)
Definition unparsed : Request :=
  {| method := "POST";
     url := "/api/capture";
     headers := [("content-type", "application/xml")];
     query := JObject [];
     body := JUndefined;
     remoteAddress := JString "203.0.113.7";
     stream := ["<note>"; "</note>"] |}.

(** The JSON number 42 as a payload. *)
Definition number_json : Request := request "POST" "application/json" (JNumber 42).

(** The document of the specification's scenario, double quotes
    included. *)
Definition scenario_xml : Request :=
  let q := String JsString.dquote EmptyString in
  request "POST" "text/plain"
          (JString ("<?xml version=" ++ q ++ "1.0" ++ q ++ " encoding=" ++ q ++ "UTF-8" ++ q
                    ++ "?><root/>")%string).

(** The JSON text of the specification's scenario, as a string the
    framework left unparsed. *)
Definition scenario_json : Request :=
  let q := String JsString.dquote EmptyString in
  request "POST" "application/json" (JString ("{" ++ q ++ "a" ++ q ++ ":1}")%string).

(** The same payload as the framework hands it over once parsed. *)
Definition scenario_json_parsed : Request :=
  request "POST" "application/json" (JObject [("a", JNumber 1)]).

(** The form of the specification's scenario. *)
Definition scenario_form : Request :=
  request "POST" "application/x-www-form-urlencoded" (JString "a=1&b=2").

End Examples.

(** The value of [parsedBody] in the handler that parses: both [catch]
    clauses give the body back. *)
Definition parsedBody_value {B : Builtins} (contentType : string) (bodyData : JsValue)
  : JsValue :=
  if isJSON contentType && (typeof bodyData =? "string") then
    match JSON_parse (str bodyData) with
    | Returned v => v
    | Threw _ => bodyData
    end
  else if isFormData contentType && (typeof bodyData =? "string") then
    match URLSearchParams (str bodyData) with
    | Returned formData => fromEntries formData
    | Threw _ => bodyData
    end
  else bodyData.

(** The headers on the response of a capture. *)
Definition capture_cors : list (string * string) :=
  [("Access-Control-Allow-Origin", "*");
   ("Access-Control-Allow-Methods", "POST, OPTIONS");
   ("Access-Control-Allow-Headers", "Content-Type")].

(** The document each capture handler hands to the store. *)
Definition basic_document (env : Env) (req : Request) : JsValue :=
  spread (CaptureBasic.capturedData env req)
         [("createdAt", JDate (now_iso env));
          ("requestId", JString (requestId env))].

Definition typed_document {B : Builtins} (env : Env) (req : Request) : JsValue :=
  spread (CaptureTyped.capturedData env req)
         [("createdAt", JDate (now_iso env));
          ("requestId", JString (requestId env))].

Definition formats_document {B : Builtins} (env : Env) (req : Request) : JsValue :=
  spread (CaptureFormats.capturedData env req (body req)
            (CaptureFormats.rawBody (body req))
            (parsedBody_value (contentType req) (body req)))
         [("createdAt", JDate (now_iso env));
          ("requestId", JString (requestId env))].

Definition xml_document (env : Env) (req : Request) (rawBody : string) : JsValue :=
  spread (CaptureXml.capturedData env req rawBody)
         [("createdAt", JDate (now_iso env));
          ("requestId", JString (requestId env));
          ("collectionType", JString "xml_capture")].

(** The document of the XML handler when the conversion of the body
    gives a raw body; it gets no further when the conversion throws. *)
Definition xml_write {B : Builtins} (env : Env) (req : Request) : option JsValue :=
  match CaptureXml.rawBody (body req) with
  | Returned rawBody => Some (xml_document env req rawBody)
  | Threw _ => None
  end.

(** The capture endpoints: each handler with the document it writes on a
    POST request, if it gets as far as the write. *)
Definition capture_endpoints {B : Builtins} (env : Env)
  : list ((Request -> Js Response) * (Request -> option JsValue)) :=
  [(CaptureBasic.handler env, fun req => Some (basic_document env req));
   (CaptureTyped.handler env, fun req => Some (typed_document env req));
   (CaptureFormats.handler env, fun req => Some (formats_document env req));
   (CaptureXml.handler env, xml_write env)].

(** The same request with other chunks left in its stream. *)
Definition with_stream (req : Request) (pending : list string) : Request :=
  {| method := method req;
     url := url req;
     headers := headers req;
     query := query req;
     body := body req;
     remoteAddress := remoteAddress req;
     stream := pending |}.

(** ** The database connector

    The module that exports [db] exists in two versions: the one of
    src/unnamed/part_000, which only warns when the credential is not
    configured, and the one of src/lib/firebase.ts, which throws and also
    configures Firestore.  Both start an app only when none is
    registered. *)
Module Firebase.

(** The two variables of [process.env] that the module reads; [None] is
    a variable that is not set. *)
Record ProcessEnv : Type := {
  FIREBASE_SERVICE_ACCOUNT : option string;
  FIREBASE_DATABASE_URL : option string
}.

(** [process.env.NAME] *)
Definition variable (o : option string) : JsValue :=
  match o with
  | Some s => JString s
  | None => JUndefined
  end.

(** firebase-admin as the module calls it: [cert] makes a credential of
    a service account or throws; [initializeApp] checks its options
    before it registers the app; [getFirestore] gives the database of the
    registered apps or throws; [db.settings] takes the settings or
    throws. *)
Class AdminSdk : Type := {
  cert : JsValue -> Outcome JsValue;
  checks : JsValue -> Outcome unit;
  firestore_of : list JsValue -> Outcome JsValue;
  takes : JsValue -> JsValue -> Outcome unit
}.

(** What initialization acts upon: the registered apps ([getApps()]),
    the console (level and text of each line) and the settings given to
    each database. *)
Record Process : Type := {
  apps : list JsValue;
  console : list (string * string);
  configured : list (JsValue * JsValue)
}.

Definition Init (A : Type) : Type := Process -> Outcome A * Process.

Definition unit_ {A : Type} (a : A) : Init A := fun p => (Returned a, p).

Definition raise {A : Type} (e : Thrown) : Init A := fun p => (Threw e, p).

Definition then_ {A C : Type} (m : Init A) (k : A -> Init C) : Init C :=
  fun p =>
    match m p with
    | (Returned a, p') => k a p'
    | (Threw e, p') => (Threw e, p')
    end.

(** [try { m } catch (error) { h error }] *)
Definition attempt {A : Type} (m : Init A) (h : Thrown -> Init A) : Init A :=
  fun p =>
    match m p with
    | (Returned a, p') => (Returned a, p')
    | (Threw e, p') => h e p'
    end.

Definition lift {A : Type} (o : Outcome A) : Init A := fun p => (o, p).

Notation "x <~ m ;; k" := (then_ m (fun x => k))
  (at level 61, m at next level, right associativity).
Notation "m ~~ k" := (then_ m (fun _ => k))
  (at level 61, right associativity).

(** [getApps()] *)
Definition getApps : Init (list JsValue) := fun p => (Returned (apps p), p).

(** [console.log], [console.warn], [console.error] *)
Definition say (level text : string) : Init unit :=
  fun p =>
    (Returned tt,
     {| apps := apps p; console := console p ++ [(level, text)];
        configured := configured p |}).

(** [initializeApp(options)] *)
Definition initializeApp {S : AdminSdk} (options : JsValue) : Init unit :=
  fun p =>
    match checks options with
    | Returned _ =>
        (Returned tt,
         {| apps := apps p ++ [options]; console := console p;
            configured := configured p |})
    | Threw e => (Threw e, p)
    end.

(** [getFirestore()] *)
Definition getFirestore {S : AdminSdk} : Init JsValue :=
  fun p => (firestore_of (apps p), p).

(** [db.settings(s)] *)
Definition settings {S : AdminSdk} (db s : JsValue) : Init unit :=
  fun p =>
    match takes db s with
    | Returned _ =>
        (Returned tt,
         {| apps := apps p; console := console p;
            configured := configured p ++ [(db, s)] |})
    | Threw e => (Threw e, p)
    end.

Definition not_configured : string :=
  "Firebase service account not configured. Please set FIREBASE_SERVICE_ACCOUNT environment variable.".

(** *** src/unnamed/part_000 *)
Module Warning.
Section Connector.
Context {B : Builtins} {S : AdminSdk}.
Variable env : ProcessEnv.

Definition initializeFirebase : Init JsValue :=
  registered <~ getApps ;;
  (if (List.length registered =? 0)%nat then
     if truthy (variable (FIREBASE_SERVICE_ACCOUNT env)) then
       serviceAccount <~ lift (JSON_parse (str (variable (FIREBASE_SERVICE_ACCOUNT env)))) ;;
       credential <~ lift (cert serviceAccount) ;;
       initializeApp
         (JObject [("credential", credential);
                   ("databaseURL", variable (FIREBASE_DATABASE_URL env))])
     else
       say "warn" not_configured
   else unit_ tt) ~~
  getFirestore.

End Connector.
End Warning.

(** *** src/lib/firebase.ts *)
Module Strict.
Section Connector.
Context {B : Builtins} {S : AdminSdk}.
Variable env : ProcessEnv.

Definition initializeFirebase : Init JsValue :=
  registered <~ getApps ;;
  (if (List.length registered =? 0)%nat then
     if truthy (variable (FIREBASE_SERVICE_ACCOUNT env)) then
       attempt
         (serviceAccount <~ lift (JSON_parse (str (variable (FIREBASE_SERVICE_ACCOUNT env)))) ;;
          credential <~ lift (cert serviceAccount) ;;
          let appConfig := JObject [("credential", credential)] in
          let appConfig :=
            if truthy (variable (FIREBASE_DATABASE_URL env))
            then spread appConfig [("databaseURL", variable (FIREBASE_DATABASE_URL env))]
            else appConfig in
          initializeApp appConfig ~~
          say "log" "Firebase Admin SDK initialized successfully")
         (fun error =>
            say "error" "Error initializing Firebase:" ~~
            raise (ErrorObject "Failed to initialize Firebase Admin SDK"))
     else
       say "warn" not_configured ~~
       raise (ErrorObject "FIREBASE_SERVICE_ACCOUNT environment variable is required")
   else unit_ tt) ~~
  let firestoreSettings := JObject [("ignoreUndefinedProperties", JBool true)] in
  db <~ getFirestore ;;
  settings db firestoreSettings ~~
  unit_ db.

End Connector.
End Strict.

(** A process in which nothing has happened yet. *)
Definition blank : Process := {| apps := []; console := []; configured := [] |}.

(** An SDK for the examples: a service account needs a [private_key],
    and there is a database once an app is registered. *)
Definition example_sdk : AdminSdk := {|
  cert := fun serviceAccount =>
    match get serviceAccount "private_key" with
    | JString _ => Returned (JObject [("serviceAccount", serviceAccount)])
    | _ => Threw (ErrorObject "Service account object must contain a string private_key property.")
    end;
  checks := fun _ => Returned tt;
  firestore_of := fun registered =>
    match registered with
    | app :: _ => Returned (JObject [("app", app)])
    | [] => Threw (ErrorObject "The default Firebase app does not exist.")
    end;
  takes := fun _ _ => Returned tt
|}.

(** A service account in JSON, and what [JSON.parse] makes of it. *)
Definition account_text : string :=
  let q := String JsString.dquote EmptyString in
  ("{" ++ q ++ "private_key" ++ q ++ ":" ++ q ++ "k" ++ q ++ "}")%string.

Definition configured_env : ProcessEnv :=
  {| FIREBASE_SERVICE_ACCOUNT := Some account_text;
     FIREBASE_DATABASE_URL := Some "https://example.firebaseio.com" |}.

Definition empty_env : ProcessEnv :=
  {| FIREBASE_SERVICE_ACCOUNT := None; FIREBASE_DATABASE_URL := None |}.

Definition broken_env : ProcessEnv :=
  {| FIREBASE_SERVICE_ACCOUNT := Some "{oops"; FIREBASE_DATABASE_URL := None |}.

(** A process in which an app is registered already. *)
Definition running : Process :=
  {| apps := [JObject [("credential", JObject [])]];
     console := [("log", "Firebase Admin SDK initialized successfully")];
     configured := [] |}.

End Firebase.

(** ** More definitions for the statements *)

(** The value of the last pair with key [k]. *)
Definition last_value (k : string) (pairs : list (string * string)) : option string :=
  fold_left (fun found kv => if fst kv =? k then Some (snd kv) else found) pairs None.

(** The stream events that a write leaves time for: none when the call
    throws. *)
Definition events_of (w : Write) : nat :=
  match w with
  | Throws _ => 0
  | Awaited events _ => events
  end.

(** The variables of the stream listeners when they are registered. *)
Definition registered (req : Request) : Closure :=
  {| chunks := []; var_rawBody := EmptyString; var_bodyData := body req |}.

(** What a capture handler logs for the outcome of its write. *)
Definition logged (o : Outcome string) : list string :=
  match o with
  | Returned _ => []
  | Threw _ => ["Firestore error:"]
  end.

(** The world after a POST request that got as far as the write, for
    the handlers that leave the stream alone. *)
Definition settled (env : Env) (req : Request) (doc : JsValue) : World :=
  {| res_headers := capture_cors;
     db_added := [doc];
     console_error := logged (outcome (db_add env doc));
     socket := stream req;
     listeners := None |}.

(** The 500 answer of a handler whose [try] threw [e] before anything
    was done, and the world after it: one line logged under the label of
    the handler's outer [catch]. *)
Definition stopped (label : string) (req : Request) (e : Thrown)
  : Outcome Response * World :=
  (Returned {| status := 500;
               payload := Some (JObject [("success", JBool false);
                                         ("error", JString "Internal server error");
                                         ("message", JString (message_or e "Unknown error"))]) |},
   {| res_headers := [];
      db_added := [];
      console_error := [label];
      socket := stream req;
      listeners := None |}).

Definition failed (req : Request) (e : Thrown) : Outcome Response * World :=
  stopped "Error capturing request data:" req e.

(** The 200 answer of the diagnostic handler, given [bodyString], and
    the world after it. *)
Definition diagnosed {B : Builtins} (env : Env) (req : Request) (bodyString : JsValue)
  : Outcome Response * World :=
  (Returned {| status := 200;
               payload := Some (JObject [("success", JBool true);
                                         ("message", JString "Test capture completed");
                                         ("data", Diagnostic.response env req bodyString)]) |},
   {| res_headers := [("Access-Control-Allow-Origin", "*");
                      ("Access-Control-Allow-Methods", "GET, POST, PUT, DELETE, OPTIONS");
                      ("Access-Control-Allow-Headers", "Content-Type")];
      db_added := [];
      console_error := [];
      socket := stream req;
      listeners := None |}).

(** The record under [data] in the response of a run, [undefined] when
    there is none. *)
Definition echoed (result : Outcome Response * World) : JsValue :=
  match fst result with
  | Returned r =>
      match payload r with
      | Some v => get v "data"
      | None => JUndefined
      end
  | Threw _ => JUndefined
  end.

(** The headers on every response of the diagnostic handler. *)
Definition diagnostic_cors : list (string * string) :=
  [("Access-Control-Allow-Origin", "*");
   ("Access-Control-Allow-Methods", "GET, POST, PUT, DELETE, OPTIONS");
   ("Access-Control-Allow-Headers", "Content-Type")].

(** The handlers that keep a [rawBody], each with its conversion; only
    the one of the XML handler can throw. *)
Definition raw_endpoints {B : Builtins} (env : Env)
  : list ((Request -> Js Response) * (JsValue -> Outcome string)) :=
  [(CaptureTyped.handler env, fun b => Returned (CaptureTyped.rawBody b));
   (CaptureFormats.handler env, fun b => Returned (CaptureFormats.rawBody b));
   (CaptureXml.handler env, CaptureXml.rawBody)].

Module MoreExamples.

(** A GET request. *)
Definition get_request : Request :=
  Examples.request "GET" "text/plain" JUndefined.

(** A POST request with no content type. *)
Definition no_content_type : Request :=
  {| method := "POST";
     url := "/api/capture";
     headers := [("user-agent", "curl/8.5.0")];
     query := JObject [];
     body := JString "  <?xml version='1.0'?><a/>";
     remoteAddress := JUndefined;
     stream := [] |}.

(** A form in which a name comes twice. *)
Definition repeated_form : Request :=
  Examples.request "POST" "application/x-www-form-urlencoded" (JString "a=1&b=2&a=3").

(** An XML declaration and nothing after it. *)
Definition declaration_only : Request :=
  Examples.request "POST" "application/xml" (JString "<?xml version='1.0'?>").

(** A JSON object with a member named [toString], as the framework
    hands it over once parsed. *)
Definition shadowed : Request :=
  Examples.request "POST" "application/json" (JObject [("toString", JString "x")]).

(** A form as the framework hands it over once parsed: an object with
    no prototype. *)
Definition parsed_form : Request :=
  Examples.request "POST" "application/x-www-form-urlencoded"
                   (JDict [("a", JString "1")]).

(** A diagnostic request with an empty string for a body. *)
Definition empty_text : Request :=
  Examples.request "POST" "text/plain" (JString EmptyString).

End MoreExamples.

(** * Properties *)

(** ** Strings *)

Section StringFacts.

Lemma prefix_append (p t : string) : JsString.prefix_of p (p ++ t)%string = true.
Proof.
  induction p as [|c p IH]; simpl.
  - reflexivity.
  - now rewrite Ascii.eqb_refl.
Qed.

Lemma prefix_split (p s : string) :
  JsString.prefix_of p s = true -> exists t, s = (p ++ t)%string.
Proof.
  revert s; induction p as [|c p IH]; intros s H.
  - exists s; reflexivity.
  - destruct s as [|d s]; simpl in H; [discriminate|].
    apply andb_true_iff in H as [Hc Hp].
    apply Ascii.eqb_eq in Hc as ->.
    destruct (IH _ Hp) as [t ->].
    exists t; reflexivity.
Qed.

Lemma append_assoc (a b c : string) :
  ((a ++ b) ++ c = a ++ (b ++ c))%string.
Proof.
  induction a as [|x a IH]; simpl; [reflexivity | now rewrite IH].
Qed.

Lemma length_append (a b : string) :
  String.length (a ++ b) = String.length a + String.length b.
Proof.
  induction a as [|x a IH]; simpl; [reflexivity | now rewrite IH].
Qed.

(** [find] gives a position where the pattern stands. *)
Lemma find_some (p s : string) (i : nat) :
  JsString.find p s = Some i ->
  exists before after,
    s = (before ++ p ++ after)%string /\ String.length before = i.
Proof.
  revert i; induction s as [|c s IH]; intros i H; simpl in H.
  - destruct (JsString.prefix_of p EmptyString) eqn:Hp; [|discriminate].
    injection H as <-.
    destruct (prefix_split _ _ Hp) as [t Ht].
    exists EmptyString, t; split; [exact Ht | reflexivity].
  - destruct (JsString.prefix_of p (String c s)) eqn:Hp.
    + injection H as <-.
      destruct (prefix_split _ _ Hp) as [t Ht].
      exists EmptyString, t; split; [exact Ht | reflexivity].
    + destruct (JsString.find p s) as [j|] eqn:Hj; [|discriminate].
      injection H as <-.
      destruct (IH j eq_refl) as (b & a & -> & Hlen).
      exists (String c b), a; split; [reflexivity | simpl; now rewrite Hlen].
Qed.

(** A pattern that stands somewhere is found, at that place or before. *)
Lemma find_complete (p before after : string) :
  exists i,
    JsString.find p (before ++ p ++ after) = Some i /\ i <= String.length before.
Proof.
  induction before as [|c b IH]; simpl.
  - exists 0.
    assert (H : JsString.prefix_of p (p ++ after) = true) by apply prefix_append.
    destruct (p ++ after)%string; simpl; rewrite H; split; auto.
  - destruct IH as (i & Hi & Hle).
    destruct (JsString.prefix_of p (String c (b ++ p ++ after))).
    + exists 0; split; [reflexivity | lia].
    + exists (S i); rewrite Hi; split; [reflexivity | lia].
Qed.

Lemma includes_contains (s p : string) :
  JsString.includes s p = true <-> contains s p.
Proof.
  unfold JsString.includes, contains; split.
  - destruct (JsString.find p s) as [i|] eqn:H; [|discriminate].
    intros _.
    destruct (find_some _ _ _ H) as (b & a & -> & _).
    now exists b, a.
  - intros (b & a & ->).
    destruct (find_complete p b a) as (i & -> & _); reflexivity.
Qed.

Lemma indexOf_found (s p : string) :
  (JsString.indexOf s p =? -1)%Z = false <-> JsString.includes s p = true.
Proof.
  unfold JsString.indexOf, JsString.includes.
  destruct (JsString.find p s) as [i|]; split; intro H;
    try reflexivity; try discriminate.
  apply Z.eqb_neq; lia.
Qed.

End StringFacts.

(** ** The root-element pattern *)

Section TagFacts.

Lemma letter_is_alnum (c : ascii) :
  JsString.is_letter c = true -> JsString.is_alnum c = true.
Proof.
  unfold JsString.is_alnum; intros ->; reflexivity.
Qed.

(** The greedy run stops exactly where the letters and digits stop. *)
Lemma take_alnum_append (run after : string) :
  all_alnum run = true ->
  match after with
  | EmptyString => True
  | String c _ => JsString.is_alnum c = false
  end ->
  JsString.take_alnum (run ++ after) = run.
Proof.
  intros Hrun Hafter.
  induction run as [|c run IH]; simpl in *.
  - destruct after as [|d after]; simpl; [reflexivity | now rewrite Hafter].
  - apply andb_true_iff in Hrun as [Hc Hrun].
    rewrite Hc, (IH Hrun); reflexivity.
Qed.

Lemma take_alnum_split (s : string) :
  exists after,
    s = (JsString.take_alnum s ++ after)%string /\
    all_alnum (JsString.take_alnum s) = true /\
    match after with
    | EmptyString => True
    | String c _ => JsString.is_alnum c = false
    end.
Proof.
  induction s as [|c s (after & Hs & Hall & Hafter)]; simpl.
  - exists EmptyString; repeat split.
  - destruct (JsString.is_alnum c) eqn:Hc.
    + exists after; simpl; rewrite Hc, Hall, <- Hs; repeat split; assumption.
    + exists (String c s); simpl; repeat split; assumption.
Qed.

(** The pattern finds the first tag name. *)
Lemma match_tag_first (s name : string) :
  first_tag_name s name -> JsString.match_tag s = Some name.
Proof.
  intros (before & after & -> & Hname & Hafter & Hbefore).
  induction before as [|x b IH]; simpl.
  - destruct name as [|c run]; simpl in *; [discriminate|].
    apply andb_true_iff in Hname as [Hc Hrun].
    rewrite Hc, (letter_is_alnum _ Hc), (take_alnum_append _ _ Hrun Hafter).
    reflexivity.
  - assert (Hb : forall p q d,
               b = (p ++ String "<" (String d q))%string -> JsString.is_letter d = false).
    { intros p q d ->. exact (Hbefore (String x p) q d eq_refl). }
    specialize (IH Hb).
    destruct (Ascii.eqb x "<") eqn:Hx; [|exact IH].
    apply Ascii.eqb_eq in Hx as ->.
    destruct b as [|d q]; simpl in *.
    + exact IH.
    + rewrite (Hbefore EmptyString q d eq_refl). exact IH.
Qed.

(** What the pattern finds is the first tag name. *)
Lemma match_tag_sound (s name : string) :
  JsString.match_tag s = Some name -> first_tag_name s name.
Proof.
  revert name; induction s as [|c s IH]; intros name H; simpl in H; [discriminate|].
  assert (Hrec : JsString.match_tag s = Some name ->
                 (c = "<"%char -> match s with
                                  | String d _ => JsString.is_letter d = false
                                  | EmptyString => True
                                  end) ->
                 first_tag_name (String c s) name).
  { intros Hs Hc.
    destruct (IH _ Hs) as (before & after & -> & Hname & Hafter & Hbefore).
    exists (String c before), after; repeat split; try assumption.
    intros p q d Hp.
    destruct p as [|y p]; simpl in Hp.
    - injection Hp as -> ->.
      exact (Hc eq_refl).
    - injection Hp as _ ->.
      exact (Hbefore p q d eq_refl). }
  destruct (Ascii.eqb c "<") eqn:Hc.
  - apply Ascii.eqb_eq in Hc as ->.
    destruct s as [|d t]; [discriminate|].
    destruct (JsString.is_letter d) eqn:Hd.
    + injection H as <-.
      destruct (take_alnum_split (String d t)) as (after & Hs & Hall & Hafter).
      exists EmptyString, after; repeat split.
      * cbn [append]. f_equal. exact Hs.
      * simpl in Hall |- *. rewrite (letter_is_alnum _ Hd) in Hall |- *.
        simpl in Hall |- *. rewrite Hd.
        now apply andb_true_iff in Hall as [_ ->].
      * exact Hafter.
      * intros p q e Hp. destruct p; discriminate.
    + apply Hrec; [exact H | intros _; reflexivity].
  - apply Hrec; [exact H|].
    intros ->. discriminate.
Qed.

End TagFacts.

(** ** Runs of the handlers *)

(** Unfolds the monad's operations in a run. *)
Ltac js_unfold :=
  cbv beta iota zeta delta
    [bind try_catch ret throw call json end_ set_cors_headers setHeader
     log_error req_on_data_end event_loop add internal_error].

Section Runs.
Context {B : Builtins}.
Variable env : Env.

(** The write never escapes its [try]: what it gives is the outcome as
    reported, one more document in the store's log, and the headers as
    they were. *)
Lemma save_to_firestore_run (doc : JsValue) (saved : string) (w : World) :
  exists w',
    save_to_firestore env doc saved w = (Returned (firestoreResult env doc saved), w') /\
    res_headers w' = res_headers w /\
    db_added w' = db_added w ++ [doc].
Proof.
  unfold save_to_firestore, firestoreResult.
  js_unfold.
  destruct (db_add env doc) as [e|events [docRef|e]]; cbn [outcome];
    destruct (listeners w); eexists; repeat split; reflexivity.
Qed.

(** Parsing the body never escapes its [try] either, and acts on
    nothing. *)
Lemma parsedBody_run (contentType : string) (bodyData : JsValue) (w : World) :
  CaptureFormats.parsedBody contentType bodyData w =
    (Returned (parsedBody_value contentType bodyData), w).
Proof.
  unfold CaptureFormats.parsedBody, parsedBody_value.
  destruct (isJSON contentType && (typeof bodyData =? "string")).
  - js_unfold. destruct (JSON_parse (str bodyData)); reflexivity.
  - destruct (isFormData contentType && (typeof bodyData =? "string")).
    + js_unfold. destruct (URLSearchParams (str bodyData)); reflexivity.
    + reflexivity.
Qed.

(** Registering the stream listeners touches neither the headers nor
    the store. *)
Lemma read_raw_request_run (bodyData : JsValue) (rawBody : string) (w : World) :
  exists w',
    CaptureFormats.read_raw_request bodyData rawBody w = (Returned tt, w') /\
    res_headers w' = res_headers w /\
    db_added w' = db_added w.
Proof.
  unfold CaptureFormats.read_raw_request.
  destruct (negb (truthy bodyData) && negb (truthy (JString rawBody)));
    eexists; repeat split; reflexivity.
Qed.

Lemma set_cors_headers_run (methods : string) (w : World) :
  exists w',
    set_cors_headers methods w = (Returned tt, w') /\
    res_headers w' =
      res_headers w ++ [("Access-Control-Allow-Origin", "*");
                        ("Access-Control-Allow-Methods", methods);
                        ("Access-Control-Allow-Headers", "Content-Type")] /\
    db_added w' = db_added w.
Proof.
  js_unfold.
  eexists; repeat split; cbn [res_headers]; now rewrite <- !app_assoc.
Qed.

(** Rewrites with the run of the next operation and reduces. *)
Ltac js_step H := rewrite H; cbv beta iota.

(** Runs the part every capture handler ends with on a POST request:
    the headers, the write, the envelope. *)
Ltac run_capture Hm :=
  rewrite ?Hm;
  change ("POST" =? "POST") with true; change ("POST" =? "OPTIONS") with false;
  cbv beta iota zeta delta [negb];
  unfold try_catch, bind;
  repeat match goal with
    | |- context [CaptureFormats.read_raw_request ?b ?r ?w] =>
        let w' := fresh "w" in
        let H := fresh "H" in
        let Hh := fresh "Hh" in
        let Hd := fresh "Hd" in
        destruct (read_raw_request_run b r w) as (w' & H & Hh & Hd);
        js_step H; js_step parsedBody_run
    | |- context [set_cors_headers ?m ?w] =>
        let w' := fresh "w" in
        let H := fresh "H" in
        let Hh := fresh "Hh" in
        let Hd := fresh "Hd" in
        destruct (set_cors_headers_run m w) as (w' & H & Hh & Hd);
        js_step H
    | |- context [save_to_firestore ?e ?d ?s ?w] =>
        let w' := fresh "w" in
        let H := fresh "H" in
        let Hh := fresh "Hh" in
        let Hd := fresh "Hd" in
        destruct (save_to_firestore_run d s w) as (w' & H & Hh & Hd);
        js_step H
    end;
  unfold json, ret; cbv beta iota; cbn [fst snd];
  repeat split;
  repeat match goal with
    | H : res_headers _ = _ |- _ => rewrite H; clear H
    | H : db_added _ = _ |- _ => rewrite H; clear H
    end;
  reflexivity.

(** A POST request to the handler with body parsing: the body is
    converted and parsed, the headers are set, one document is written,
    and the answer is 200 with the envelope. *)
Lemma formats_post (req : Request) :
  method req = "POST" ->
  let rawBody := CaptureFormats.rawBody (body req) in
  let data := CaptureFormats.capturedData env req (body req) rawBody
                (parsedBody_value (contentType req) (body req)) in
  let doc := spread data [("createdAt", JDate (now_iso env));
                          ("requestId", JString (requestId env))] in
  let result := run (CaptureFormats.handler env) req in
  fst result =
    Returned {| status := 200;
                payload := Some (envelope "Request data captured successfully" data
                                   (firestoreResult env doc
                                      "Data saved to Firestore successfully")) |} /\
  res_headers (snd result) = capture_cors /\
  db_added (snd result) = [doc].
Proof.
  intros Hm rawBody data doc result.
  subst result doc data rawBody.
  unfold run, CaptureFormats.handler.
  run_capture Hm.
Qed.

Lemma basic_post (req : Request) :
  method req = "POST" ->
  let data := CaptureBasic.capturedData env req in
  let doc := spread data [("createdAt", JDate (now_iso env));
                          ("requestId", JString (requestId env))] in
  let result := run (CaptureBasic.handler env) req in
  fst result =
    Returned {| status := 200;
                payload := Some (envelope "Request data captured successfully" data
                                   (firestoreResult env doc
                                      "Data saved to Firestore successfully")) |} /\
  res_headers (snd result) = capture_cors /\
  db_added (snd result) = [doc].
Proof.
  intros Hm data doc result.
  subst result doc data.
  unfold run, CaptureBasic.handler.
  run_capture Hm.
Qed.

Lemma typed_post (req : Request) :
  method req = "POST" ->
  let data := CaptureTyped.capturedData env req in
  let doc := spread data [("createdAt", JDate (now_iso env));
                          ("requestId", JString (requestId env))] in
  let result := run (CaptureTyped.handler env) req in
  fst result =
    Returned {| status := 200;
                payload := Some (envelope "Request data captured successfully" data
                                   (firestoreResult env doc
                                      "Data saved to Firestore successfully")) |} /\
  res_headers (snd result) = capture_cors /\
  db_added (snd result) = [doc].
Proof.
  intros Hm data doc result.
  subst result doc data.
  unfold run, CaptureTyped.handler.
  run_capture Hm.
Qed.

(** The XML handler gets as far as the others when the conversion of
    the body gives a raw body. *)
Lemma xml_post (req : Request) (rawBody : string) :
  method req = "POST" ->
  CaptureXml.rawBody (body req) = Returned rawBody ->
  let data := CaptureXml.capturedData env req rawBody in
  let doc := spread data [("createdAt", JDate (now_iso env));
                          ("requestId", JString (requestId env));
                          ("collectionType", JString "xml_capture")] in
  let result := run (CaptureXml.handler env) req in
  fst result =
    Returned {| status := 200;
                payload :=
                  Some (envelope
                          (if isXML (contentType req) rawBody
                           then "XML data captured successfully"
                           else "Request data captured successfully")
                          data
                          (firestoreResult env doc
                             "XML data saved to Firestore successfully")) |} /\
  res_headers (snd result) = capture_cors /\
  db_added (snd result) = [doc].
Proof.
  intros Hm Hraw data doc result.
  subst result doc data.
  unfold run, CaptureXml.handler.
  rewrite Hm.
  change ("POST" =? "POST") with true. cbv beta iota zeta delta [negb].
  unfold try_catch at 1. unfold bind at 1. unfold call. rewrite Hraw. cbv beta iota.
  fold (@try_catch Response).
  run_capture Hm.
Qed.

(** When the conversion throws, the outer [catch] answers 500: one line
    is logged, and nothing else has happened. *)
Lemma xml_conversion_throws (req : Request) (e : Thrown) :
  method req = "POST" ->
  CaptureXml.rawBody (body req) = Threw e ->
  run (CaptureXml.handler env) req = failed req e.
Proof.
  intros Hm Hraw.
  unfold run, CaptureXml.handler, failed.
  rewrite Hm.
  change ("POST" =? "POST") with true. cbv beta iota zeta delta [negb].
  unfold try_catch, bind, call. rewrite Hraw. reflexivity.
Qed.

(** A string, and a body that is falsy, a number or a boolean, are
    converted without a call. *)
Lemma xml_rawBody_of_string (s : string) :
  CaptureXml.rawBody (JString s) = Returned s.
Proof. destruct s; reflexivity. Qed.

Lemma xml_rawBody_of_falsy (b : JsValue) :
  truthy b = false -> CaptureXml.rawBody b = Returned EmptyString.
Proof. intros H. unfold CaptureXml.rawBody. now rewrite H. Qed.

(** Any other method is turned away at the first line of a capture
    handler: 405, and nothing else happens. *)
Lemma not_post (req : Request) :
  (method req =? "POST") = false ->
  let rejected := (Returned {| status := 405; payload := Some (method_not_allowed req) |},
                   world_of req) in
  run (CaptureBasic.handler env) req = rejected /\
  run (CaptureTyped.handler env) req = rejected /\
  run (CaptureFormats.handler env) req = rejected /\
  run (CaptureXml.handler env) req = rejected.
Proof.
  intros Hm rejected.
  unfold run, CaptureBasic.handler, CaptureTyped.handler,
    CaptureFormats.handler, CaptureXml.handler.
  rewrite Hm. repeat split.
Qed.

End Runs.

(** The XML handler has a document to write exactly when the conversion
    gives a raw body. *)
Lemma xml_write_some (B : Builtins) (env : Env) (req : Request) (d : JsValue) :
  xml_write env req = Some d ->
  exists rawBody,
    CaptureXml.rawBody (body req) = Returned rawBody /\ d = xml_document env req rawBody.
Proof.
  unfold xml_write.
  destruct (CaptureXml.rawBody (body req)) as [rawBody|e]; [|discriminate].
  intros H. injection H as <-. now exists rawBody.
Qed.

Lemma xml_write_none (B : Builtins) (env : Env) (req : Request) :
  xml_write env req = None ->
  exists e, CaptureXml.rawBody (body req) = Threw e.
Proof.
  unfold xml_write.
  destruct (CaptureXml.rawBody (body req)) as [rawBody|e]; [discriminate|].
  intros _. now exists e.
Qed.

(** On a POST request a capture endpoint that gets as far as the write
    writes exactly its document and answers 200 with an envelope around
    the outcome. *)
Lemma capture_post (B : Builtins) (env : Env) (req : Request)
  (h : Request -> Js Response) (doc : Request -> option JsValue) (d : JsValue) :
  In (h, doc) (capture_endpoints env) ->
  method req = "POST" ->
  doc req = Some d ->
  exists (msg saved : string) (data : JsValue),
    fst (run h req) =
      Returned {| status := 200;
                  payload := Some (envelope msg data
                                     (firestoreResult env d saved)) |} /\
    res_headers (snd (run h req)) = capture_cors /\
    db_added (snd (run h req)) = [d].
Proof.
  intros Hin Hm Hd. simpl in Hin.
  destruct Hin as [E|[E|[E|[E|[]]]]]; injection E as <- <-.
  - injection Hd as <-. destruct (basic_post env req Hm) as (H1 & H2 & H3). eauto 10.
  - injection Hd as <-. destruct (typed_post env req Hm) as (H1 & H2 & H3). eauto 10.
  - injection Hd as <-. destruct (formats_post env req Hm) as (H1 & H2 & H3). eauto 10.
  - apply xml_write_some in Hd as (rawBody & Hraw & ->).
    destruct (xml_post env req rawBody Hm Hraw) as (H1 & H2 & H3). eauto 10.
Qed.

(** The only capture endpoint that can stop before the write is the XML
    handler, when the conversion of the body throws: the answer is 500. *)
Lemma capture_stops (B : Builtins) (env : Env) (req : Request)
  (h : Request -> Js Response) (doc : Request -> option JsValue) :
  In (h, doc) (capture_endpoints env) ->
  method req = "POST" ->
  doc req = None ->
  h = CaptureXml.handler env /\
  exists e, CaptureXml.rawBody (body req) = Threw e /\ run h req = failed req e.
Proof.
  intros Hin Hm Hd. simpl in Hin.
  destruct Hin as [E|[E|[E|[E|[]]]]]; injection E as <- <-; try discriminate Hd.
  split; [reflexivity|].
  apply xml_write_none in Hd as (e & He).
  exists e. split; [exact He|]. now apply xml_conversion_throws.
Qed.

(** ** The test on the method *)

Section MethodTest.
Context {B : Builtins}.
Variable env : Env.

(** The diagnostic handler tests for OPTIONS before anything else, and
    answers the preflight: the three headers, 200, no body. *)
Lemma diagnostic_answers_preflight (req : Request) :
  method req = "OPTIONS" ->
  fst (run (Diagnostic.handler env) req) = Returned {| status := 200; payload := None |} /\
  res_headers (snd (run (Diagnostic.handler env) req)) =
    [("Access-Control-Allow-Origin", "*");
     ("Access-Control-Allow-Methods", "GET, POST, PUT, DELETE, OPTIONS");
     ("Access-Control-Allow-Headers", "Content-Type")] /\
  db_added (snd (run (Diagnostic.handler env) req)) = [].
Proof.
  intros Hm. unfold run, Diagnostic.handler. rewrite Hm.
  change ("OPTIONS" =? "OPTIONS") with true. cbv iota.
  repeat split.
Qed.

(** A capture handler has three answers: for POST, 200 with the
    envelope, or 500 when the conversion of the body threw; 405 with the
    refusal for anything else.  So its branch for OPTIONS cannot be
    reached: no request is answered with an empty body. *)
Lemma capture_answers (req : Request) (h : Request -> Js Response)
  (doc : Request -> option JsValue) :
  In (h, doc) (capture_endpoints env) ->
  exists r v,
    fst (run h req) = Returned r /\
    payload r = Some v /\
    ((method req = "POST" /\ doc req <> None /\ status r = 200%Z) \/
     (method req = "POST" /\ doc req = None /\ status r = 500%Z) \/
     (method req <> "POST" /\ status r = 405%Z)).
Proof.
  intros Hin.
  destruct (String.eqb_spec (method req) "POST") as [Hm|Hm].
  - destruct (doc req) as [d|] eqn:Hd.
    + destruct (capture_post B env req h doc d Hin Hm Hd) as (msg & saved & data & Hr & _).
      eexists; eexists. split; [exact Hr|]. split; [reflexivity|]. left.
      split; [exact Hm|]. split; [discriminate | reflexivity].
    + destruct (capture_stops B env req h doc Hin Hm Hd) as (_ & e & _ & Hr).
      rewrite Hr. eexists; eexists. split; [reflexivity|]. split; [reflexivity|].
      right. left. now repeat split.
  - assert (Hp : (method req =? "POST") = false) by now apply String.eqb_neq.
    destruct (not_post env req Hp) as (Hb & Ht & Hf & Hx).
    simpl in Hin.
    destruct Hin as [E|[E|[E|[E|[]]]]]; injection E as <- <-;
      eexists; eexists;
      (split; [ first [rewrite Hb | rewrite Ht | rewrite Hf | rewrite Hx]; reflexivity
              | split; [reflexivity | right; right; now split] ]).
Qed.

End MethodTest.

(** C1.  The claim: an OPTIONS request to a capture endpoint gets the
    cross-origin headers and an empty 200, with no write.  What the capture
    handlers do: the test for POST comes first, so an OPTIONS request is
    answered 405 with the method-not-allowed object, no header is set and
    nothing is written; only the last part agrees with the claim. *)
Theorem options_request_is_turned_away (B : Builtins) (env : Env) (req : Request)
  (h : Request -> Js Response) (doc : Request -> option JsValue) :
  In (h, doc) (capture_endpoints env) ->
  method req = "OPTIONS" ->
  fst (run h req) =
    Returned {| status := 405; payload := Some (method_not_allowed req) |} /\
  res_headers (snd (run h req)) = [] /\
  db_added (snd (run h req)) = [].
Proof.
  intros Hin Hm.
  assert (Hp : (method req =? "POST") = false) by (rewrite Hm; reflexivity).
  destruct (not_post env req Hp) as (Hb & Ht & Hf & Hx).
  simpl in Hin.
  destruct Hin as [E|[E|[E|[E|[]]]]]; injection E as <- <-;
    first [rewrite Hb | rewrite Ht | rewrite Hf | rewrite Hx]; repeat split.
Qed.

Lemma options_request_is_turned_away_witness :
  fst (run (CaptureFormats.handler (B := reference_builtins) Examples.store_ok)
           Examples.preflight) =
    Returned {| status := 405;
                payload := Some (method_not_allowed Examples.preflight) |} /\
  res_headers (snd (run (CaptureFormats.handler (B := reference_builtins) Examples.store_ok)
                        Examples.preflight)) = [] /\
  db_added (snd (run (CaptureFormats.handler (B := reference_builtins) Examples.store_ok)
                     Examples.preflight)) = [].
Proof.
  apply (options_request_is_turned_away reference_builtins Examples.store_ok
           Examples.preflight _
           (fun req => Some (formats_document (B := reference_builtins) Examples.store_ok req))).
  - simpl. right. right. left. reflexivity.
  - reflexivity.
Defined.

(** ** The persistence write *)

(** What a rejected write is reported as. *)
Lemma firestoreResult_failed (env : Env) (doc : JsValue) (saved : string) (e : Thrown) :
  outcome (db_add env doc) = Threw e ->
  FirestoreResult_object (firestoreResult env doc saved) =
    JObject [("success", JBool false);
             ("error", JString "Failed to save to Firestore");
             ("message", JString (message_or e "Unknown Firestore error"))].
Proof.
  intros H. unfold firestoreResult. rewrite H. reflexivity.
Qed.

(** What an accepted write is reported as. *)
Lemma firestoreResult_saved (env : Env) (doc : JsValue) (saved docRef : string) :
  outcome (db_add env doc) = Returned docRef ->
  FirestoreResult_object (firestoreResult env doc saved) =
    JObject [("success", JBool true);
             ("documentId", JString docRef);
             ("message", JString saved)].
Proof.
  intros H. unfold firestoreResult. rewrite H. reflexivity.
Qed.

(** C2.  On a POST request to a capture endpoint that gets as far as
    the write, with document [d], and whose write fails with [e] (the call
    throws, or the promise it returned is rejected), the handler has
    handed over exactly that document and still answers 200 with an
    envelope whose [success] is [true]; the nested [firestore] object has
    [success: false], the error text and the message of what was
    thrown. *)
Theorem storage_failure_is_reported_inside_200 (B : Builtins) (env : Env)
  (req : Request) (h : Request -> Js Response) (doc : Request -> option JsValue)
  (d : JsValue) (e : Thrown) :
  In (h, doc) (capture_endpoints env) ->
  method req = "POST" ->
  doc req = Some d ->
  outcome (db_add env d) = Threw e ->
  db_added (snd (run h req)) = [d] /\
  exists (r : Response) (v : JsValue),
    fst (run h req) = Returned r /\
    status r = 200%Z /\
    payload r = Some v /\
    get v "success" = JBool true /\
    get (get v "firestore") "success" = JBool false /\
    get (get v "firestore") "error" = JString "Failed to save to Firestore" /\
    get (get v "firestore") "message" = JString (message_or e "Unknown Firestore error").
Proof.
  intros Hin Hm Hdoc He.
  destruct (capture_post B env req h doc d Hin Hm Hdoc) as (msg & saved & data & Hr & _ & Hd).
  split; [exact Hd|].
  eexists; eexists. split; [exact Hr|].
  unfold envelope. rewrite (firestoreResult_failed env d saved e He).
  repeat split.
Qed.

Lemma storage_failure_is_reported_inside_200_witness :
  db_added (snd (run (CaptureXml.handler (B := reference_builtins) Examples.store_down)
                     Examples.note_xml)) =
    [xml_document Examples.store_down Examples.note_xml
       "<?xml version='1.0' encoding='UTF-8'?><note><to>Ada</to></note>"] /\
  exists (r : Response) (v : JsValue),
    fst (run (CaptureXml.handler (B := reference_builtins) Examples.store_down)
             Examples.note_xml) = Returned r /\
    status r = 200%Z /\
    payload r = Some v /\
    get v "success" = JBool true /\
    get (get v "firestore") "success" = JBool false /\
    get (get v "firestore") "error" = JString "Failed to save to Firestore" /\
    get (get v "firestore") "message" = JString "DEADLINE_EXCEEDED".
Proof.
  eapply (storage_failure_is_reported_inside_200 reference_builtins Examples.store_down
           Examples.note_xml _ (xml_write (B := reference_builtins) Examples.store_down)
           _ (ErrorObject "DEADLINE_EXCEEDED")).
  - simpl. right. right. right. left. reflexivity.
  - reflexivity.
  - reflexivity.
  - reflexivity.
Defined.

(** ** The body type *)

Section BodyType.
Context {B : Builtins}.

(** The handler with the text class classifies as the specification
    words it. *)
Lemma formats_bodyType_spec (contentType rawBody : string) :
  CaptureFormats.bodyType contentType rawBody = bodyType_spec contentType rawBody.
Proof. reflexivity. Qed.

(** The other handler has no text class. *)
Lemma typed_bodyType_spec (contentType rawBody : string) :
  CaptureTyped.bodyType contentType rawBody = bodyType_spec_without_text contentType rawBody.
Proof. reflexivity. Qed.

(** The two classifications differ exactly on what the text class
    takes. *)
Lemma text_class_difference (contentType rawBody : string) :
  bodyType_spec_without_text contentType rawBody =
    if bodyType_spec contentType rawBody =? "text" then "unknown"
    else bodyType_spec contentType rawBody.
Proof.
  unfold bodyType_spec, bodyType_spec_without_text.
  destruct (JsString.includes contentType "application/json"); [reflexivity|].
  destruct (JsString.includes contentType "xml"
            || JsString.includes contentType "text/plain"
               && JsString.startsWith (JsString.trim rawBody) "<?xml"
            || JsString.startsWith (JsString.trim rawBody) "<?xml"); [reflexivity|].
  destruct (JsString.includes contentType "application/x-www-form-urlencoded"
            || JsString.includes contentType "multipart/form-data"); [reflexivity|].
  destruct (JsString.includes contentType "text/plain"); reflexivity.
Qed.

(** Each class, by what decides it. *)
Lemma bodyType_spec_cases (contentType rawBody : string) :
  let json := JsString.includes contentType "application/json" in
  let xml := isXML contentType rawBody in
  let form := isFormData contentType in
  let text := JsString.includes contentType "text/plain" in
  (json = true -> bodyType_spec contentType rawBody = "json") /\
  (json = false -> xml = true -> bodyType_spec contentType rawBody = "xml") /\
  (json = false -> xml = false -> form = true ->
   bodyType_spec contentType rawBody = "form") /\
  (json = false -> xml = false -> form = false -> text = true ->
   bodyType_spec contentType rawBody = "text") /\
  (json = false -> xml = false -> form = false -> text = false ->
   bodyType_spec contentType rawBody = "unknown").
Proof.
  unfold bodyType_spec, isXML, isFormData.
  cbv zeta.
  repeat split.
  - intros ->. reflexivity.
  - intros -> ->. reflexivity.
  - intros -> -> ->. reflexivity.
  - intros -> -> -> ->. reflexivity.
  - intros -> -> -> ->. reflexivity.
Qed.

End BodyType.

(** The [bodyType] and [rawBody] fields of the record of a POST request,
    in the two handlers that compute a [bodyType]. *)
Lemma bodyType_fields (B : Builtins) (env : Env) (req : Request) :
  method req = "POST" ->
  (exists (r : Response) (v : JsValue),
     fst (run (CaptureFormats.handler env) req) = Returned r /\
     payload r = Some v /\
     get (get v "data") "rawBody" = or_null (CaptureFormats.rawBody (body req)) /\
     get (get v "data") "bodyType" =
       JString (bodyType_spec (contentType req) (CaptureFormats.rawBody (body req)))) /\
  (exists (r : Response) (v : JsValue),
     fst (run (CaptureTyped.handler env) req) = Returned r /\
     payload r = Some v /\
     get (get v "data") "rawBody" = or_null (CaptureTyped.rawBody (body req)) /\
     get (get v "data") "bodyType" =
       JString (bodyType_spec_without_text (contentType req)
                  (CaptureTyped.rawBody (body req)))).
Proof.
  intros Hm. split.
  - destruct (formats_post env req Hm) as (Hr & _).
    eexists; eexists. split; [exact Hr|]. repeat split.
  - destruct (typed_post env req Hm) as (Hr & _).
    eexists; eexists. split; [exact Hr|]. repeat split.
Qed.

(** C3, as the code has it.  On a POST request the handler that detects
    plain text (the one that also parses the body) computes [bodyType] by
    the priority order of the claim: json, xml by its three clauses, form,
    text, unknown.  The other handler that computes a [bodyType] follows
    the same order without the text step: what is neither json, xml nor
    form is unknown there. *)
Theorem bodyType_follows_priority_order (B : Builtins) (env : Env) (req : Request) :
  method req = "POST" ->
  (exists (r : Response) (v : JsValue),
     fst (run (CaptureFormats.handler env) req) = Returned r /\
     payload r = Some v /\
     get (get v "data") "rawBody" = or_null (CaptureFormats.rawBody (body req)) /\
     get (get v "data") "bodyType" =
       JString (bodyType_spec (contentType req) (CaptureFormats.rawBody (body req)))) /\
  (exists (r : Response) (v : JsValue),
     fst (run (CaptureTyped.handler env) req) = Returned r /\
     payload r = Some v /\
     get (get v "data") "rawBody" = or_null (CaptureTyped.rawBody (body req)) /\
     get (get v "data") "bodyType" =
       JString (bodyType_spec_without_text (contentType req)
                  (CaptureTyped.rawBody (body req)))).
Proof.
  exact (bodyType_fields B env req).
Qed.

Lemma bodyType_follows_priority_order_witness :
  (exists (r : Response) (v : JsValue),
     fst (run (CaptureFormats.handler (B := reference_builtins) Examples.store_ok)
              Examples.plain_text) = Returned r /\
     payload r = Some v /\
     get (get v "data") "rawBody" = JString "hello" /\
     get (get v "data") "bodyType" = JString "text") /\
  (exists (r : Response) (v : JsValue),
     fst (run (CaptureTyped.handler (B := reference_builtins) Examples.store_ok)
              Examples.plain_text) = Returned r /\
     payload r = Some v /\
     get (get v "data") "rawBody" = JString "hello" /\
     get (get v "data") "bodyType" = JString "unknown").
Proof.
  exact (bodyType_follows_priority_order reference_builtins Examples.store_ok
           Examples.plain_text eq_refl).
Defined.

(** C3, as stated, fails on the capture handler of test-capture.ts: a
    plain text that is no XML is "text" by the claim's order and "unknown"
    in the record. *)
Lemma plain_text_is_unknown_without_text_class :
  bodyType_spec (contentType Examples.plain_text)
    (CaptureTyped.rawBody (B := reference_builtins) (body Examples.plain_text)) = "text" /\
  exists (r : Response) (v : JsValue),
    fst (run (CaptureTyped.handler (B := reference_builtins) Examples.store_ok)
             Examples.plain_text) = Returned r /\
    payload r = Some v /\
    get (get v "data") "bodyType" = JString "unknown" /\
    get (get v "data") "bodyType" <>
      JString (bodyType_spec (contentType Examples.plain_text)
                 (CaptureTyped.rawBody (B := reference_builtins)
                    (body Examples.plain_text))).
Proof.
  split; [reflexivity|].
  eexists; eexists. split; [reflexivity|].
  split; [reflexivity|]. split; [reflexivity|].
  discriminate.
Qed.

(** The two handlers that compute a [bodyType] convert the body to a
    string the same way. *)
Lemma rawBody_same (B : Builtins) (bodyData : JsValue) :
  CaptureTyped.rawBody bodyData = CaptureFormats.rawBody bodyData.
Proof. reflexivity. Qed.

(** C4, as the code has it.  On a POST request whose content type does
    not contain [application/json] and whose trimmed raw body starts with
    the XML declaration, [bodyType] is "xml", whatever else the content
    type says; in both handlers that compute a [bodyType]. *)
Theorem xml_declaration_wins_unless_json (B : Builtins) (env : Env) (req : Request) :
  method req = "POST" ->
  JsString.includes (contentType req) "application/json" = false ->
  JsString.startsWith (JsString.trim (CaptureFormats.rawBody (body req))) "<?xml" = true ->
  (exists (r : Response) (v : JsValue),
     fst (run (CaptureFormats.handler env) req) = Returned r /\
     payload r = Some v /\
     get (get v "data") "rawBody" = JString (CaptureFormats.rawBody (body req)) /\
     get (get v "data") "bodyType" = JString "xml") /\
  (exists (r : Response) (v : JsValue),
     fst (run (CaptureTyped.handler env) req) = Returned r /\
     payload r = Some v /\
     get (get v "data") "rawBody" = JString (CaptureFormats.rawBody (body req)) /\
     get (get v "data") "bodyType" = JString "xml").
Proof.
  intros Hm Hjson Hxml.
  assert (Hraw : or_null (CaptureFormats.rawBody (body req)) =
                 JString (CaptureFormats.rawBody (body req))).
  { unfold or_null, js_or.
    destruct (CaptureFormats.rawBody (body req)); [discriminate | reflexivity]. }
  destruct (bodyType_fields B env req Hm) as (Hf & Ht).
  split.
  - destruct Hf as (r & v & Hr & Hv & Hrb & Hb).
    exists r, v. repeat split; try assumption.
    + now rewrite Hrb.
    + rewrite Hb. unfold bodyType_spec. rewrite Hjson, Hxml.
      now rewrite orb_true_r.
  - destruct Ht as (r & v & Hr & Hv & Hrb & Hb).
    exists r, v. repeat split; try assumption.
    + now rewrite Hrb, rawBody_same.
    + rewrite Hb, rawBody_same. unfold bodyType_spec_without_text. rewrite Hjson, Hxml.
      now rewrite orb_true_r.
Qed.

Lemma xml_declaration_wins_unless_json_witness :
  (exists (r : Response) (v : JsValue),
     fst (run (CaptureFormats.handler (B := reference_builtins) Examples.store_ok)
              Examples.note_xml) = Returned r /\
     payload r = Some v /\
     get (get v "data") "rawBody" =
       JString "<?xml version='1.0' encoding='UTF-8'?><note><to>Ada</to></note>" /\
     get (get v "data") "bodyType" = JString "xml") /\
  (exists (r : Response) (v : JsValue),
     fst (run (CaptureTyped.handler (B := reference_builtins) Examples.store_ok)
              Examples.note_xml) = Returned r /\
     payload r = Some v /\
     get (get v "data") "rawBody" =
       JString "<?xml version='1.0' encoding='UTF-8'?><note><to>Ada</to></note>" /\
     get (get v "data") "bodyType" = JString "xml").
Proof.
  apply (xml_declaration_wins_unless_json reference_builtins Examples.store_ok
           Examples.note_xml).
  - reflexivity.
  - reflexivity.
  - reflexivity.
Defined.

(** C4, as stated, fails: a body that starts with the XML declaration
    and comes with a JSON content type is "json", the first class of the
    order. *)
Lemma xml_text_sent_as_json_is_json :
  JsString.startsWith
    (JsString.trim (CaptureFormats.rawBody (B := reference_builtins)
                      (body Examples.xml_in_json))) "<?xml" = true /\
  exists (r : Response) (v : JsValue),
    fst (run (CaptureFormats.handler (B := reference_builtins) Examples.store_ok)
             Examples.xml_in_json) = Returned r /\
    payload r = Some v /\
    get (get v "data") "rawBody" = JString "<?xml version='1.0'?><a/>" /\
    get (get v "data") "bodyType" = JString "json" /\
    get (get v "data") "bodyType" <> JString "xml".
Proof.
  split; [reflexivity|].
  eexists; eexists. split; [reflexivity|].
  split; [reflexivity|]. split; [reflexivity|]. split; [reflexivity|].
  discriminate.
Qed.

(** ** Parsing the body *)

(** C5.  On a POST request whose content type contains
    [application/json] and whose body is a string that JSON.parse rejects,
    the handler answers 200 with [success: true], and the [body] of the
    record is that string, unchanged: in the handler that parses the body
    the exception does not leave the [try] around the parse, and the other
    capture handlers do not parse. *)
Theorem unparsable_json_body_is_kept (B : Builtins) (env : Env) (req : Request)
  (h : Request -> Js Response) (doc : Request -> option JsValue) (s : string) (e : Thrown) :
  In (h, doc) (capture_endpoints env) ->
  method req = "POST" ->
  JsString.includes (contentType req) "application/json" = true ->
  body req = JString s ->
  JSON_parse s = Threw e ->
  exists (r : Response) (v : JsValue),
    fst (run h req) = Returned r /\
    status r = 200%Z /\
    payload r = Some v /\
    get v "success" = JBool true /\
    get (get v "data") "body" = JString s.
Proof.
  intros Hin Hm Hjson Hbody Hparse.
  simpl in Hin.
  destruct Hin as [E|[E|[E|[E|[]]]]]; injection E as <- <-.
  - destruct (basic_post env req Hm) as (Hr & _).
    eexists; eexists. split; [exact Hr|].
    repeat split. exact Hbody.
  - destruct (typed_post env req Hm) as (Hr & _).
    eexists; eexists. split; [exact Hr|].
    repeat split. exact Hbody.
  - destruct (formats_post env req Hm) as (Hr & _).
    eexists; eexists. split; [exact Hr|].
    repeat split.
    cbn [get envelope assoc String.eqb Ascii.eqb Bool.eqb CaptureFormats.capturedData].
    unfold parsedBody_value, isJSON. rewrite Hjson, Hbody.
    cbn [typeof str andb String.eqb Ascii.eqb Bool.eqb]. now rewrite Hparse.
  - assert (Hraw : CaptureXml.rawBody (body req) = Returned s)
      by (rewrite Hbody; apply xml_rawBody_of_string).
    destruct (xml_post env req s Hm Hraw) as (Hr & _).
    eexists; eexists. split; [exact Hr|].
    repeat split. exact Hbody.
Qed.

Lemma unparsable_json_body_is_kept_witness :
  exists (r : Response) (v : JsValue),
    fst (run (CaptureFormats.handler (B := reference_builtins) Examples.store_ok)
             Examples.broken_json) = Returned r /\
    status r = 200%Z /\
    payload r = Some v /\
    get v "success" = JBool true /\
    get (get v "data") "body" = JString "{oops".
Proof.
  apply (unparsable_json_body_is_kept reference_builtins Examples.store_ok
           Examples.broken_json _
           (fun req => Some (formats_document (B := reference_builtins) Examples.store_ok req))
           "{oops" (ErrorObject "Unexpected token in JSON")).
  - simpl. right. right. left. reflexivity.
  - reflexivity.
  - reflexivity.
  - reflexivity.
  - reflexivity.
Defined.

(** A body that JSON.parse accepts is replaced by what it denotes. *)
Lemma parsable_json_body_is_parsed (B : Builtins) (env : Env) (req : Request)
  (s : string) (parsed : JsValue) :
  method req = "POST" ->
  JsString.includes (contentType req) "application/json" = true ->
  body req = JString s ->
  JSON_parse s = Returned parsed ->
  exists (r : Response) (v : JsValue),
    fst (run (CaptureFormats.handler env) req) = Returned r /\
    payload r = Some v /\
    get (get v "data") "body" = parsed.
Proof.
  intros Hm Hjson Hbody Hparse.
  destruct (formats_post env req Hm) as (Hr & _).
  eexists; eexists. split; [exact Hr|].
  split; [reflexivity|].
  cbn [get envelope assoc String.eqb Ascii.eqb Bool.eqb CaptureFormats.capturedData].
  unfold parsedBody_value, isJSON. rewrite Hjson, Hbody.
  cbn [typeof str andb String.eqb Ascii.eqb Bool.eqb]. now rewrite Hparse.
Qed.

(** The scenarios of the specification for JSON and form bodies. *)
Lemma scenario_json_body :
  exists (r : Response) (v : JsValue),
    fst (run (CaptureFormats.handler (B := reference_builtins) Examples.store_ok)
             Examples.scenario_json) = Returned r /\
    payload r = Some v /\
    get v "success" = JBool true /\
    get (get v "data") "bodyType" = JString "json" /\
    get (get v "data") "body" = JObject [("a", JNumber 1)].
Proof.
  eexists; eexists. repeat split.
Qed.

Lemma scenario_json_parsed_body :
  exists (r : Response) (v : JsValue),
    fst (run (CaptureFormats.handler (B := reference_builtins) Examples.store_ok)
             Examples.scenario_json_parsed) = Returned r /\
    payload r = Some v /\
    get (get v "data") "bodyType" = JString "json" /\
    get (get v "data") "body" = JObject [("a", JNumber 1)] /\
    get (get v "data") "rawBodyLength" = JNumber 12.
Proof.
  eexists; eexists. repeat split.
Qed.

Lemma scenario_form_body :
  exists (r : Response) (v : JsValue),
    fst (run (CaptureFormats.handler (B := reference_builtins) Examples.store_ok)
             Examples.scenario_form) = Returned r /\
    payload r = Some v /\
    get (get v "data") "bodyType" = JString "form" /\
    get (get v "data") "body" = JObject [("a", JString "1"); ("b", JString "2")].
Proof.
  eexists; eexists. repeat split.
Qed.

(** ** XML metadata *)

Section XmlMetadata.
Context {B : Builtins}.

Lemma contains_not_empty (s p : string) :
  contains s p -> p <> EmptyString -> s <> EmptyString.
Proof.
  intros (before & after & ->) Hp He.
  destruct before; [|discriminate].
  destruct p; [now apply Hp | discriminate].
Qed.

Lemma truthy_string (s : string) : truthy (JString s) = true <-> s <> EmptyString.
Proof.
  unfold truthy. destruct (s =? EmptyString) eqn:E; simpl.
  - apply String.eqb_eq in E. split; [discriminate | intros H; now elim H].
  - apply String.eqb_neq in E. split; auto.
Qed.

(** When the metadata is there: the body is taken for XML, it is not
    empty, and both marks of a declaration are found in it. *)
Lemma xmlMetadata_populated (contentType rawBody : string) :
  (exists m, CaptureXml.xmlMetadata contentType rawBody = Some m) <->
  isXML contentType rawBody = true /\
  contains rawBody "<?xml" /\
  contains rawBody "?>".
Proof.
  unfold CaptureXml.xmlMetadata.
  rewrite <- !includes_contains.
  destruct (isXML contentType rawBody); simpl.
  2: { split; [intros (m & H); discriminate | intros (H & _); discriminate]. }
  destruct (JsString.indexOf rawBody "<?xml" =? -1)%Z eqn:Hs;
    destruct (JsString.indexOf rawBody "?>" =? -1)%Z eqn:He; simpl.
  1-3: destruct (negb (rawBody =? EmptyString));
       (split; [intros (m & H); discriminate | intros (_ & H1 & H2)]);
       apply indexOf_found in H1; apply indexOf_found in H2; congruence.
  apply indexOf_found in Hs, He.
  destruct (negb (rawBody =? EmptyString)) eqn:Hne.
  - split; [auto | intros _; eexists; reflexivity].
  - exfalso.
    apply negb_false_iff, String.eqb_eq in Hne. subst rawBody.
    discriminate.
Qed.

(** Without metadata the field of the record is [null]. *)
Lemma xmlMetadata_field (env : Env) (req : Request) (rawBody : string) :
  get (CaptureXml.capturedData env req rawBody) "xmlMetadata" =
    match CaptureXml.xmlMetadata (contentType req) rawBody with
    | Some m => XMLMetadata_object m
    | None => JNull
    end.
Proof. reflexivity. Qed.

Lemma rawBody_field (env : Env) (req : Request) (rawBody : string) :
  get (CaptureXml.capturedData env req rawBody) "rawBody" = or_null rawBody.
Proof. reflexivity. Qed.

(** The record always has the property, whatever its value. *)
Lemma xmlMetadata_present (env : Env) (req : Request) (rawBody : string) :
  exists fields x,
    CaptureXml.capturedData env req rawBody = JObject fields /\
    assoc "xmlMetadata" fields = Some x.
Proof. eexists; eexists. split; reflexivity. Qed.

Lemma or_null_string (s : string) : s <> EmptyString -> or_null s = JString s.
Proof.
  intros H. unfold or_null, js_or. apply truthy_string in H. now rewrite H.
Qed.

End XmlMetadata.

(** A body that is taken for XML and has no declaration: the record says
    [isXML: true] and carries no metadata. *)
Lemma xml_without_declaration_has_no_metadata :
  exists (r : Response) (v : JsValue),
    fst (run (CaptureXml.handler (B := reference_builtins) Examples.store_ok)
             Examples.fragment_xml) = Returned r /\
    payload r = Some v /\
    get (get v "data") "rawBody" = JString "<a/>" /\
    get (get v "data") "isXML" = JBool true /\
    get (get v "data") "xmlMetadata" = JNull.
Proof.
  eexists; eexists. repeat split.
Qed.

(** The record of the document of the examples. *)
Lemma note_xml_metadata :
  exists (r : Response) (v : JsValue),
    fst (run (CaptureXml.handler (B := reference_builtins) Examples.store_ok)
             Examples.note_xml) = Returned r /\
    payload r = Some v /\
    get (get v "data") "xmlMetadata" =
      JObject [("declaration", JString "<?xml version='1.0' encoding='UTF-8'?>");
               ("rootElement", JString "note");
               ("length", JNumber 63);
               ("hasDoctype", JBool false);
               ("encoding", JString "unknown")].
Proof.
  eexists; eexists. repeat split.
Qed.

(** *** The declaration *)

Section Declaration.
Context {B : Builtins}.

(** The first occurrence at or after a position, in what is left from
    that position on. *)
Lemma find_drop (p s : string) (i j : nat) :
  JsString.find p s = Some j -> i <= j ->
  JsString.find p (JsString.drop i s) = Some (j - i).
Proof.
  revert s j; induction i as [|i IH]; intros s j Hj Hle.
  - destruct s; simpl; rewrite Nat.sub_0_r; exact Hj.
  - destruct s as [|c s]; simpl in Hj.
    + destruct (JsString.prefix_of p EmptyString); [|discriminate].
      injection Hj as <-. lia.
    + destruct (JsString.prefix_of p (String c s)).
      * injection Hj as <-. lia.
      * destruct (JsString.find p s) as [k|] eqn:Hk; [|discriminate].
        injection Hj as <-.
        simpl. apply IH; [exact Hk | lia].
Qed.

Lemma find_bound (p s : string) (j : nat) :
  JsString.find p s = Some j -> j + String.length p <= String.length s.
Proof.
  intros H. destruct (find_some _ _ _ H) as (b & a & -> & <-).
  rewrite !length_append. lia.
Qed.

(** [substring] between two positions of the string, in order. *)
Lemma substring_ordered (s : string) (i k : nat) :
  i <= k -> k <= String.length s ->
  JsString.substring s (Z.of_nat i) (Z.of_nat k) = String.substring i (k - i) s.
Proof.
  intros Hik Hk. unfold JsString.substring, JsString.clamp.
  replace (Z.to_nat (Z.min (Z.max (Z.of_nat i) 0) (Z.of_nat (String.length s)))) with i by lia.
  replace (Z.to_nat (Z.min (Z.max (Z.of_nat k) 0) (Z.of_nat (String.length s)))) with k by lia.
  now rewrite Nat.min_l, Nat.max_r by lia.
Qed.

(** Where the first [?>] of the body does not come before the first
    opening, the declaration of the metadata is the one the specification
    describes. *)
Lemma declaration_when_close_follows (contentType rawBody : string) (m : XMLMetadata)
  (i j : nat) :
  CaptureXml.xmlMetadata contentType rawBody = Some m ->
  JsString.find "<?xml" rawBody = Some i ->
  JsString.find "?>" rawBody = Some j ->
  i <= j ->
  declaration_spec rawBody = Some (declaration m).
Proof.
  intros Hm Hi Hj Hle.
  unfold declaration_spec. rewrite Hi, (find_drop _ _ i j Hj Hle).
  unfold CaptureXml.xmlMetadata in Hm.
  destruct (isXML contentType rawBody && truthy (JString rawBody)); [|discriminate].
  unfold JsString.indexOf in Hm. rewrite Hi, Hj in Hm.
  destruct (negb (Z.of_nat i =? -1)%Z && negb (Z.of_nat j =? -1)%Z); [|discriminate].
  injection Hm as <-. cbn [declaration].
  pose proof (find_bound _ _ _ Hj) as Hb. simpl in Hb.
  replace (Z.of_nat j + 2)%Z with (Z.of_nat (j + 2)) by lia.
  rewrite substring_ordered by lia.
  do 2 f_equal. lia.
Qed.

Lemma find_cons (p : string) (c : ascii) (s : string) :
  JsString.find p (String c s) =
    if JsString.prefix_of p (String c s) then Some 0
    else option_map S (JsString.find p s).
Proof. reflexivity. Qed.

(** A body whose text starts with the declaration after white space has
    no [?>] before it: the first [?>] follows the opening. *)
Lemma close_follows_in_sniffed_body (rawBody : string) (i j : nat) :
  JsString.startsWith (JsString.trimStart rawBody) "<?xml" = true ->
  JsString.find "<?xml" rawBody = Some i ->
  JsString.find "?>" rawBody = Some j ->
  i <= j.
Proof.
  unfold JsString.startsWith.
  revert i j; induction rawBody as [|c s IH]; intros i j Hs Hi Hj.
  - discriminate.
  - rewrite find_cons in Hi, Hj.
    cbn [JsString.trimStart] in Hs.
    destruct (JsString.is_ws c) eqn:Hc.
    + destruct (JsString.prefix_of "<?xml" (String c s)); [injection Hi as <-; lia|].
      destruct (JsString.find "<?xml" s) as [i'|]; [|discriminate].
      injection Hi as <-.
      destruct (JsString.prefix_of "?>" (String c s)) eqn:Hq.
      { cbn [JsString.prefix_of] in Hq. apply andb_true_iff in Hq as [Hq _].
        apply Ascii.eqb_eq in Hq. subst c. discriminate. }
      destruct (JsString.find "?>" s) as [j'|]; [|discriminate].
      injection Hj as <-.
      specialize (IH i' j' Hs eq_refl eq_refl). lia.
    + rewrite Hs in Hi. injection Hi as <-. lia.
Qed.

(** [trimEnd] only cuts at the end. *)
Lemma trimEnd_prefix (s : string) :
  exists cut, s = (JsString.trimEnd s ++ cut)%string.
Proof.
  induction s as [|c s (cut & Hcut)]; simpl.
  - exists EmptyString; reflexivity.
  - destruct (JsString.trimEnd s) as [|d t] eqn:Ht.
    + destruct (JsString.is_ws c).
      * exists (String c s); reflexivity.
      * exists cut; simpl in *; now rewrite <- Hcut.
    + exists cut; simpl in *; now rewrite <- Hcut.
Qed.

Lemma startsWith_trim (s p : string) :
  JsString.startsWith (JsString.trim s) p = true ->
  JsString.startsWith (JsString.trimStart s) p = true.
Proof.
  unfold JsString.startsWith, JsString.trim. intros H.
  destruct (prefix_split _ _ H) as (rest & Hrest).
  destruct (trimEnd_prefix (JsString.trimStart s)) as (cut & Hcut).
  rewrite Hcut, Hrest, append_assoc. apply prefix_append.
Qed.

(** For a body that is taken for XML by its own text, the declaration of
    the metadata is the one the specification describes. *)
Lemma declaration_of_sniffed_body (contentType rawBody : string) (m : XMLMetadata) :
  JsString.startsWith (JsString.trim rawBody) "<?xml" = true ->
  CaptureXml.xmlMetadata contentType rawBody = Some m ->
  declaration_spec rawBody = Some (declaration m).
Proof.
  intros Hs Hm.
  assert (Hp : exists m', CaptureXml.xmlMetadata contentType rawBody = Some m')
    by (now exists m).
  apply xmlMetadata_populated in Hp as (_ & H1 & H2).
  apply includes_contains in H1, H2. unfold JsString.includes in H1, H2.
  destruct (JsString.find "<?xml" rawBody) as [i|] eqn:Hi; [|discriminate].
  destruct (JsString.find "?>" rawBody) as [j|] eqn:Hj; [|discriminate].
  apply (declaration_when_close_follows contentType rawBody m i j Hm Hi Hj).
  exact (close_follows_in_sniffed_body rawBody i j (startsWith_trim _ _ Hs) Hi Hj).
Qed.

End Declaration.

(** *** The metadata and the pair *)

Section Pair.
Context {B : Builtins}.

(** Where no [?>] stands before the first opening, metadata means that
    the pair of the specification is found. *)
Lemma populated_means_pair (contentType rawBody : string) (m : XMLMetadata) :
  ~ close_before_open rawBody ->
  CaptureXml.xmlMetadata contentType rawBody = Some m ->
  declaration_spec rawBody = Some (declaration m).
Proof.
  intros Hno Hm.
  assert (Hp : exists m', CaptureXml.xmlMetadata contentType rawBody = Some m')
    by (now exists m).
  apply xmlMetadata_populated in Hp as (_ & H1 & H2).
  apply includes_contains in H1, H2. unfold JsString.includes in H1, H2.
  destruct (JsString.find "<?xml" rawBody) as [i|] eqn:Hi; [|discriminate].
  destruct (JsString.find "?>" rawBody) as [j|] eqn:Hj; [|discriminate].
  apply (declaration_when_close_follows contentType rawBody m i j Hm Hi Hj).
  destruct (Nat.le_gt_cases i j) as [Hle|Hlt]; [exact Hle|].
  elim Hno. exists i, j. now repeat split.
Qed.

End Pair.

(** C6, as the code has it.  In the record of a POST request to the XML
    handler (the conversion of the body having given [rawBody]), the
    property [xmlMetadata] is always there: its value is [null] when there
    is no metadata.  It is [null] whenever one of the two marks is missing
    from [rawBody], also for a body that is taken for XML.  And where no
    [?>] stands before the first opening of a declaration, it is
    populated only when the pair of the specification (the first opening
    and the first [?>] at or after it) is found, and [null] when it is
    not. *)
Theorem xmlMetadata_only_with_declaration_pair (B : Builtins) (env : Env) (req : Request)
  (rawBody : string) :
  method req = "POST" ->
  CaptureXml.rawBody (body req) = Returned rawBody ->
  exists (r : Response) (v : JsValue) (fields : list (string * JsValue)),
    fst (run (CaptureXml.handler env) req) = Returned r /\
    payload r = Some v /\
    get v "data" = JObject fields /\
    assoc "xmlMetadata" fields <> None /\
    get (get v "data") "rawBody" = or_null rawBody /\
    (~ (contains rawBody "<?xml" /\ contains rawBody "?>") ->
     get (get v "data") "xmlMetadata" = JNull) /\
    (~ close_before_open rawBody ->
     (get (get v "data") "xmlMetadata" <> JNull ->
      exists text : string, declaration_spec rawBody = Some text) /\
     (declaration_spec rawBody = None ->
      get (get v "data") "xmlMetadata" = JNull)).
Proof.
  intros Hm Hraw.
  destruct (xml_post env req rawBody Hm Hraw) as (Hr & _).
  destruct (xmlMetadata_present env req rawBody) as (fields & x & Hfields & Hx).
  exists {| status := 200;
            payload :=
              Some (envelope
                      (if isXML (contentType req) rawBody
                       then "XML data captured successfully"
                       else "Request data captured successfully")
                      (CaptureXml.capturedData env req rawBody)
                      (firestoreResult env
                         (spread (CaptureXml.capturedData env req rawBody)
                            [("createdAt", JDate (now_iso env));
                             ("requestId", JString (requestId env));
                             ("collectionType", JString "xml_capture")])
                         "XML data saved to Firestore successfully")) |}.
  eexists; exists fields.
  split; [exact Hr|]. split; [reflexivity|].
  change (get (envelope ?m ?d ?f) "data") with d.
  split; [exact Hfields|].
  split; [rewrite Hx; discriminate|].
  rewrite xmlMetadata_field, rawBody_field.
  split; [reflexivity|].
  destruct (CaptureXml.xmlMetadata (contentType req) rawBody) as [m|] eqn:Hmeta.
  - assert (Hp : exists m', CaptureXml.xmlMetadata (contentType req) rawBody = Some m')
      by (now exists m).
    apply xmlMetadata_populated in Hp as (_ & H1 & H2).
    split.
    + intros Hno. elim Hno. now split.
    + intros Hno.
      pose proof (populated_means_pair _ _ _ Hno Hmeta) as Hpair.
      split.
      * intros _. now exists (declaration m).
      * intros Hnone. rewrite Hnone in Hpair. discriminate.
  - split; [reflexivity|].
    intros _. split; [intros Hnn; now elim Hnn | reflexivity].
Qed.

Lemma xmlMetadata_only_with_declaration_pair_witness :
  exists (r : Response) (v : JsValue) (fields : list (string * JsValue)),
    fst (run (CaptureXml.handler (B := reference_builtins) Examples.store_ok)
             Examples.fragment_xml) = Returned r /\
    payload r = Some v /\
    get v "data" = JObject fields /\
    assoc "xmlMetadata" fields <> None /\
    get (get v "data") "rawBody" = or_null "<a/>" /\
    (~ (contains "<a/>" "<?xml" /\ contains "<a/>" "?>") ->
     get (get v "data") "xmlMetadata" = JNull) /\
    (~ close_before_open "<a/>" ->
     (get (get v "data") "xmlMetadata" <> JNull ->
      exists text : string, declaration_spec "<a/>" = Some text) /\
     (declaration_spec "<a/>" = None ->
      get (get v "data") "xmlMetadata" = JNull)).
Proof.
  apply (xmlMetadata_only_with_declaration_pair reference_builtins Examples.store_ok
           Examples.fragment_xml "<a/>").
  - reflexivity.
  - reflexivity.
Defined.

(** C6, as stated, fails: for a body that is taken for XML and has no
    declaration, the pair is not found, and the record still has the
    property [xmlMetadata], with the value [null]: it is not left out. *)
Lemma missing_pair_gives_null_not_omission :
  isXML (contentType Examples.fragment_xml) "<a/>" = true /\
  declaration_spec "<a/>" = None /\
  exists (r : Response) (v : JsValue) (fields : list (string * JsValue)),
    fst (run (CaptureXml.handler (B := reference_builtins) Examples.store_ok)
             Examples.fragment_xml) = Returned r /\
    payload r = Some v /\
    get v "data" = JObject fields /\
    assoc "xmlMetadata" fields = Some JNull /\
    assoc "xmlMetadata" fields <> None.
Proof.
  split; [reflexivity|]. split; [reflexivity|].
  do 3 eexists. split; [reflexivity|]. split; [reflexivity|].
  split; [reflexivity|]. split; [reflexivity | discriminate].
Qed.

(** The body that the theorem leaves out: a [?>] before an opening that
    is never closed.  The pair of the specification is not found, and the
    handler makes metadata all the same, with the blank between the two
    marks for a declaration: it takes the first [?>] of the whole body. *)
Lemma metadata_without_closing_mark :
  CaptureXml.rawBody (B := reference_builtins) (body Examples.unclosed) =
    Returned "?> <?xml version='1.0'" /\
  close_before_open "?> <?xml version='1.0'" /\
  declaration_spec "?> <?xml version='1.0'" = None /\
  exists (r : Response) (v : JsValue),
    fst (run (CaptureXml.handler (B := reference_builtins) Examples.store_ok)
             Examples.unclosed) = Returned r /\
    payload r = Some v /\
    get (get (get v "data") "xmlMetadata") "declaration" = JString " ".
Proof.
  split; [reflexivity|].
  split; [exists 3, 0; repeat split; lia|].
  split; [reflexivity|].
  eexists; eexists. repeat split.
Qed.

(** C7.  The claim: the declaration is the text from the first opening
    of an XML declaration to the first [?>] at or after it.  The handler
    takes the first [?>] of the whole body: for a body with a [?>] before
    the declaration, the two indices come in the wrong order, [substring]
    swaps them, and the declaration of the record is the blank between
    the stray [?>] and the opening. *)
Theorem declaration_after_stray_close :
  CaptureXml.rawBody (B := reference_builtins) (body Examples.stray_close) =
    Returned "?> <?xml version='1.0'?><a/>" /\
  isXML (contentType Examples.stray_close) "?> <?xml version='1.0'?><a/>" = true /\
  declaration_spec "?> <?xml version='1.0'?><a/>" = Some "<?xml version='1.0'?>" /\
  exists (r : Response) (v : JsValue),
    fst (run (CaptureXml.handler (B := reference_builtins) Examples.store_ok)
             Examples.stray_close) = Returned r /\
    payload r = Some v /\
    get (get v "data") "rawBody" = JString "?> <?xml version='1.0'?><a/>" /\
    get (get (get v "data") "xmlMetadata") "declaration" = JString " ".
Proof.
  split; [reflexivity|]. split; [reflexivity|]. split; [reflexivity|].
  eexists; eexists. repeat split.
Qed.

(** *** The root element *)

(** C8.  For a POST request whose body is taken for XML and contains
    the opening of a declaration, a [?>] and a tag, [rootElement] of the
    metadata is the first tag name of the body: the letters and digits
    after the first [<] that a letter follows. *)
Theorem rootElement_is_first_tag_name (B : Builtins) (env : Env) (req : Request)
  (rawBody name : string) :
  method req = "POST" ->
  CaptureXml.rawBody (body req) = Returned rawBody ->
  isXML (contentType req) rawBody = true ->
  contains rawBody "<?xml" ->
  contains rawBody "?>" ->
  first_tag_name rawBody name ->
  exists (r : Response) (v : JsValue),
    fst (run (CaptureXml.handler env) req) = Returned r /\
    payload r = Some v /\
    get (get v "data") "rawBody" = JString rawBody /\
    get (get (get v "data") "xmlMetadata") "rootElement" = JString name.
Proof.
  intros Hm Hraw Hxml Hopen Hclose Htag.
  destruct (xml_post env req rawBody Hm Hraw) as (Hr & _).
  eexists; eexists. split; [exact Hr|]. split; [reflexivity|].
  change (get (envelope ?m ?d ?f) "data") with d.
  rewrite xmlMetadata_field, rawBody_field.
  split.
  - apply or_null_string. apply (contains_not_empty _ _ Hopen). discriminate.
  - destruct (proj2 (xmlMetadata_populated _ _) (conj Hxml (conj Hopen Hclose)))
      as (m & Hmeta).
    rewrite Hmeta.
    unfold CaptureXml.xmlMetadata in Hmeta.
    destruct (isXML (contentType req) rawBody && truthy (JString rawBody)); [|discriminate].
    destruct (negb (JsString.indexOf rawBody "<?xml" =? -1)%Z
              && negb (JsString.indexOf rawBody "?>" =? -1)%Z);
      [|discriminate].
    injection Hmeta as <-.
    rewrite (match_tag_first _ _ Htag). reflexivity.
Qed.

Lemma rootElement_is_first_tag_name_witness :
  exists (r : Response) (v : JsValue),
    fst (run (CaptureXml.handler (B := reference_builtins) Examples.store_ok)
             Examples.note_xml) = Returned r /\
    payload r = Some v /\
    get (get v "data") "rawBody" =
      JString "<?xml version='1.0' encoding='UTF-8'?><note><to>Ada</to></note>" /\
    get (get (get v "data") "xmlMetadata") "rootElement" = JString "note".
Proof.
  apply (rootElement_is_first_tag_name reference_builtins Examples.store_ok
           Examples.note_xml
           "<?xml version='1.0' encoding='UTF-8'?><note><to>Ada</to></note>" "note").
  - reflexivity.
  - reflexivity.
  - reflexivity.
  - exists EmptyString, " version='1.0' encoding='UTF-8'?><note><to>Ada</to></note>".
    reflexivity.
  - exists "<?xml version='1.0' encoding='UTF-8'", "<note><to>Ada</to></note>".
    reflexivity.
  - apply match_tag_sound. reflexivity.
Defined.

(** The scenario of the specification: a document with its declaration,
    sent as plain text. *)
Lemma scenario_xml_metadata :
  exists (r : Response) (v : JsValue),
    fst (run (CaptureXml.handler (B := reference_builtins) Examples.store_ok)
             Examples.scenario_xml) = Returned r /\
    payload r = Some v /\
    get (get v "data") "isXML" = JBool true /\
    get (get (get v "data") "xmlMetadata") "rootElement" = JString "root" /\
    get (get (get v "data") "xmlMetadata") "encoding" = JString "UTF-8" /\
    get (get (get v "data") "xmlMetadata") "hasDoctype" = JBool false.
Proof.
  eexists; eexists. repeat split.
Qed.

Lemma scenario_xml_bodyType :
  exists (r : Response) (v : JsValue),
    fst (run (CaptureFormats.handler (B := reference_builtins) Examples.store_ok)
             Examples.scenario_xml) = Returned r /\
    payload r = Some v /\
    get (get v "data") "bodyType" = JString "xml".
Proof.
  eexists; eexists. repeat split.
Qed.

(** ** The raw body *)

Section RawBody.
Context {B : Builtins}.
Variable env : Env.

(** The [rawBody] of the record is [null] exactly when the variable is
    the empty string at the time the record is built. *)
Lemma rawBody_null_iff (req : Request) :
  get (CaptureFormats.capturedData env req (body req)
         (CaptureFormats.rawBody (body req))
         (parsedBody_value (contentType req) (body req))) "rawBody" = JNull <->
  CaptureFormats.rawBody (body req) = EmptyString.
Proof.
  change (or_null (CaptureFormats.rawBody (body req)) = JNull <->
          CaptureFormats.rawBody (body req) = EmptyString).
  unfold or_null, js_or.
  destruct (truthy (JString (CaptureFormats.rawBody (body req)))) eqn:Ht.
  - apply truthy_string in Ht. split; [discriminate | intros H; now elim Ht].
  - split; [intros _ | reflexivity].
    destruct (String.eqb_spec (CaptureFormats.rawBody (body req)) EmptyString) as [E|E];
      [exact E|].
    apply truthy_string in E. congruence.
Qed.

(** A body that is falsy, a number or a boolean leaves the variable
    empty. *)
Lemma rawBody_empty_cases (bodyData : JsValue) :
  truthy bodyData = false \/ typeof bodyData = "number" \/ typeof bodyData = "boolean" ->
  CaptureFormats.rawBody bodyData = EmptyString.
Proof.
  unfold CaptureFormats.rawBody.
  intros [H|[H|H]].
  - now rewrite H.
  - rewrite H. now destruct (truthy bodyData).
  - rewrite H. now destruct (truthy bodyData).
Qed.

(** What the stream still holds never reaches the answer: the response
    to a POST request is the same whatever chunks are left unread. *)
Lemma response_ignores_stream (req : Request) (pending : list string) :
  method req = "POST" ->
  fst (run (CaptureFormats.handler env) (with_stream req pending)) =
  fst (run (CaptureFormats.handler env) req).
Proof.
  intros Hm.
  destruct (formats_post env req Hm) as (-> & _).
  destruct (formats_post env (with_stream req pending) Hm) as (-> & _).
  reflexivity.
Qed.

End RawBody.

(** C9.  The claim: [rawBody] of the record is [null] exactly when the
    request carried no body.  For a request whose payload the framework
    did not parse, the handler puts listeners on the stream and builds the
    record before they can run: the record says [rawBody: null] and
    [bodyExists: false], and the payload arrives in the listeners'
    variables only while the write is awaited, after the record was
    built. *)
Theorem rawBody_null_with_unread_stream :
  stream Examples.unparsed = ["<note>"; "</note>"] /\
  exists (r : Response) (v : JsValue),
    fst (run (CaptureFormats.handler (B := reference_builtins) Examples.store_ok)
             Examples.unparsed) = Returned r /\
    status r = 200%Z /\
    payload r = Some v /\
    get (get v "data") "rawBody" = JNull /\
    get (get v "data") "bodyExists" = JBool false /\
    listeners (snd (run (CaptureFormats.handler (B := reference_builtins) Examples.store_ok)
                        Examples.unparsed)) =
      Some {| chunks := ["<note>"; "</note>"];
              var_rawBody := "<note></note>";
              var_bodyData := JString "<note></note>" |}.
Proof.
  split; [reflexivity|].
  eexists; eexists. repeat split.
Qed.

(** A payload that the framework parsed to a number is in no better
    place: the conversion has no case for it. *)
Lemma rawBody_null_for_a_number :
  exists (r : Response) (v : JsValue),
    fst (run (CaptureFormats.handler (B := reference_builtins) Examples.store_ok)
             Examples.number_json) = Returned r /\
    payload r = Some v /\
    get (get v "data") "body" = JNumber 42 /\
    get (get v "data") "rawBody" = JNull.
Proof.
  eexists; eexists. repeat split.
Qed.

(** ** The XML test *)

(** C10.  For every content type and every raw body, the XML test with
    its three clauses equals the test with two: the clause on
    [text/plain] adds nothing to the clause on the body alone. *)
Theorem isXML_text_plain_clause_redundant (contentType rawBody : string) :
  isXML contentType rawBody = isXML_two_clauses contentType rawBody.
Proof.
  unfold isXML, isXML_two_clauses.
  destruct (JsString.includes contentType "xml"); [reflexivity|].
  destruct (JsString.startsWith (JsString.trim rawBody) "<?xml").
  - now rewrite orb_true_r.
  - now rewrite andb_false_r.
Qed.

(** * Further properties of the handlers *)

(** Evaluates the monad's operations in a run, down to the world. *)
Ltac js_eval :=
  cbv beta iota zeta delta
    [bind try_catch ret throw call json end_ set_cors_headers setHeader
     log_error req_on_data_end event_loop add internal_error save_to_firestore];
  cbn [fst snd res_headers db_added console_error socket listeners world_of app].

(** Starts the run of a capture handler on a POST request. *)
Ltac post_run Hm :=
  rewrite Hm;
  change ("POST" =? "POST") with true; change ("POST" =? "OPTIONS") with false;
  cbv beta iota zeta delta [negb].

Section Worlds.
Context {B : Builtins}.
Variable env : Env.

Lemma basic_world (req : Request) :
  method req = "POST" ->
  snd (run (CaptureBasic.handler env) req) = settled env req (basic_document env req).
Proof.
  intros Hm. unfold run, CaptureBasic.handler. post_run Hm.
  js_eval. fold (basic_document env req). unfold settled, logged.
  destruct (db_add env (basic_document env req)) as [e|events [id|e]]; reflexivity.
Qed.

Lemma typed_world (req : Request) :
  method req = "POST" ->
  snd (run (CaptureTyped.handler env) req) = settled env req (typed_document env req).
Proof.
  intros Hm. unfold run, CaptureTyped.handler. post_run Hm.
  js_eval. fold (typed_document env req). unfold settled, logged.
  destruct (db_add env (typed_document env req)) as [e|events [id|e]]; reflexivity.
Qed.

Lemma xml_world (req : Request) (rawBody : string) :
  method req = "POST" ->
  CaptureXml.rawBody (body req) = Returned rawBody ->
  snd (run (CaptureXml.handler env) req) = settled env req (xml_document env req rawBody).
Proof.
  intros Hm Hraw. unfold run, CaptureXml.handler. post_run Hm.
  unfold try_catch at 1. unfold bind at 1. unfold call. rewrite Hraw. cbv beta iota.
  js_eval. fold (xml_document env req rawBody). unfold settled, logged.
  destruct (db_add env (xml_document env req rawBody)) as [e|events [id|e]]; reflexivity.
Qed.

(** The handler with the stream fallback: the listeners are there
    exactly for a falsy body, and then the stream has emitted to them the
    events that the write left time for. *)
Lemma formats_world (req : Request) :
  method req = "POST" ->
  let events := events_of (db_add env (formats_document env req)) in
  snd (run (CaptureFormats.handler env) req) =
    {| res_headers := capture_cors;
       db_added := [formats_document env req];
       console_error := logged (outcome (db_add env (formats_document env req)));
       socket := if truthy (body req) then stream req
                 else fst (emit events (stream req) (registered req));
       listeners := if truthy (body req) then None
                    else Some (snd (emit events (stream req) (registered req))) |}.
Proof.
  intros Hm events. subst events. unfold run, CaptureFormats.handler. post_run Hm.
  unfold try_catch at 1. unfold bind at 1.
  unfold CaptureFormats.read_raw_request, logged, registered.
  destruct (truthy (body req)) eqn:Ht.
  - cbn [negb andb]. js_eval. rewrite parsedBody_run. js_eval.
    fold (formats_document env req).
    destruct (db_add env (formats_document env req)) as [e|events [id|e]]; reflexivity.
  - assert (Hr : CaptureFormats.rawBody (body req) = EmptyString).
    { unfold CaptureFormats.rawBody. now rewrite Ht. }
    rewrite Hr. cbn [negb andb truthy String.eqb].
    js_eval. rewrite parsedBody_run. js_eval.
    unfold formats_document. rewrite Hr.
    destruct (db_add env _) as [e|events [id|e]]; reflexivity.
Qed.

(** What a capture endpoint leaves behind on a POST request that gets
    as far as the write. *)
Lemma capture_effects (req : Request) (h : Request -> Js Response)
  (doc : Request -> option JsValue) (d : JsValue) :
  In (h, doc) (capture_endpoints env) ->
  method req = "POST" ->
  doc req = Some d ->
  res_headers (snd (run h req)) = capture_cors /\
  db_added (snd (run h req)) = [d] /\
  console_error (snd (run h req)) = logged (outcome (db_add env d)).
Proof.
  intros Hin Hm Hd. simpl in Hin.
  destruct Hin as [E|[E|[E|[E|[]]]]]; injection E as <- <-.
  - injection Hd as <-. rewrite (basic_world req Hm). repeat split.
  - injection Hd as <-. rewrite (typed_world req Hm). repeat split.
  - injection Hd as <-. rewrite (formats_world req Hm). repeat split.
  - apply xml_write_some in Hd as (rawBody & Hraw & ->).
    rewrite (xml_world req rawBody Hm Hraw). repeat split.
Qed.

(** The record each capture endpoint echoes on such a request. *)
Lemma capture_data (req : Request) (h : Request -> Js Response)
  (doc : Request -> option JsValue) (d : JsValue) :
  In (h, doc) (capture_endpoints env) ->
  method req = "POST" ->
  doc req = Some d ->
  exists (msg saved : string) (fields : list (string * JsValue))
         (stamps : list (string * JsValue)),
    fst (run h req) =
      Returned {| status := 200;
                  payload := Some (envelope msg (JObject fields)
                                     (firestoreResult env d saved)) |} /\
    d = JObject (fields ++ stamps) /\
    assoc "createdAt" fields = None /\
    assoc "requestId" fields = None /\
    assoc "collectionType" fields = None /\
    (stamps = [("createdAt", JDate (now_iso env));
               ("requestId", JString (requestId env))] \/
     stamps = [("createdAt", JDate (now_iso env));
               ("requestId", JString (requestId env));
               ("collectionType", JString "xml_capture")]).
Proof.
  intros Hin Hm Hd. simpl in Hin.
  destruct Hin as [E|[E|[E|[E|[]]]]]; injection E as <- <-.
  - injection Hd as <-. destruct (basic_post env req Hm) as (Hr & _).
    do 4 eexists. split; [exact Hr|].
    repeat split; try reflexivity. left; reflexivity.
  - injection Hd as <-. destruct (typed_post env req Hm) as (Hr & _).
    do 4 eexists. split; [exact Hr|].
    repeat split; try reflexivity. left; reflexivity.
  - injection Hd as <-. destruct (formats_post env req Hm) as (Hr & _).
    do 4 eexists. split; [exact Hr|].
    repeat split; try reflexivity. left; reflexivity.
  - apply xml_write_some in Hd as (rawBody & Hraw & ->).
    destruct (xml_post env req rawBody Hm Hraw) as (Hr & _).
    do 4 eexists. split; [exact Hr|].
    repeat split; try reflexivity. right; reflexivity.
Qed.

End Worlds.

(** ** Methods other than POST *)

(** X1.  A request to a capture endpoint with any method but POST is
    answered 405 with the fixed error text, [allowedMethod: 'POST'] and
    the method received, and that is all: no header is set, nothing is
    written, nothing is logged, the stream is not touched. *)
Theorem other_methods_get_405 (B : Builtins) (env : Env) (req : Request)
  (h : Request -> Js Response) (doc : Request -> option JsValue) :
  In (h, doc) (capture_endpoints env) ->
  method req <> "POST" ->
  run h req =
    (Returned
       {| status := 405;
          payload :=
            Some (JObject
                    [("error", JString "Method not allowed. Only POST requests are accepted.");
                     ("allowedMethod", JString "POST");
                     ("receivedMethod", JString (method req))]) |},
     world_of req).
Proof.
  intros Hin Hm.
  assert (Hp : (method req =? "POST") = false) by now apply String.eqb_neq.
  destruct (not_post env req Hp) as (Hb & Ht & Hf & Hx).
  simpl in Hin.
  destruct Hin as [E|[E|[E|[E|[]]]]]; injection E as <- <-; assumption.
Qed.

Lemma other_methods_get_405_witness :
  run (CaptureXml.handler (B := reference_builtins) Examples.store_ok)
      MoreExamples.get_request =
    (Returned
       {| status := 405;
          payload :=
            Some (JObject
                    [("error", JString "Method not allowed. Only POST requests are accepted.");
                     ("allowedMethod", JString "POST");
                     ("receivedMethod", JString "GET")]) |},
     world_of MoreExamples.get_request).
Proof.
  apply (other_methods_get_405 reference_builtins Examples.store_ok
           MoreExamples.get_request _
           (xml_write (B := reference_builtins) Examples.store_ok)).
  - simpl. right. right. right. left. reflexivity.
  - discriminate.
Defined.

(** ** The write that goes through *)

(** X2.  On a POST request that gets as far as the write and whose
    write resolves, every capture endpoint answers 200 with
    [success: true]; the [firestore] object has [success: true], the id
    the store gave as [documentId], the message of success and no
    [error]; nothing is logged. *)
Theorem accepted_write_is_reported (B : Builtins) (env : Env) (req : Request)
  (h : Request -> Js Response) (doc : Request -> option JsValue) (d : JsValue)
  (id : string) :
  In (h, doc) (capture_endpoints env) ->
  method req = "POST" ->
  doc req = Some d ->
  outcome (db_add env d) = Returned id ->
  console_error (snd (run h req)) = [] /\
  exists (r : Response) (v : JsValue) (saved : string),
    fst (run h req) = Returned r /\
    status r = 200%Z /\
    payload r = Some v /\
    get v "success" = JBool true /\
    get v "firestore" =
      JObject [("success", JBool true);
               ("documentId", JString id);
               ("message", JString saved)] /\
    get (get v "firestore") "error" = JUndefined.
Proof.
  intros Hin Hm Hd Hid.
  destruct (capture_effects env req h doc d Hin Hm Hd) as (_ & _ & Hlog).
  split; [rewrite Hlog, Hid; reflexivity|].
  destruct (capture_post B env req h doc d Hin Hm Hd) as (msg & saved & data & Hr & _).
  exists {| status := 200;
            payload := Some (envelope msg data (firestoreResult env d saved)) |}.
  eexists; exists saved. split; [exact Hr|].
  split; [reflexivity|]. split; [reflexivity|]. split; [reflexivity|].
  unfold envelope. cbn [get assoc String.eqb Ascii.eqb Bool.eqb].
  rewrite (firestoreResult_saved env d saved id Hid).
  split; reflexivity.
Qed.

Lemma accepted_write_is_reported_witness :
  console_error (snd (run (CaptureXml.handler (B := reference_builtins) Examples.store_ok)
                          Examples.plain_text)) = [] /\
  exists (r : Response) (v : JsValue) (saved : string),
    fst (run (CaptureXml.handler (B := reference_builtins) Examples.store_ok)
             Examples.plain_text) = Returned r /\
    status r = 200%Z /\
    payload r = Some v /\
    get v "success" = JBool true /\
    get v "firestore" =
      JObject [("success", JBool true);
               ("documentId", JString "doc-1");
               ("message", JString saved)] /\
    get (get v "firestore") "error" = JUndefined.
Proof.
  eapply (accepted_write_is_reported reference_builtins Examples.store_ok
           Examples.plain_text _ (xml_write (B := reference_builtins) Examples.store_ok)
           _ "doc-1").
  - simpl. right. right. right. left. reflexivity.
  - reflexivity.
  - reflexivity.
  - reflexivity.
Defined.

(** X3.  What a capture endpoint logs and which headers it sets, by
    the way the request goes.  A request that is not POST: nothing, no
    header.  A POST request that gets as far as the write: the three
    cross-origin headers, and the line of the inner [catch] exactly when
    the write fails.  A POST request that stops before the write, which
    only the XML handler can do, when the conversion of the body throws:
    the answer is 500, the line of the outer [catch] is the one line
    logged, no header is set and nothing is written.  So the line of the
    outer [catch] is logged in that case and in no other. *)
Theorem capture_logs_by_outcome (B : Builtins) (env : Env) (req : Request)
  (h : Request -> Js Response) (doc : Request -> option JsValue) :
  In (h, doc) (capture_endpoints env) ->
  (method req <> "POST" ->
   console_error (snd (run h req)) = [] /\ res_headers (snd (run h req)) = []) /\
  (forall d : JsValue,
     method req = "POST" -> doc req = Some d ->
     res_headers (snd (run h req)) = capture_cors /\
     (forall id, outcome (db_add env d) = Returned id ->
                 console_error (snd (run h req)) = []) /\
     (forall e, outcome (db_add env d) = Threw e ->
                console_error (snd (run h req)) = ["Firestore error:"])) /\
  (method req = "POST" -> doc req = None ->
   h = CaptureXml.handler env /\
   (exists e, CaptureXml.rawBody (body req) = Threw e) /\
   (exists r, fst (run h req) = Returned r /\ status r = 500%Z) /\
   console_error (snd (run h req)) = ["Error capturing request data:"] /\
   res_headers (snd (run h req)) = [] /\
   db_added (snd (run h req)) = []) /\
  (In "Error capturing request data:" (console_error (snd (run h req))) <->
   method req = "POST" /\ doc req = None).
Proof.
  intros Hin.
  assert (Hnot : method req <> "POST" ->
                 console_error (snd (run h req)) = [] /\ res_headers (snd (run h req)) = []).
  { intros Hm.
    assert (Hp : (method req =? "POST") = false) by now apply String.eqb_neq.
    destruct (not_post env req Hp) as (Hb & Ht & Hf & Hx).
    simpl in Hin.
    destruct Hin as [E|[E|[E|[E|[]]]]]; injection E as <- <-;
      first [rewrite Hb | rewrite Ht | rewrite Hf | rewrite Hx]; split; reflexivity. }
  assert (Hpost : forall d, method req = "POST" -> doc req = Some d ->
                  res_headers (snd (run h req)) = capture_cors /\
                  console_error (snd (run h req)) = logged (outcome (db_add env d))).
  { intros d Hm Hd. destruct (capture_effects env req h doc d Hin Hm Hd) as (Hh & _ & Hl).
    now split. }
  assert (Hstop : method req = "POST" -> doc req = None ->
                  h = CaptureXml.handler env /\
                  exists e, CaptureXml.rawBody (body req) = Threw e /\
                            run h req = failed req e).
  { intros Hm Hd. exact (capture_stops B env req h doc Hin Hm Hd). }
  split; [exact Hnot|]. split; [|split].
  - intros d Hm Hd. destruct (Hpost d Hm Hd) as (Hh & Hl).
    split; [exact Hh|]. split; intros x Hx; rewrite Hl, Hx; reflexivity.
  - intros Hm Hd. destruct (Hstop Hm Hd) as (Hh & e & He & Hr).
    split; [exact Hh|]. split; [now exists e|].
    rewrite Hr. split; [eexists; split; reflexivity|]. repeat split.
  - split.
    + intros Hlog.
      destruct (String.eqb_spec (method req) "POST") as [Hm|Hm].
      * split; [exact Hm|].
        destruct (doc req) as [d|] eqn:Hd; [|reflexivity].
        destruct (Hpost d Hm eq_refl) as (_ & Hl). rewrite Hl in Hlog.
        destruct (outcome (db_add env d)); simpl in Hlog; [tauto|].
        destruct Hlog as [H|[]]. discriminate.
      * destruct (Hnot Hm) as (Hl & _). rewrite Hl in Hlog. now elim Hlog.
    + intros (Hm & Hd). destruct (Hstop Hm Hd) as (_ & e & _ & Hr).
      rewrite Hr. simpl. now left.
Qed.

Lemma capture_logs_by_outcome_witness :
  (method MoreExamples.shadowed <> "POST" ->
   console_error (snd (run (CaptureXml.handler (B := reference_builtins) Examples.store_down)
                           MoreExamples.shadowed)) = [] /\
   res_headers (snd (run (CaptureXml.handler (B := reference_builtins) Examples.store_down)
                         MoreExamples.shadowed)) = []) /\
  (forall d : JsValue,
     method MoreExamples.shadowed = "POST" ->
     xml_write (B := reference_builtins) Examples.store_down MoreExamples.shadowed = Some d ->
     res_headers (snd (run (CaptureXml.handler (B := reference_builtins) Examples.store_down)
                           MoreExamples.shadowed)) = capture_cors /\
     (forall id,
        outcome (db_add Examples.store_down d) = Returned id ->
        console_error (snd (run (CaptureXml.handler (B := reference_builtins)
                                   Examples.store_down) MoreExamples.shadowed)) = []) /\
     (forall e,
        outcome (db_add Examples.store_down d) = Threw e ->
        console_error (snd (run (CaptureXml.handler (B := reference_builtins)
                                   Examples.store_down) MoreExamples.shadowed))
          = ["Firestore error:"])) /\
  (method MoreExamples.shadowed = "POST" ->
   xml_write (B := reference_builtins) Examples.store_down MoreExamples.shadowed = None ->
   CaptureXml.handler (B := reference_builtins) Examples.store_down =
     CaptureXml.handler (B := reference_builtins) Examples.store_down /\
   (exists e, CaptureXml.rawBody (B := reference_builtins) (body MoreExamples.shadowed)
              = Threw e) /\
   (exists r,
      fst (run (CaptureXml.handler (B := reference_builtins) Examples.store_down)
               MoreExamples.shadowed) = Returned r /\ status r = 500%Z) /\
   console_error (snd (run (CaptureXml.handler (B := reference_builtins) Examples.store_down)
                           MoreExamples.shadowed)) = ["Error capturing request data:"] /\
   res_headers (snd (run (CaptureXml.handler (B := reference_builtins) Examples.store_down)
                         MoreExamples.shadowed)) = [] /\
   db_added (snd (run (CaptureXml.handler (B := reference_builtins) Examples.store_down)
                      MoreExamples.shadowed)) = []) /\
  (In "Error capturing request data:"
      (console_error (snd (run (CaptureXml.handler (B := reference_builtins)
                                  Examples.store_down) MoreExamples.shadowed))) <->
   method MoreExamples.shadowed = "POST" /\
   xml_write (B := reference_builtins) Examples.store_down MoreExamples.shadowed = None).
Proof.
  apply (capture_logs_by_outcome reference_builtins Examples.store_down
           MoreExamples.shadowed _
           (xml_write (B := reference_builtins) Examples.store_down)).
  simpl. right. right. right. left. reflexivity.
Defined.

(** ** What is stored and what is echoed *)

Section Objects.

Lemma assoc_app {A : Type} (k : string) (l1 l2 : list (string * A)) :
  assoc k (l1 ++ l2) =
    match assoc k l1 with
    | Some v => Some v
    | None => assoc k l2
    end.
Proof.
  induction l1 as [|[k' v] l1 IH]; simpl; [reflexivity|].
  destruct (k' =? k); [reflexivity | exact IH].
Qed.

(** A property of the fields stays a property of the object with more
    fields after them. *)
Lemma get_old (fields more : list (string * JsValue)) (k : string) :
  assoc k more = None ->
  get (JObject (fields ++ more)) k = get (JObject fields) k.
Proof.
  intros H. unfold get. rewrite assoc_app, H.
  now destruct (assoc k fields).
Qed.

Lemma get_new (fields more : list (string * JsValue)) (k : string) :
  assoc k fields = None ->
  get (JObject (fields ++ more)) k = get (JObject more) k.
Proof.
  intros H. unfold get. now rewrite assoc_app, H.
Qed.

End Objects.

(** X4.  On a POST request the one document a capture endpoint hands to
    the store is the record it echoes under [data], with the stamps added
    at write time: apart from [createdAt], [requestId] and
    [collectionType] every property has the same value in both;
    [createdAt] and [requestId] are in the document only, the latter made
    of the clock and the random suffix; [collectionType] is
    ['xml_capture'] or not there. *)
Theorem stored_document_is_the_record_stamped (B : Builtins) (env : Env) (req : Request)
  (h : Request -> Js Response) (doc : Request -> option JsValue) (d : JsValue) :
  In (h, doc) (capture_endpoints env) ->
  method req = "POST" ->
  doc req = Some d ->
  exists (r : Response) (v : JsValue),
    fst (run h req) = Returned r /\
    payload r = Some v /\
    db_added (snd (run h req)) = [d] /\
    (forall k : string,
       k <> "createdAt" -> k <> "requestId" -> k <> "collectionType" ->
       get d k = get (get v "data") k) /\
    get d "createdAt" = JDate (now_iso env) /\
    get d "requestId" =
      JString (decimal (now_ms env) ++ "-" ++ random_suffix env)%string /\
    get (get v "data") "createdAt" = JUndefined /\
    get (get v "data") "requestId" = JUndefined /\
    (get d "collectionType" = JString "xml_capture" \/
     get d "collectionType" = JUndefined).
Proof.
  intros Hin Hm Hsome.
  destruct (capture_effects env req h doc d Hin Hm Hsome) as (_ & Hd & _).
  destruct (capture_data env req h doc d Hin Hm Hsome)
    as (msg & saved & fields & stamps & Hr & Hdoc & Hc & Hi & Ht & Hstamps).
  eexists; eexists. split; [exact Hr|]. split; [reflexivity|].
  split; [exact Hd|].
  change (get (envelope ?m ?d ?f) "data") with d.
  rewrite Hdoc.
  assert (Hother : forall k : string,
             k <> "createdAt" -> k <> "requestId" -> k <> "collectionType" ->
             assoc k stamps = None).
  { intros k H1 H2 H3.
    apply not_eq_sym, String.eqb_neq in H1, H2, H3.
    destruct Hstamps as [-> | ->]; cbn [assoc]; now rewrite H1, H2, ?H3. }
  split; [intros k H1 H2 H3; apply get_old; now apply Hother|].
  rewrite !get_new by assumption.
  unfold get at 3 4. rewrite Hc, Hi.
  destruct Hstamps as [-> | ->]; repeat split; auto.
Qed.

Lemma stored_document_is_the_record_stamped_witness :
  exists (r : Response) (v : JsValue),
    fst (run (CaptureXml.handler (B := reference_builtins) Examples.store_ok)
             Examples.note_xml) = Returned r /\
    payload r = Some v /\
    db_added (snd (run (CaptureXml.handler (B := reference_builtins) Examples.store_ok)
                       Examples.note_xml)) =
      [xml_document Examples.store_ok Examples.note_xml
         Examples.note_text] /\
    (forall k : string,
       k <> "createdAt" -> k <> "requestId" -> k <> "collectionType" ->
       get (xml_document Examples.store_ok Examples.note_xml
            Examples.note_text) k =
       get (get v "data") k) /\
    get (xml_document Examples.store_ok Examples.note_xml
            Examples.note_text)
      "createdAt" = JDate "2024-05-01T10:00:00.000Z" /\
    get (xml_document Examples.store_ok Examples.note_xml
            Examples.note_text)
      "requestId" = JString "1714557600000-k3j9x0q1z" /\
    get (get v "data") "createdAt" = JUndefined /\
    get (get v "data") "requestId" = JUndefined /\
    (get (xml_document Examples.store_ok Examples.note_xml
            Examples.note_text)
       "collectionType" = JString "xml_capture" \/
     get (xml_document Examples.store_ok Examples.note_xml
            Examples.note_text)
       "collectionType" = JUndefined).
Proof.
  eapply (stored_document_is_the_record_stamped reference_builtins Examples.store_ok
           Examples.note_xml _ (xml_write (B := reference_builtins) Examples.store_ok)).
  - simpl. right. right. right. left. reflexivity.
  - reflexivity.
  - reflexivity.
Defined.

(** ** The body of the record *)

Section Bodies.
Context {B : Builtins}.

(** Only a string is parsed, and only under a JSON or form content
    type. *)
Lemma parsedBody_value_same (contentType : string) (bodyData : JsValue) :
  typeof bodyData <> "string" \/ (isJSON contentType = false /\ isFormData contentType = false) ->
  parsedBody_value contentType bodyData = bodyData.
Proof.
  unfold parsedBody_value. intros [H|[H1 H2]].
  - apply String.eqb_neq in H. rewrite H, !andb_false_r. reflexivity.
  - now rewrite H1, H2.
Qed.

Lemma formats_body_field (env : Env) (req : Request) (bodyData : JsValue) (rawBody : string)
  (parsed : JsValue) :
  get (CaptureFormats.capturedData env req bodyData rawBody parsed) "body" = parsed.
Proof. reflexivity. Qed.

End Bodies.

(** X5.  On a POST request that gets as far as the write, the [body]
    of the record is [req.body] itself unless it is a string and the
    content type contains [application/json] or one of the two form
    types: what the framework already parsed (an object, a number,
    nothing) and every string under another content type pass through
    untouched, in every capture endpoint. *)
Theorem body_passes_through_unless_parsed (B : Builtins) (env : Env) (req : Request)
  (h : Request -> Js Response) (doc : Request -> option JsValue) (d : JsValue) :
  In (h, doc) (capture_endpoints env) ->
  method req = "POST" ->
  doc req = Some d ->
  typeof (body req) <> "string" \/
    (JsString.includes (contentType req) "application/json" = false /\
     JsString.includes (contentType req) "application/x-www-form-urlencoded" = false /\
     JsString.includes (contentType req) "multipart/form-data" = false) ->
  exists (r : Response) (v : JsValue),
    fst (run h req) = Returned r /\
    payload r = Some v /\
    get (get v "data") "body" = body req.
Proof.
  intros Hin Hm Hd Hcase.
  simpl in Hin.
  destruct Hin as [E|[E|[E|[E|[]]]]]; injection E as <- <-.
  - destruct (basic_post env req Hm) as (Hr & _).
    eexists; eexists. split; [exact Hr|]. split; reflexivity.
  - destruct (typed_post env req Hm) as (Hr & _).
    eexists; eexists. split; [exact Hr|]. split; reflexivity.
  - destruct (formats_post env req Hm) as (Hr & _).
    eexists; eexists. split; [exact Hr|]. split; [reflexivity|].
    change (get (envelope ?m ?d ?f) "data") with d.
    rewrite formats_body_field. apply parsedBody_value_same.
    destruct Hcase as [H|(H1 & H2 & H3)]; [now left | right].
    unfold isJSON, isFormData. now rewrite H1, H2, H3.
  - apply xml_write_some in Hd as (rawBody & Hraw & _).
    destruct (xml_post env req rawBody Hm Hraw) as (Hr & _).
    eexists; eexists. split; [exact Hr|]. split; reflexivity.
Qed.

Lemma body_passes_through_unless_parsed_witness :
  exists (r : Response) (v : JsValue),
    fst (run (CaptureXml.handler (B := reference_builtins) Examples.store_ok)
             Examples.scenario_json_parsed) = Returned r /\
    payload r = Some v /\
    get (get v "data") "body" = JObject [("a", JNumber 1)].
Proof.
  eapply (body_passes_through_unless_parsed reference_builtins Examples.store_ok
            Examples.scenario_json_parsed _
            (xml_write (B := reference_builtins) Examples.store_ok)).
  - simpl. right. right. right. left. reflexivity.
  - reflexivity.
  - reflexivity.
  - left. discriminate.
Defined.

Section Forms.

Lemma assoc_set_entry (k q : string) (v : JsValue) (fields : list (string * JsValue)) :
  assoc q (set_entry k v fields) = if k =? q then Some v else assoc q fields.
Proof.
  induction fields as [|[k' v'] fields IH]; simpl; [reflexivity|].
  destruct (String.eqb_spec k' k) as [->|Hk]; simpl.
  - now destruct (k =? q).
  - rewrite IH.
    destruct (String.eqb_spec k' q) as [->|Hq]; [|reflexivity].
    destruct (String.eqb_spec k q) as [->|_]; [now elim Hk | reflexivity].
Qed.

Lemma last_value_from (k : string) (pairs : list (string * string)) (found : option string) :
  fold_left (fun found kv => if fst kv =? k then Some (snd kv) else found) pairs found =
    match last_value k pairs with
    | Some v => Some v
    | None => found
    end.
Proof.
  unfold last_value. revert found.
  induction pairs as [|[k' v'] pairs IH]; intros found; simpl; [reflexivity|].
  rewrite IH. rewrite (IH (if k' =? k then Some v' else None)).
  destruct (fold_left _ pairs None); [reflexivity|].
  now destruct (k' =? k).
Qed.

Lemma assoc_fromEntries (k : string) (pairs : list (string * string))
  (fields : list (string * JsValue)) :
  assoc k (fold_left (fun acc kv => set_entry (fst kv) (JString (snd kv)) acc) pairs fields) =
    match last_value k pairs with
    | Some v => Some (JString v)
    | None => assoc k fields
    end.
Proof.
  revert fields. induction pairs as [|[k' v'] pairs IH]; intros fields; simpl.
  - reflexivity.
  - rewrite IH, assoc_set_entry. unfold last_value at 2. simpl.
    rewrite last_value_from.
    destruct (last_value k pairs); [reflexivity|].
    now destruct (k' =? k).
Qed.

(** A property of the object made of a list of pairs is the value of
    the last pair with that name. *)
Lemma get_fromEntries (k : string) (pairs : list (string * string)) :
  get (fromEntries pairs) k =
    match last_value k pairs with
    | Some v => JString v
    | None => JUndefined
    end.
Proof.
  unfold fromEntries, get. rewrite assoc_fromEntries.
  now destruct (last_value k pairs).
Qed.

End Forms.

(** X6.  On a POST request with a form content type (and no
    [application/json] in it) and a string body, the handler that parses
    puts into [body] the object of the decoded pairs: each name has the
    value of its last pair, a name that does not occur is not a
    property. *)
Theorem form_body_is_decoded (B : Builtins) (env : Env) (req : Request)
  (s : string) (pairs : list (string * string)) :
  method req = "POST" ->
  JsString.includes (contentType req) "application/json" = false ->
  isFormData (contentType req) = true ->
  body req = JString s ->
  URLSearchParams s = Returned pairs ->
  exists (r : Response) (v : JsValue),
    fst (run (CaptureFormats.handler env) req) = Returned r /\
    payload r = Some v /\
    get (get v "data") "rawBody" = or_null s /\
    get (get v "data") "bodyType" =
      JString (if isXML (contentType req) s then "xml" else "form") /\
    forall k : string,
      get (get (get v "data") "body") k =
        match last_value k pairs with
        | Some value => JString value
        | None => JUndefined
        end.
Proof.
  intros Hm Hjson Hform Hbody Hpairs.
  destruct (formats_post env req Hm) as (Hr & _).
  eexists; eexists. split; [exact Hr|]. split; [reflexivity|].
  change (get (envelope ?m ?d ?f) "data") with d.
  rewrite formats_body_field.
  assert (Hraw : CaptureFormats.rawBody (body req) = s).
  { rewrite Hbody. unfold CaptureFormats.rawBody. simpl.
    destruct s; reflexivity. }
  split; [cbn [get assoc String.eqb Ascii.eqb Bool.eqb CaptureFormats.capturedData];
          now rewrite Hraw|].
  split.
  - cbn [get assoc String.eqb Ascii.eqb Bool.eqb CaptureFormats.capturedData].
    rewrite Hraw. unfold CaptureFormats.bodyType, isJSON. rewrite Hjson, Hform.
    reflexivity.
  - intros k. unfold parsedBody_value, isJSON. rewrite Hjson, Hform, Hbody.
    cbn [typeof str andb String.eqb Ascii.eqb Bool.eqb]. rewrite Hpairs.
    apply get_fromEntries.
Qed.

Lemma form_body_is_decoded_witness :
  exists (r : Response) (v : JsValue),
    fst (run (CaptureFormats.handler (B := reference_builtins) Examples.store_ok)
             MoreExamples.repeated_form) = Returned r /\
    payload r = Some v /\
    get (get v "data") "rawBody" = or_null "a=1&b=2&a=3" /\
    get (get v "data") "bodyType" =
      JString (if isXML (contentType MoreExamples.repeated_form) "a=1&b=2&a=3"
               then "xml" else "form") /\
    forall k : string,
      get (get (get v "data") "body") k =
        match last_value k [("a", "1"); ("b", "2"); ("a", "3")] with
        | Some value => JString value
        | None => JUndefined
        end.
Proof.
  apply (form_body_is_decoded reference_builtins Examples.store_ok
           MoreExamples.repeated_form "a=1&b=2&a=3" [("a", "1"); ("b", "2"); ("a", "3")]).
  - reflexivity.
  - reflexivity.
  - reflexivity.
  - reflexivity.
  - reflexivity.
Defined.

(** ** The stream fallback *)

Section Stream.

Lemma on_end_chunks (c : Closure) : chunks (on_end c) = chunks c.
Proof. unfold on_end. destruct (chunks c) eqn:E; [exact E | reflexivity]. Qed.

(** After [n] events the listeners hold the first [n] chunks and the
    stream holds the rest. *)
Lemma emit_counts (n : nat) (pending : list string) (c : Closure) :
  fst (emit n pending c) = skipn n pending /\
  chunks (snd (emit n pending c)) = chunks c ++ firstn n pending.
Proof.
  revert pending c; induction n as [|n IH]; intros [|chunk rest] c; simpl.
  - now rewrite app_nil_r.
  - now rewrite app_nil_r.
  - now rewrite on_end_chunks, app_nil_r.
  - destruct (IH rest (on_data chunk c)) as (-> & ->).
    split; [reflexivity|]. cbn [chunks on_data]. now rewrite <- app_assoc.
Qed.

(** As long as ['end'] has not come, the variables are as they were. *)
Lemma emit_before_end (n : nat) (pending : list string) (c : Closure) :
  n <= List.length pending ->
  var_rawBody (snd (emit n pending c)) = var_rawBody c /\
  var_bodyData (snd (emit n pending c)) = var_bodyData c.
Proof.
  revert pending c; induction n as [|n IH]; intros pending c Hn.
  - split; reflexivity.
  - destruct pending as [|chunk rest]; simpl in Hn; [lia|].
    simpl. apply (IH rest (on_data chunk c)). lia.
Qed.

(** Once ['end'] has come, the listeners hold the whole stream. *)
Lemma emit_after_end (n : nat) (pending : list string) (c : Closure) :
  List.length pending < n ->
  snd (emit n pending c) =
    on_end {| chunks := chunks c ++ pending;
              var_rawBody := var_rawBody c; var_bodyData := var_bodyData c |}.
Proof.
  revert pending c; induction n as [|n IH]; intros pending c Hn; [lia|].
  destruct pending as [|chunk rest]; simpl in *.
  - rewrite app_nil_r. now destruct c.
  - rewrite (IH rest (on_data chunk c)) by lia.
    cbn [chunks var_rawBody var_bodyData on_data]. now rewrite <- app_assoc.
Qed.

End Stream.

(** X7.  On a POST request to the handler with the stream fallback,
    the listeners are put on the request stream exactly when [req.body] is
    falsy (the second test of the condition, on [rawBody], never decides),
    and the record is then built with [rawBody: null].  What they have
    received when the handler ends depends on the write alone.  When the
    call of [add] throws, they have received nothing.  When the write is
    awaited while the stream emits [n] events, they hold the first [n]
    chunks, in order, and the stream keeps the rest; their variables are
    assigned the text of the whole stream only if ['end'] came too, that
    is if [n] is more than the number of chunks, and there was a chunk.
    With a truthy body the stream is left as it was. *)
Theorem stream_is_read_exactly_for_a_falsy_body (B : Builtins) (env : Env)
  (req : Request) :
  method req = "POST" ->
  exists (r : Response) (v : JsValue),
    fst (run (CaptureFormats.handler env) req) = Returned r /\
    payload r = Some v /\
    (truthy (body req) = true ->
     listeners (snd (run (CaptureFormats.handler env) req)) = None /\
     socket (snd (run (CaptureFormats.handler env) req)) = stream req) /\
    (truthy (body req) = false ->
     get (get v "data") "rawBody" = JNull /\
     exists c : Closure,
       listeners (snd (run (CaptureFormats.handler env) req)) = Some c /\
       chunks c ++ socket (snd (run (CaptureFormats.handler env) req)) = stream req /\
       (forall e,
          db_add env (formats_document env req) = Throws e ->
          c = registered req /\
          socket (snd (run (CaptureFormats.handler env) req)) = stream req) /\
       (forall n o,
          db_add env (formats_document env req) = Awaited n o ->
          chunks c = firstn n (stream req) /\
          socket (snd (run (CaptureFormats.handler env) req)) = skipn n (stream req) /\
          (n <= List.length (stream req) \/ stream req = [] ->
           var_rawBody c = EmptyString /\ var_bodyData c = body req) /\
          (List.length (stream req) < n -> stream req <> [] ->
           var_rawBody c = concat_chunks (stream req) /\
           var_bodyData c = JString (concat_chunks (stream req))))).
Proof.
  intros Hm.
  destruct (formats_post env req Hm) as (Hr & _).
  eexists; eexists. split; [exact Hr|]. split; [reflexivity|].
  rewrite (formats_world env req Hm). cbn [listeners socket].
  split; intros Ht; rewrite Ht.
  - split; reflexivity.
  - split.
    + change (get (envelope ?m ?d ?f) "data") with d.
      cbn [get assoc String.eqb Ascii.eqb Bool.eqb CaptureFormats.capturedData].
      unfold CaptureFormats.rawBody. rewrite Ht. reflexivity.
    + eexists. split; [reflexivity|].
      set (write := db_add env (formats_document env req)).
      destruct (emit_counts (events_of write) (stream req) (registered req)) as (Hs & Hc).
      split; [rewrite Hs, Hc; apply firstn_skipn|].
      split.
      * intros e ->. split; reflexivity.
      * intros n o ->. cbn [events_of] in *.
        split; [exact Hc|]. split; [exact Hs|]. split.
        -- intros [Hn|He].
           ++ exact (emit_before_end n (stream req) (registered req) Hn).
           ++ rewrite He. destruct n; split; reflexivity.
        -- intros Hn Hne. rewrite (emit_after_end n (stream req) (registered req) Hn).
           cbn [registered chunks var_rawBody var_bodyData app].
           unfold on_end. cbn [chunks].
           destruct (stream req); [now elim Hne | split; reflexivity].
Qed.

Lemma stream_is_read_exactly_for_a_falsy_body_witness :
  exists (r : Response) (v : JsValue),
    fst (run (CaptureFormats.handler (B := reference_builtins) Examples.store_fast)
             Examples.unparsed) = Returned r /\
    payload r = Some v /\
    (truthy (body Examples.unparsed) = true ->
     listeners (snd (run (CaptureFormats.handler (B := reference_builtins)
                            Examples.store_fast) Examples.unparsed)) = None /\
     socket (snd (run (CaptureFormats.handler (B := reference_builtins)
                         Examples.store_fast) Examples.unparsed)) =
       stream Examples.unparsed) /\
    (truthy (body Examples.unparsed) = false ->
     get (get v "data") "rawBody" = JNull /\
     exists c : Closure,
       listeners (snd (run (CaptureFormats.handler (B := reference_builtins)
                              Examples.store_fast) Examples.unparsed)) = Some c /\
       chunks c ++ socket (snd (run (CaptureFormats.handler (B := reference_builtins)
                                       Examples.store_fast) Examples.unparsed)) =
         stream Examples.unparsed /\
       (forall e,
          db_add Examples.store_fast
            (formats_document (B := reference_builtins) Examples.store_fast
               Examples.unparsed) = Throws e ->
          c = registered Examples.unparsed /\
          socket (snd (run (CaptureFormats.handler (B := reference_builtins)
                              Examples.store_fast) Examples.unparsed)) =
            stream Examples.unparsed) /\
       (forall n o,
          db_add Examples.store_fast
            (formats_document (B := reference_builtins) Examples.store_fast
               Examples.unparsed) = Awaited n o ->
          chunks c = firstn n (stream Examples.unparsed) /\
          socket (snd (run (CaptureFormats.handler (B := reference_builtins)
                              Examples.store_fast) Examples.unparsed)) =
            skipn n (stream Examples.unparsed) /\
          (n <= List.length (stream Examples.unparsed) \/ stream Examples.unparsed = [] ->
           var_rawBody c = EmptyString /\ var_bodyData c = body Examples.unparsed) /\
          (List.length (stream Examples.unparsed) < n -> stream Examples.unparsed <> [] ->
           var_rawBody c = concat_chunks (stream Examples.unparsed) /\
           var_bodyData c = JString (concat_chunks (stream Examples.unparsed))))).
Proof.
  apply (stream_is_read_exactly_for_a_falsy_body reference_builtins Examples.store_fast
           Examples.unparsed).
  reflexivity.
Defined.

(** The request of the examples with a store that answers after one
    event: the listeners have the first chunk, the stream keeps the
    second, and no variable is assigned. *)
Lemma fast_store_leaves_a_chunk :
  listeners (snd (run (CaptureFormats.handler (B := reference_builtins) Examples.store_fast)
                      Examples.unparsed)) =
    Some {| chunks := ["<note>"]; var_rawBody := EmptyString; var_bodyData := JUndefined |} /\
  socket (snd (run (CaptureFormats.handler (B := reference_builtins) Examples.store_fast)
                   Examples.unparsed)) = ["</note>"].
Proof. split; reflexivity. Qed.

(** With a client that refuses the document the stream is not read at
    all, and the answer is the same. *)
Lemma refused_write_leaves_the_stream :
  listeners (snd (run (CaptureFormats.handler (B := reference_builtins) Examples.store_strict)
                      Examples.unparsed)) = Some (registered Examples.unparsed) /\
  socket (snd (run (CaptureFormats.handler (B := reference_builtins) Examples.store_strict)
                   Examples.unparsed)) = ["<note>"; "</note>"].
Proof. split; reflexivity. Qed.

(** X8.  The handlers without the fallback never put a listener on the
    request stream and leave its chunks unread, whatever the request and
    whatever way the run goes. *)
Theorem other_handlers_leave_the_stream (B : Builtins) (env : Env) (req : Request) :
  (listeners (snd (run (CaptureBasic.handler env) req)) = None /\
   socket (snd (run (CaptureBasic.handler env) req)) = stream req) /\
  (listeners (snd (run (CaptureTyped.handler env) req)) = None /\
   socket (snd (run (CaptureTyped.handler env) req)) = stream req) /\
  (listeners (snd (run (CaptureXml.handler env) req)) = None /\
   socket (snd (run (CaptureXml.handler env) req)) = stream req) /\
  (listeners (snd (run (Diagnostic.handler env) req)) = None /\
   socket (snd (run (Diagnostic.handler env) req)) = stream req).
Proof.
  assert (Hdiag : listeners (snd (run (Diagnostic.handler env) req)) = None /\
                  socket (snd (run (Diagnostic.handler env) req)) = stream req).
  { unfold run, Diagnostic.handler.
    destruct (method req =? "OPTIONS"); [split; reflexivity|].
    unfold try_catch, bind, call.
    destruct (truthy (body req)); [|split; reflexivity].
    destruct (String_of (body req)); split; reflexivity. }
  destruct (String.eqb_spec (method req) "POST") as [Hm|Hm].
  - rewrite (basic_world env req Hm), (typed_world env req Hm).
    split; [split; reflexivity|]. split; [split; reflexivity|].
    split; [|exact Hdiag].
    destruct (CaptureXml.rawBody (body req)) as [rawBody|e] eqn:Hraw.
    + rewrite (xml_world env req rawBody Hm Hraw). split; reflexivity.
    + rewrite (xml_conversion_throws env req e Hm Hraw). split; reflexivity.
  - assert (Hp : (method req =? "POST") = false) by now apply String.eqb_neq.
    destruct (not_post env req Hp) as (-> & -> & _ & ->).
    repeat split; apply Hdiag.
Qed.

(** ** The raw body *)

Section RawFields.
Context {B : Builtins}.

Lemma or_null_cases (s : string) :
  (s = EmptyString /\ or_null s = JNull) \/ (s <> EmptyString /\ or_null s = JString s).
Proof.
  destruct s; [left | right]; split; try reflexivity; discriminate.
Qed.

(** No conversion makes a call for a string or for a falsy body. *)
Lemma raw_endpoint_cases (env : Env) (h : Request -> Js Response)
  (conv : JsValue -> Outcome string) :
  In (h, conv) (raw_endpoints env) ->
  (forall s : string, conv (JString s) = Returned s) /\
  (forall v : JsValue, truthy v = false -> conv v = Returned EmptyString).
Proof.
  intros Hin. simpl in Hin.
  destruct Hin as [E|[E|[E|[]]]]; injection E as <- <-; split.
  - intros s. destruct s; reflexivity.
  - intros v H. unfold CaptureTyped.rawBody. now rewrite H.
  - intros s. destruct s; reflexivity.
  - intros v H. unfold CaptureFormats.rawBody. now rewrite H.
  - apply xml_rawBody_of_string.
  - apply xml_rawBody_of_falsy.
Qed.

Lemma raw_endpoint_field (env : Env) (req : Request) (h : Request -> Js Response)
  (conv : JsValue -> Outcome string) (raw : string) :
  In (h, conv) (raw_endpoints env) ->
  method req = "POST" ->
  conv (body req) = Returned raw ->
  exists (r : Response) (v : JsValue),
    fst (run h req) = Returned r /\
    payload r = Some v /\
    get (get v "data") "rawBody" = or_null raw.
Proof.
  intros Hin Hm Hraw. simpl in Hin.
  destruct Hin as [E|[E|[E|[]]]]; injection E as <- <-.
  - injection Hraw as <-. destruct (typed_post env req Hm) as (Hr & _).
    eexists; eexists. split; [exact Hr|]. split; reflexivity.
  - injection Hraw as <-. destruct (formats_post env req Hm) as (Hr & _).
    eexists; eexists. split; [exact Hr|]. split; reflexivity.
  - destruct (xml_post env req raw Hm Hraw) as (Hr & _).
    eexists; eexists. split; [exact Hr|]. split; reflexivity.
Qed.

End RawFields.

(** X9.  In the record of a POST request, in each of the three
    handlers that keep one, [rawBody] is [null] or a non-empty string,
    never the empty string: whatever the conversion of the body gives, the
    record has it, or [null] when it is empty.  A non-empty string body is
    kept as it is, and a falsy body (none, [null], the empty string, [0],
    [false]) gives [null]; in both cases there is a record. *)
Theorem rawBody_is_null_or_not_empty (B : Builtins) (env : Env) (req : Request)
  (h : Request -> Js Response) (conv : JsValue -> Outcome string) :
  In (h, conv) (raw_endpoints env) ->
  method req = "POST" ->
  (forall raw : string,
     conv (body req) = Returned raw ->
     exists (r : Response) (v : JsValue),
       fst (run h req) = Returned r /\
       payload r = Some v /\
       ((raw = EmptyString /\ get (get v "data") "rawBody" = JNull) \/
        (raw <> EmptyString /\ get (get v "data") "rawBody" = JString raw))) /\
  (forall s : string,
     body req = JString s -> s <> EmptyString ->
     exists (r : Response) (v : JsValue),
       fst (run h req) = Returned r /\
       payload r = Some v /\
       get (get v "data") "rawBody" = JString s) /\
  (truthy (body req) = false ->
   exists (r : Response) (v : JsValue),
     fst (run h req) = Returned r /\
     payload r = Some v /\
     get (get v "data") "rawBody" = JNull).
Proof.
  intros Hin Hm.
  destruct (raw_endpoint_cases env h conv Hin) as (Hstring & Hfalsy).
  split; [|split].
  - intros raw Hraw.
    destruct (raw_endpoint_field env req h conv raw Hin Hm Hraw) as (r & v & Hr & Hv & Hf).
    exists r, v. split; [exact Hr|]. split; [exact Hv|]. rewrite Hf.
    apply or_null_cases.
  - intros s Hs Hne.
    assert (Hraw : conv (body req) = Returned s) by (rewrite Hs; apply Hstring).
    destruct (raw_endpoint_field env req h conv s Hin Hm Hraw) as (r & v & Hr & Hv & Hf).
    exists r, v. split; [exact Hr|]. split; [exact Hv|]. rewrite Hf.
    destruct (or_null_cases s) as [(He & _) | (_ & ->)]; [now elim Hne | reflexivity].
  - intros Ht.
    destruct (raw_endpoint_field env req h conv EmptyString Hin Hm (Hfalsy _ Ht))
      as (r & v & Hr & Hv & Hf).
    exists r, v. split; [exact Hr|]. split; [exact Hv|]. exact Hf.
Qed.

Lemma rawBody_is_null_or_not_empty_witness :
  (forall raw : string,
     CaptureXml.rawBody (B := reference_builtins) (body MoreExamples.empty_text)
       = Returned raw ->
     exists (r : Response) (v : JsValue),
       fst (run (CaptureXml.handler (B := reference_builtins) Examples.store_ok)
                MoreExamples.empty_text) = Returned r /\
       payload r = Some v /\
       ((raw = EmptyString /\ get (get v "data") "rawBody" = JNull) \/
        (raw <> EmptyString /\ get (get v "data") "rawBody" = JString raw))) /\
  (forall s : string,
     body MoreExamples.empty_text = JString s -> s <> EmptyString ->
     exists (r : Response) (v : JsValue),
       fst (run (CaptureXml.handler (B := reference_builtins) Examples.store_ok)
                MoreExamples.empty_text) = Returned r /\
       payload r = Some v /\
       get (get v "data") "rawBody" = JString s) /\
  (truthy (body MoreExamples.empty_text) = false ->
   exists (r : Response) (v : JsValue),
     fst (run (CaptureXml.handler (B := reference_builtins) Examples.store_ok)
              MoreExamples.empty_text) = Returned r /\
     payload r = Some v /\
     get (get v "data") "rawBody" = JNull).
Proof.
  apply (rawBody_is_null_or_not_empty reference_builtins Examples.store_ok
           MoreExamples.empty_text _ (CaptureXml.rawBody (B := reference_builtins))).
  - simpl. right. right. left. reflexivity.
  - reflexivity.
Defined.

(** X10.  The four fields of the record that describe the body agree
    with each other (handler with body parsing, POST): [rawBodyExists]
    says whether [rawBody] is a string, [rawBodyLength] is its length and
    0 for [null], [bodyExists] is the truthiness of [req.body] and
    [bodyDataType] its [typeof]; without a body ([bodyExists] false) there
    is no raw body either. *)
Theorem body_fields_agree (B : Builtins) (env : Env) (req : Request) :
  method req = "POST" ->
  exists (r : Response) (v : JsValue),
    fst (run (CaptureFormats.handler env) req) = Returned r /\
    payload r = Some v /\
    get (get v "data") "bodyExists" = JBool (truthy (body req)) /\
    get (get v "data") "bodyDataType" = JString (typeof (body req)) /\
    ((get (get v "data") "rawBody" = JNull /\
      get (get v "data") "rawBodyExists" = JBool false /\
      get (get v "data") "rawBodyLength" = JNumber 0) \/
     (exists s : string,
        s <> EmptyString /\
        get (get v "data") "rawBody" = JString s /\
        get (get v "data") "rawBodyExists" = JBool true /\
        get (get v "data") "rawBodyLength" = JNumber (Z.of_nat (String.length s)))) /\
    (get (get v "data") "bodyExists" = JBool false ->
     get (get v "data") "rawBodyExists" = JBool false).
Proof.
  intros Hm.
  destruct (formats_post env req Hm) as (Hr & _).
  eexists; eexists. split; [exact Hr|]. split; [reflexivity|].
  change (get (envelope ?m ?d ?f) "data") with d.
  cbn [get assoc String.eqb Ascii.eqb Bool.eqb CaptureFormats.capturedData].
  split; [reflexivity|]. split; [reflexivity|]. split.
  - destruct (CaptureFormats.rawBody (body req)) as [|c s] eqn:Hraw.
    + left. repeat split.
    + right. exists (String c s). repeat split. discriminate.
  - intros Hb. injection Hb as Hb.
    unfold CaptureFormats.rawBody. rewrite Hb. reflexivity.
Qed.

Lemma body_fields_agree_witness :
  exists (r : Response) (v : JsValue),
    fst (run (CaptureFormats.handler (B := reference_builtins) Examples.store_ok)
             Examples.number_json) = Returned r /\
    payload r = Some v /\
    get (get v "data") "bodyExists" = JBool (truthy (body Examples.number_json)) /\
    get (get v "data") "bodyDataType" = JString (typeof (body Examples.number_json)) /\
    ((get (get v "data") "rawBody" = JNull /\
      get (get v "data") "rawBodyExists" = JBool false /\
      get (get v "data") "rawBodyLength" = JNumber 0) \/
     (exists s : string,
        s <> EmptyString /\
        get (get v "data") "rawBody" = JString s /\
        get (get v "data") "rawBodyExists" = JBool true /\
        get (get v "data") "rawBodyLength" = JNumber (Z.of_nat (String.length s)))) /\
    (get (get v "data") "bodyExists" = JBool false ->
     get (get v "data") "rawBodyExists" = JBool false).
Proof.
  apply (body_fields_agree reference_builtins Examples.store_ok Examples.number_json).
  reflexivity.
Defined.

(** ** A request without content type *)

Section NoContentType.
Context {B : Builtins}.

Lemma contentType_missing (req : Request) :
  assoc "content-type" (headers req) = None \/
  assoc "content-type" (headers req) = Some EmptyString ->
  contentType req = EmptyString.
Proof.
  unfold contentType, header. intros [-> | ->]; reflexivity.
Qed.

End NoContentType.

(** X11.  On a POST request that has no [content-type] header (or an
    empty one) the content type of the record is the empty string and only
    the text of the body decides: [bodyType] is "xml" when the trimmed raw
    body starts with the XML declaration and "unknown" otherwise, in both
    handlers that compute it, and [isXML] of the XML handler is that same
    test, on the raw body its conversion gave. *)
Theorem without_content_type_the_body_decides (B : Builtins) (env : Env) (req : Request) :
  method req = "POST" ->
  assoc "content-type" (headers req) = None \/
  assoc "content-type" (headers req) = Some EmptyString ->
  (exists (r : Response) (v : JsValue),
     fst (run (CaptureFormats.handler env) req) = Returned r /\
     payload r = Some v /\
     get (get v "data") "contentType" = JString EmptyString /\
     get (get v "data") "bodyType" =
       JString (if JsString.startsWith (JsString.trim (CaptureFormats.rawBody (body req)))
                     "<?xml"
                then "xml" else "unknown")) /\
  (exists (r : Response) (v : JsValue),
     fst (run (CaptureTyped.handler env) req) = Returned r /\
     payload r = Some v /\
     get (get v "data") "contentType" = JString EmptyString /\
     get (get v "data") "bodyType" =
       JString (if JsString.startsWith (JsString.trim (CaptureTyped.rawBody (body req)))
                     "<?xml"
                then "xml" else "unknown")) /\
  (forall rawBody : string,
     CaptureXml.rawBody (body req) = Returned rawBody ->
     exists (r : Response) (v : JsValue),
       fst (run (CaptureXml.handler env) req) = Returned r /\
       payload r = Some v /\
       get (get v "data") "contentType" = JString EmptyString /\
       get (get v "data") "isXML" =
         JBool (JsString.startsWith (JsString.trim rawBody) "<?xml")).
Proof.
  intros Hm Hct. apply contentType_missing in Hct.
  split; [|split].
  - destruct (formats_post env req Hm) as (Hr & _).
    eexists; eexists. split; [exact Hr|]. split; [reflexivity|].
    change (get (envelope ?m ?d ?f) "data") with d.
    cbn [get assoc String.eqb Ascii.eqb Bool.eqb CaptureFormats.capturedData].
    rewrite Hct. split; [reflexivity|].
    unfold CaptureFormats.bodyType, isJSON, isXML, isFormData, isTextPlain.
    cbn [JsString.includes JsString.find JsString.prefix_of orb andb].
    now destruct (JsString.startsWith _ "<?xml").
  - destruct (typed_post env req Hm) as (Hr & _).
    eexists; eexists. split; [exact Hr|]. split; [reflexivity|].
    change (get (envelope ?m ?d ?f) "data") with d.
    cbn [get assoc String.eqb Ascii.eqb Bool.eqb CaptureTyped.capturedData].
    rewrite Hct. split; [reflexivity|].
    unfold CaptureTyped.bodyType, isJSON, isXML, isFormData.
    cbn [JsString.includes JsString.find JsString.prefix_of orb andb].
    now destruct (JsString.startsWith _ "<?xml").
  - intros rawBody Hraw.
    destruct (xml_post env req rawBody Hm Hraw) as (Hr & _).
    eexists; eexists. split; [exact Hr|]. split; [reflexivity|].
    change (get (envelope ?m ?d ?f) "data") with d.
    cbn [get assoc String.eqb Ascii.eqb Bool.eqb CaptureXml.capturedData].
    rewrite Hct. split; [reflexivity|].
    unfold isXML.
    cbn [JsString.includes JsString.find JsString.prefix_of orb andb].
    reflexivity.
Qed.

Lemma without_content_type_the_body_decides_witness :
  (exists (r : Response) (v : JsValue),
     fst (run (CaptureFormats.handler (B := reference_builtins) Examples.store_ok)
              MoreExamples.no_content_type) = Returned r /\
     payload r = Some v /\
     get (get v "data") "contentType" = JString EmptyString /\
     get (get v "data") "bodyType" = JString "xml") /\
  (exists (r : Response) (v : JsValue),
     fst (run (CaptureTyped.handler (B := reference_builtins) Examples.store_ok)
              MoreExamples.no_content_type) = Returned r /\
     payload r = Some v /\
     get (get v "data") "contentType" = JString EmptyString /\
     get (get v "data") "bodyType" = JString "xml") /\
  (forall rawBody : string,
     CaptureXml.rawBody (B := reference_builtins) (body MoreExamples.no_content_type)
       = Returned rawBody ->
     exists (r : Response) (v : JsValue),
       fst (run (CaptureXml.handler (B := reference_builtins) Examples.store_ok)
                MoreExamples.no_content_type) = Returned r /\
       payload r = Some v /\
       get (get v "data") "contentType" = JString EmptyString /\
       get (get v "data") "isXML" =
         JBool (JsString.startsWith (JsString.trim rawBody) "<?xml")).
Proof.
  apply (without_content_type_the_body_decides reference_builtins Examples.store_ok
           MoreExamples.no_content_type).
  - reflexivity.
  - left. reflexivity.
Defined.

(** ** The other fields of the XML metadata *)

Section Substrings.

(** What [String.substring] takes from the start is how the string
    begins. *)
Lemma stdlib_substring_prefix (m : nat) (s : string) :
  exists rest, s = (String.substring 0 m s ++ rest)%string.
Proof.
  revert m; induction s as [|c s IH]; intros m.
  - exists EmptyString. now destruct m.
  - destruct m as [|m]; simpl.
    + now exists (String c s).
    + destruct (IH m) as (rest & Hrest). exists rest. now rewrite <- Hrest.
Qed.

(** A piece cut out by [String.substring] stands in the string. *)
Lemma stdlib_substring_contained (n m : nat) (s : string) :
  contains s (String.substring n m s).
Proof.
  revert n; induction s as [|c s IH]; intros n.
  - destruct n, m; exists EmptyString, EmptyString; reflexivity.
  - destruct n as [|n].
    + destruct (stdlib_substring_prefix m (String c s)) as (rest & Hrest).
      exists EmptyString, rest. exact Hrest.
    + simpl. destruct (IH n) as (before & after & Hs).
      exists (String c before), after. simpl. now rewrite <- Hs.
Qed.

Lemma substring_contained (s : string) (a b : Z) :
  contains s (JsString.substring s a b).
Proof.
  unfold JsString.substring. apply stdlib_substring_contained.
Qed.

Lemma contains_trans (s t p : string) :
  contains s t -> contains t p -> contains s p.
Proof.
  intros (b1 & a1 & ->) (b2 & a2 & ->).
  exists (b1 ++ b2)%string, (a2 ++ a1)%string.
  now rewrite !append_assoc.
Qed.

End Substrings.

(** X12.  Whenever the XML handler makes metadata, the declaration is a
    piece of the raw body; [length] is the length of the raw body;
    [hasDoctype] says whether the raw body contains the mark of a document
    type; [encoding] is "UTF-8" or "unknown", and it is "UTF-8" only if the
    raw body contains the attribute with that value in double quotes;
    [rootElement] is always a letter followed by letters and digits, the
    word "unknown" when the body has no tag. *)
Theorem metadata_fields (B : Builtins) (contentType rawBody : string) (m : XMLMetadata) :
  CaptureXml.xmlMetadata contentType rawBody = Some m ->
  contains rawBody (declaration m) /\
  length m = Z.of_nat (String.length rawBody) /\
  (hasDoctype m = true <-> contains rawBody "<!DOCTYPE") /\
  (encoding m = "UTF-8" \/ encoding m = "unknown") /\
  (encoding m = "UTF-8" -> contains rawBody CaptureXml.encoding_utf8) /\
  tag_name (rootElement m) = true /\
  ((forall name, ~ first_tag_name rawBody name) -> rootElement m = "unknown").
Proof.
  unfold CaptureXml.xmlMetadata. intros H.
  destruct (isXML contentType rawBody && truthy (JString rawBody)); [|discriminate].
  destruct (negb (JsString.indexOf rawBody "<?xml" =? -1)%Z
            && negb (JsString.indexOf rawBody "?>" =? -1)%Z); [|discriminate].
  injection H as <-.
  cbn [declaration length hasDoctype encoding rootElement].
  split; [apply substring_contained|].
  split; [reflexivity|].
  split; [apply includes_contains|].
  split; [destruct (JsString.includes _ CaptureXml.encoding_utf8); auto|].
  split.
  - destruct (JsString.includes _ CaptureXml.encoding_utf8) eqn:He; [|discriminate].
    intros _. apply includes_contains in He.
    exact (contains_trans _ _ _ (substring_contained _ _ _) He).
  - destruct (JsString.match_tag rawBody) as [name|] eqn:Ht.
    + apply match_tag_sound in Ht.
      split; [now destruct Ht as (_ & _ & _ & Hn & _)|].
      intros Hno. now elim (Hno name).
    + split; [reflexivity | reflexivity].
Qed.

Lemma metadata_fields_witness :
  exists m : XMLMetadata,
    contains "<?xml version='1.0'?>" (declaration m) /\
    length m = 21%Z /\
    (hasDoctype m = true <-> contains "<?xml version='1.0'?>" "<!DOCTYPE") /\
    (encoding m = "UTF-8" \/ encoding m = "unknown") /\
    (encoding m = "UTF-8" -> contains "<?xml version='1.0'?>" CaptureXml.encoding_utf8) /\
    tag_name (rootElement m) = true /\
    ((forall name, ~ first_tag_name "<?xml version='1.0'?>" name) ->
     rootElement m = "unknown").
Proof.
  eexists.
  apply (metadata_fields reference_builtins "application/xml" "<?xml version='1.0'?>").
  reflexivity.
Defined.

(** ** The diagnostic handler *)

Section Diagnosis.
Context {B : Builtins}.
Variable env : Env.

(** The three ways a request other than OPTIONS goes through the
    diagnostic handler. *)
Lemma diagnostic_falsy (req : Request) :
  method req <> "OPTIONS" ->
  truthy (body req) = false ->
  run (Diagnostic.handler env) req = diagnosed env req JNull.
Proof.
  intros Hm Ht. apply String.eqb_neq in Hm.
  unfold run, Diagnostic.handler, diagnosed. rewrite Hm.
  unfold try_catch, bind. rewrite Ht. reflexivity.
Qed.

Lemma diagnostic_string (req : Request) (s : string) :
  method req <> "OPTIONS" ->
  truthy (body req) = true ->
  String_of (body req) = Returned s ->
  run (Diagnostic.handler env) req = diagnosed env req (JString s).
Proof.
  intros Hm Ht Hs. apply String.eqb_neq in Hm.
  unfold run, Diagnostic.handler, diagnosed. rewrite Hm.
  unfold try_catch, bind, call. rewrite Ht, Hs. reflexivity.
Qed.

Lemma diagnostic_throws (req : Request) (e : Thrown) :
  method req <> "OPTIONS" ->
  truthy (body req) = true ->
  String_of (body req) = Threw e ->
  run (Diagnostic.handler env) req = stopped "Error in test capture:" req e.
Proof.
  intros Hm Ht Hs. apply String.eqb_neq in Hm.
  unfold run, Diagnostic.handler, stopped. rewrite Hm.
  unfold try_catch, bind, call. rewrite Ht, Hs. reflexivity.
Qed.

End Diagnosis.

(** X13.  The diagnostic handler never writes to the store, whatever
    the method, and never answers 405.  An OPTIONS request gets 200 with
    no body.  Any other request whose body is falsy, or has a string form,
    gets 200 with [success: true] and its own method and url under
    [data]; in both cases the three cross-origin headers are set and
    nothing is logged.  When [String] throws on the body, the outer
    [catch] answers 500 with the message of what was thrown: one line is
    logged and no header is set. *)
Theorem diagnostic_answers_200_or_500 (B : Builtins) (env : Env) (req : Request) :
  db_added (snd (run (Diagnostic.handler env) req)) = [] /\
  (exists r : Response,
     fst (run (Diagnostic.handler env) req) = Returned r /\
     (status r = 200%Z \/ status r = 500%Z)) /\
  (method req = "OPTIONS" ->
   fst (run (Diagnostic.handler env) req) = Returned {| status := 200; payload := None |} /\
   res_headers (snd (run (Diagnostic.handler env) req)) = diagnostic_cors /\
   console_error (snd (run (Diagnostic.handler env) req)) = []) /\
  (method req <> "OPTIONS" ->
   truthy (body req) = false \/ (exists s, String_of (body req) = Returned s) ->
   res_headers (snd (run (Diagnostic.handler env) req)) = diagnostic_cors /\
   console_error (snd (run (Diagnostic.handler env) req)) = [] /\
   exists (r : Response) (v : JsValue),
     fst (run (Diagnostic.handler env) req) = Returned r /\
     status r = 200%Z /\
     payload r = Some v /\
     get v "success" = JBool true /\
     get (get v "data") "method" = JString (method req) /\
     get (get v "data") "url" = JString (url req)) /\
  (forall e : Thrown,
     method req <> "OPTIONS" ->
     truthy (body req) = true ->
     String_of (body req) = Threw e ->
     fst (run (Diagnostic.handler env) req) =
       Returned {| status := 500;
                   payload :=
                     Some (JObject [("success", JBool false);
                                    ("error", JString "Internal server error");
                                    ("message", JString (message_or e "Unknown error"))]) |} /\
     res_headers (snd (run (Diagnostic.handler env) req)) = [] /\
     console_error (snd (run (Diagnostic.handler env) req)) = ["Error in test capture:"]).
Proof.
  assert (Hgood : method req <> "OPTIONS" ->
                  truthy (body req) = false \/ (exists s, String_of (body req) = Returned s) ->
                  exists bodyString,
                    run (Diagnostic.handler env) req = diagnosed env req bodyString).
  { intros Hm [Ht|(s & Hs)].
    - exists JNull. now apply diagnostic_falsy.
    - destruct (truthy (body req)) eqn:Ht.
      + exists (JString s). now apply diagnostic_string.
      + exists JNull. now apply diagnostic_falsy. }
  destruct (String.eqb_spec (method req) "OPTIONS") as [Hm|Hm].
  - assert (Hrun : run (Diagnostic.handler env) req =
                   (Returned {| status := 200; payload := None |},
                    {| res_headers := diagnostic_cors; db_added := [];
                       console_error := []; socket := stream req; listeners := None |})).
    { unfold run, Diagnostic.handler. rewrite Hm. reflexivity. }
    rewrite Hrun. split; [reflexivity|].
    split; [eexists; split; [reflexivity | now left]|].
    split; [intros _; repeat split|].
    split; [intros H; now elim H | intros e H; now elim H].
  - destruct (truthy (body req)) eqn:Ht;
      [destruct (String_of (body req)) as [s|e] eqn:Hs|].
    + rewrite (diagnostic_string env req s Hm Ht Hs).
      split; [reflexivity|].
      split; [eexists; split; [reflexivity | now left]|].
      split; [intros H; now elim Hm|].
      split; [|intros e _ _ He; discriminate He].
      intros _ _. split; [reflexivity|]. split; [reflexivity|].
      eexists; eexists. repeat split.
    + rewrite (diagnostic_throws env req e Hm Ht Hs).
      split; [reflexivity|].
      split; [eexists; split; [reflexivity | now right]|].
      split; [intros H; now elim Hm|].
      split.
      * intros _ [Hf|(s & Hs')]; [discriminate Hf | discriminate Hs'].
      * intros e' _ _ He. injection He as <-. repeat split.
    + rewrite (diagnostic_falsy env req Hm Ht).
      split; [reflexivity|].
      split; [eexists; split; [reflexivity | now left]|].
      split; [intros H; now elim Hm|].
      split; [|intros e _ Hf; discriminate Hf].
      intros _ _. split; [reflexivity|]. split; [reflexivity|].
      eexists; eexists. repeat split.
Qed.

(** A form that the framework parsed, an object with no prototype, has
    no string form: the diagnostic handler answers 500. *)
Lemma diagnostic_of_a_parsed_form :
  run (Diagnostic.handler (B := reference_builtins) Examples.store_ok)
      MoreExamples.parsed_form =
    stopped "Error in test capture:" MoreExamples.parsed_form
      (ErrorObject "Cannot convert object to primitive value").
Proof. reflexivity. Qed.

(** X14.  What the diagnostic handler says of the body, for a request
    other than OPTIONS whose body is falsy or has a string form: [data]
    is the body itself, [type] its [typeof], [exists] its truthiness.
    When the body is falsy, the two renderings [string] and [json] are
    [null] and [length] is 0; otherwise [string] is the string form and
    [length] its length.  Each of the flags [bodyIsNull],
    [bodyIsUndefined] and [bodyIsEmptyString] is true only for its own
    value of [req.body], so only when [exists] is false. *)
Theorem diagnostic_of_a_missing_body (B : Builtins) (env : Env) (req : Request) :
  method req <> "OPTIONS" ->
  truthy (body req) = false \/ (exists s, String_of (body req) = Returned s) ->
  exists (r : Response) (v : JsValue),
    fst (run (Diagnostic.handler env) req) = Returned r /\
    payload r = Some v /\
    get (get (get v "data") "body") "data" = body req /\
    get (get (get v "data") "body") "type" = JString (typeof (body req)) /\
    get (get (get v "data") "body") "exists" = JBool (truthy (body req)) /\
    (truthy (body req) = false ->
     get (get (get v "data") "body") "string" = JNull /\
     get (get (get v "data") "body") "json" = JNull /\
     get (get (get v "data") "body") "length" = JNumber 0) /\
    (forall s : string,
       truthy (body req) = true -> String_of (body req) = Returned s ->
       get (get (get v "data") "body") "string" = JString s /\
       get (get (get v "data") "body") "length" =
         JNumber (Z.of_nat (String.length s))) /\
    (get (get (get v "data") "debug") "bodyIsNull" = JBool true -> body req = JNull) /\
    (get (get (get v "data") "debug") "bodyIsUndefined" = JBool true ->
     body req = JUndefined) /\
    (get (get (get v "data") "debug") "bodyIsEmptyString" = JBool true ->
     body req = JString EmptyString) /\
    (get (get (get v "data") "debug") "bodyIsNull" = JBool true \/
     get (get (get v "data") "debug") "bodyIsUndefined" = JBool true \/
     get (get (get v "data") "debug") "bodyIsEmptyString" = JBool true ->
     get (get (get v "data") "body") "exists" = JBool false).
Proof.
  intros Hm Hbody.
  assert (Hrun : exists bodyString,
            run (Diagnostic.handler env) req = diagnosed env req bodyString /\
            (truthy (body req) = false -> bodyString = JNull) /\
            (forall s, truthy (body req) = true -> String_of (body req) = Returned s ->
                       bodyString = JString s)).
  { destruct (truthy (body req)) eqn:Ht.
    - destruct Hbody as [Hf|(s & Hs)]; [discriminate Hf|].
      exists (JString s). split; [now apply diagnostic_string|].
      split; [discriminate|]. intros s' _ Hs'. rewrite Hs in Hs'. now injection Hs' as ->.
    - exists JNull. split; [now apply diagnostic_falsy|].
      split; [reflexivity | discriminate]. }
  destruct Hrun as (bodyString & Hrun & Hnull & Hstring).
  rewrite Hrun. unfold diagnosed. cbn [fst].
  eexists; eexists. split; [reflexivity|]. split; [reflexivity|].
  cbn [get assoc String.eqb Ascii.eqb Bool.eqb Diagnostic.response].
  split; [reflexivity|]. split; [reflexivity|]. split; [reflexivity|].
  split; [intros Ht; rewrite (Hnull Ht), Ht; repeat split|].
  split.
  { intros s Ht Hs. rewrite (Hstring s Ht Hs). cbn [str].
    split; [reflexivity|].
    destruct (truthy (JString s)) eqn:E; [reflexivity|].
    assert (s = EmptyString) as ->; [|reflexivity].
    destruct (String.eqb_spec s EmptyString) as [He|He]; [exact He|].
    apply truthy_string in He. congruence. }
  split; [destruct (body req); intros H; try discriminate H; reflexivity|].
  split; [destruct (body req); intros H; try discriminate H; reflexivity|].
  split.
  - destruct (body req) as [| | | |s| | | | |]; intros H; try discriminate H.
    injection H as H. apply String.eqb_eq in H. now subst s.
  - destruct (body req) as [| | | |s| | | | |]; intros [H|[H|H]];
      try discriminate H; try reflexivity.
    injection H as H. apply String.eqb_eq in H. now subst s.
Qed.

Lemma diagnostic_of_a_missing_body_witness :
  exists (r : Response) (v : JsValue),
    fst (run (Diagnostic.handler (B := reference_builtins) Examples.store_ok)
             MoreExamples.empty_text) = Returned r /\
    payload r = Some v /\
    get (get (get v "data") "body") "data" = body MoreExamples.empty_text /\
    get (get (get v "data") "body") "type" = JString (typeof (body MoreExamples.empty_text)) /\
    get (get (get v "data") "body") "exists" = JBool (truthy (body MoreExamples.empty_text)) /\
    (truthy (body MoreExamples.empty_text) = false ->
     get (get (get v "data") "body") "string" = JNull /\
     get (get (get v "data") "body") "json" = JNull /\
     get (get (get v "data") "body") "length" = JNumber 0) /\
    (forall s : string,
       truthy (body MoreExamples.empty_text) = true ->
       String_of (Builtins := reference_builtins) (body MoreExamples.empty_text)
         = Returned s ->
       get (get (get v "data") "body") "string" = JString s /\
       get (get (get v "data") "body") "length" =
         JNumber (Z.of_nat (String.length s))) /\
    (get (get (get v "data") "debug") "bodyIsNull" = JBool true ->
     body MoreExamples.empty_text = JNull) /\
    (get (get (get v "data") "debug") "bodyIsUndefined" = JBool true ->
     body MoreExamples.empty_text = JUndefined) /\
    (get (get (get v "data") "debug") "bodyIsEmptyString" = JBool true ->
     body MoreExamples.empty_text = JString EmptyString) /\
    (get (get (get v "data") "debug") "bodyIsNull" = JBool true \/
     get (get (get v "data") "debug") "bodyIsUndefined" = JBool true \/
     get (get (get v "data") "debug") "bodyIsEmptyString" = JBool true ->
     get (get (get v "data") "body") "exists" = JBool false).
Proof.
  apply (diagnostic_of_a_missing_body reference_builtins Examples.store_ok
           MoreExamples.empty_text).
  - discriminate.
  - left. reflexivity.
Defined.

(** ** The database connector *)

Section Connector.
Import Firebase.
Context {B : Builtins} {S : AdminSdk}.

(** The options the strict version registers an app with. *)
Lemma strict_run_registered (env : ProcessEnv) (p : Process) :
  apps p <> [] ->
  Strict.initializeFirebase env p =
    match firestore_of (apps p) with
    | Returned db =>
        match takes db (JObject [("ignoreUndefinedProperties", JBool true)]) with
        | Returned _ =>
            (Returned db,
             {| apps := apps p; console := console p;
                configured := configured p
                              ++ [(db, JObject [("ignoreUndefinedProperties", JBool true)])] |})
        | Threw e => (Threw e, p)
        end
    | Threw e => (Threw e, p)
    end.
Proof.
  intros Hp.
  assert (Hlen : (List.length (apps p) =? 0)%nat = false)
    by (destruct (apps p); [now elim Hp | reflexivity]).
  unfold Strict.initializeFirebase, then_, getApps, getFirestore, settings, unit_.
  cbv beta zeta. rewrite Hlen.
  destruct (firestore_of (apps p)); [|reflexivity].
  destruct (takes _ _); reflexivity.
Qed.

Lemma warning_run_registered (env : ProcessEnv) (p : Process) :
  apps p <> [] ->
  Warning.initializeFirebase env p = (firestore_of (apps p), p).
Proof.
  intros Hp.
  assert (Hlen : (List.length (apps p) =? 0)%nat = false)
    by (destruct (apps p); [now elim Hp | reflexivity]).
  unfold Warning.initializeFirebase, then_, getApps, getFirestore, unit_.
  cbv beta zeta. rewrite Hlen. reflexivity.
Qed.

End Connector.

(** X15.  With no app registered and no credential in the environment
    (the variable unset, or empty), the connector of src/lib/firebase.ts
    warns once and throws the error that names the variable; no app is
    registered, no database is asked for and no settings are given. *)
Theorem strict_requires_the_credential (B : Builtins) (S : Firebase.AdminSdk)
  (env : Firebase.ProcessEnv) (p : Firebase.Process) :
  Firebase.apps p = [] ->
  truthy (Firebase.variable (Firebase.FIREBASE_SERVICE_ACCOUNT env)) = false ->
  Firebase.Strict.initializeFirebase env p =
    (Threw (ErrorObject "FIREBASE_SERVICE_ACCOUNT environment variable is required"),
     {| Firebase.apps := [];
        Firebase.console := Firebase.console p ++ [("warn", Firebase.not_configured)];
        Firebase.configured := Firebase.configured p |}).
Proof.
  intros Ha Hc.
  unfold Firebase.Strict.initializeFirebase, Firebase.then_, Firebase.getApps,
    Firebase.say, Firebase.raise.
  cbv beta zeta. rewrite Ha, Hc. cbn [List.length Nat.eqb]. cbv beta iota.
  now rewrite Ha.
Qed.

Lemma strict_requires_the_credential_witness :
  Firebase.Strict.initializeFirebase (B := reference_builtins) (S := Firebase.example_sdk)
    Firebase.empty_env Firebase.blank =
    (Threw (ErrorObject "FIREBASE_SERVICE_ACCOUNT environment variable is required"),
     {| Firebase.apps := [];
        Firebase.console := Firebase.console Firebase.blank
                            ++ [("warn", Firebase.not_configured)];
        Firebase.configured := Firebase.configured Firebase.blank |}).
Proof.
  apply (strict_requires_the_credential reference_builtins Firebase.example_sdk
           Firebase.empty_env Firebase.blank).
  - reflexivity.
  - reflexivity.
Defined.

(** X16.  With no app registered and a credential in the environment,
    whatever fails while the connector of src/lib/firebase.ts starts the
    app (the credential is no JSON, [cert] refuses it, [initializeApp]
    refuses the options) reaches the caller as the same error, "Failed to
    initialize Firebase Admin SDK": the cause is logged and not passed on,
    and no app is registered. *)
Theorem strict_hides_the_cause (B : Builtins) (S : Firebase.AdminSdk)
  (env : Firebase.ProcessEnv) (p : Firebase.Process) (text : string) :
  Firebase.apps p = [] ->
  Firebase.FIREBASE_SERVICE_ACCOUNT env = Some text ->
  text <> EmptyString ->
  (exists e, JSON_parse text = Threw e) \/
  (exists account e, JSON_parse text = Returned account /\ Firebase.cert account = Threw e) \/
  (exists account credential e,
     JSON_parse text = Returned account /\
     Firebase.cert account = Returned credential /\
     Firebase.checks
       (if truthy (Firebase.variable (Firebase.FIREBASE_DATABASE_URL env))
        then JObject [("credential", credential);
                      ("databaseURL",
                       Firebase.variable (Firebase.FIREBASE_DATABASE_URL env))]
        else JObject [("credential", credential)]) = Threw e) ->
  Firebase.Strict.initializeFirebase env p =
    (Threw (ErrorObject "Failed to initialize Firebase Admin SDK"),
     {| Firebase.apps := [];
        Firebase.console := Firebase.console p ++ [("error", "Error initializing Firebase:")];
        Firebase.configured := Firebase.configured p |}).
Proof.
  intros Ha Hc Hne Hfail.
  assert (Ht : truthy (Firebase.variable (Some text)) = true).
  { destruct text; [now elim Hne | reflexivity]. }
  unfold Firebase.Strict.initializeFirebase, Firebase.then_, Firebase.getApps,
    Firebase.attempt, Firebase.lift, Firebase.say, Firebase.raise,
    Firebase.initializeApp.
  cbv beta zeta. rewrite Ha, Hc, Ht. cbn [List.length Nat.eqb Firebase.variable str].
  cbv beta iota.
  destruct Hfail as [(e & He) | [(a & e & Ha' & He) | (a & c & e & Ha' & Hc' & He)]].
  - rewrite He. cbv beta iota. now rewrite Ha.
  - rewrite Ha', He. cbv beta iota. now rewrite Ha.
  - rewrite Ha', Hc'. cbv beta iota.
    destruct (truthy (Firebase.variable (Firebase.FIREBASE_DATABASE_URL env)));
      cbn [spread app] in *; rewrite He; cbv beta iota; now rewrite Ha.
Qed.

Lemma strict_hides_the_cause_witness :
  Firebase.Strict.initializeFirebase (B := reference_builtins) (S := Firebase.example_sdk)
    Firebase.broken_env Firebase.blank =
    (Threw (ErrorObject "Failed to initialize Firebase Admin SDK"),
     {| Firebase.apps := [];
        Firebase.console := Firebase.console Firebase.blank
                            ++ [("error", "Error initializing Firebase:")];
        Firebase.configured := Firebase.configured Firebase.blank |}).
Proof.
  apply (strict_hides_the_cause reference_builtins Firebase.example_sdk
           Firebase.broken_env Firebase.blank "{oops").
  - reflexivity.
  - reflexivity.
  - discriminate.
  - left. exists (ErrorObject "Unexpected token in JSON"). reflexivity.
Defined.

(** X17.  When an app is registered already, neither version of the
    connector reads the environment, registers an app or logs: the version
    of src/unnamed/part_000 gives what [getFirestore] gives, and the
    version of src/lib/firebase.ts does the same whatever the environment
    holds, a missing credential included. *)
Theorem registered_app_is_reused (B : Builtins) (S : Firebase.AdminSdk)
  (env env' : Firebase.ProcessEnv) (p : Firebase.Process) :
  Firebase.apps p <> [] ->
  Firebase.Warning.initializeFirebase env p = (Firebase.firestore_of (Firebase.apps p), p) /\
  Firebase.Strict.initializeFirebase env p = Firebase.Strict.initializeFirebase env' p /\
  Firebase.apps (snd (Firebase.Strict.initializeFirebase env p)) = Firebase.apps p /\
  Firebase.console (snd (Firebase.Strict.initializeFirebase env p)) = Firebase.console p.
Proof.
  intros Hp.
  split; [now apply warning_run_registered|].
  rewrite (strict_run_registered env p Hp), (strict_run_registered env' p Hp).
  split; [reflexivity|].
  destruct (Firebase.firestore_of (Firebase.apps p)); [|split; reflexivity].
  destruct (Firebase.takes _ _); split; reflexivity.
Qed.

Lemma registered_app_is_reused_witness :
  Firebase.Warning.initializeFirebase (B := reference_builtins) (S := Firebase.example_sdk)
    Firebase.empty_env Firebase.running =
    (Firebase.firestore_of (AdminSdk := Firebase.example_sdk) (Firebase.apps Firebase.running),
     Firebase.running) /\
  Firebase.Strict.initializeFirebase (B := reference_builtins) (S := Firebase.example_sdk)
    Firebase.empty_env Firebase.running =
  Firebase.Strict.initializeFirebase (B := reference_builtins) (S := Firebase.example_sdk)
    Firebase.configured_env Firebase.running /\
  Firebase.apps
    (snd (Firebase.Strict.initializeFirebase (B := reference_builtins)
            (S := Firebase.example_sdk) Firebase.empty_env Firebase.running)) =
    Firebase.apps Firebase.running /\
  Firebase.console
    (snd (Firebase.Strict.initializeFirebase (B := reference_builtins)
            (S := Firebase.example_sdk) Firebase.empty_env Firebase.running)) =
    Firebase.console Firebase.running.
Proof.
  apply (registered_app_is_reused reference_builtins Firebase.example_sdk
           Firebase.empty_env Firebase.configured_env Firebase.running).
  discriminate.
Defined.

(** X18.  With no app registered, a credential that parses and that
    [cert] and [initializeApp] accept, the connector of
    src/lib/firebase.ts registers exactly one app, whose options are the
    credential and, only if the variable is set and not empty, the
    database URL; it logs the success, asks for the database, gives it the
    one setting [ignoreUndefinedProperties: true], and returns it. *)
Theorem strict_connects (B : Builtins) (S : Firebase.AdminSdk)
  (env : Firebase.ProcessEnv) (p : Firebase.Process) (text : string)
  (account credential db : JsValue) :
  Firebase.apps p = [] ->
  Firebase.FIREBASE_SERVICE_ACCOUNT env = Some text ->
  text <> EmptyString ->
  JSON_parse text = Returned account ->
  Firebase.cert account = Returned credential ->
  let options :=
    match Firebase.FIREBASE_DATABASE_URL env with
    | Some (String c u) =>
        JObject [("credential", credential); ("databaseURL", JString (String c u))]
    | _ => JObject [("credential", credential)]
    end in
  Firebase.checks options = Returned tt ->
  Firebase.firestore_of [options] = Returned db ->
  Firebase.takes db (JObject [("ignoreUndefinedProperties", JBool true)]) = Returned tt ->
  Firebase.Strict.initializeFirebase env p =
    (Returned db,
     {| Firebase.apps := [options];
        Firebase.console :=
          Firebase.console p ++ [("log", "Firebase Admin SDK initialized successfully")];
        Firebase.configured :=
          Firebase.configured p
          ++ [(db, JObject [("ignoreUndefinedProperties", JBool true)])] |}).
Proof.
  intros Ha Hc Hne Hparse Hcert options Hchecks Hdb Htakes.
  assert (Ht : truthy (Firebase.variable (Some text)) = true).
  { destruct text; [now elim Hne | reflexivity]. }
  assert (Ho : (if truthy (Firebase.variable (Firebase.FIREBASE_DATABASE_URL env))
                then spread (JObject [("credential", credential)])
                       [("databaseURL",
                         Firebase.variable (Firebase.FIREBASE_DATABASE_URL env))]
                else JObject [("credential", credential)]) = options).
  { subst options. destruct (Firebase.FIREBASE_DATABASE_URL env) as [[|c u]|]; reflexivity. }
  unfold Firebase.Strict.initializeFirebase, Firebase.then_, Firebase.getApps,
    Firebase.attempt, Firebase.lift, Firebase.say, Firebase.raise,
    Firebase.initializeApp, Firebase.getFirestore, Firebase.settings, Firebase.unit_.
  cbv beta zeta. rewrite Ha, Hc, Ht. cbn [List.length Nat.eqb Firebase.variable str].
  cbv beta iota. rewrite Hparse, Hcert. cbv beta iota.
  rewrite Ho, Hchecks. cbv beta iota.
  cbn [Firebase.apps Firebase.console Firebase.configured].
  rewrite Ha. cbn [app]. rewrite Hdb. cbv beta iota. rewrite Htakes.
  reflexivity.
Qed.

Lemma strict_connects_witness :
  exists db : JsValue,
    Firebase.Strict.initializeFirebase (B := reference_builtins) (S := Firebase.example_sdk)
      Firebase.configured_env Firebase.blank =
      (Returned db,
       {| Firebase.apps :=
            [JObject [("credential",
                       JObject [("serviceAccount", JObject [("private_key", JString "k")])]);
                      ("databaseURL", JString "https://example.firebaseio.com")]];
          Firebase.console :=
            Firebase.console Firebase.blank
            ++ [("log", "Firebase Admin SDK initialized successfully")];
          Firebase.configured :=
            Firebase.configured Firebase.blank
            ++ [(db, JObject [("ignoreUndefinedProperties", JBool true)])] |}).
Proof.
  eexists.
  apply (strict_connects reference_builtins Firebase.example_sdk
           Firebase.configured_env Firebase.blank Firebase.account_text
           (JObject [("private_key", JString "k")])
           (JObject [("serviceAccount", JObject [("private_key", JString "k")])])).
  - reflexivity.
  - reflexivity.
  - discriminate.
  - reflexivity.
  - reflexivity.
  - reflexivity.
  - reflexivity.
  - reflexivity.
Defined.

(** X19.  The connector of src/unnamed/part_000 with no app registered:
    without a credential it only warns and goes on to ask for the database
    with no app registered, so that what the caller gets is whatever
    [getFirestore] does then; with a credential that is no JSON the
    exception of [JSON.parse] itself reaches the caller, nothing is logged
    and no app is registered; with a good credential the options always
    have a [databaseURL], [undefined] when the variable is not set. *)
Theorem warning_version_goes_on (B : Builtins) (S : Firebase.AdminSdk)
  (env : Firebase.ProcessEnv) (p : Firebase.Process) :
  Firebase.apps p = [] ->
  (truthy (Firebase.variable (Firebase.FIREBASE_SERVICE_ACCOUNT env)) = false ->
   Firebase.Warning.initializeFirebase env p =
     (Firebase.firestore_of [],
      {| Firebase.apps := [];
         Firebase.console := Firebase.console p ++ [("warn", Firebase.not_configured)];
         Firebase.configured := Firebase.configured p |})) /\
  (forall text e,
     Firebase.FIREBASE_SERVICE_ACCOUNT env = Some text -> text <> EmptyString ->
     JSON_parse text = Threw e ->
     Firebase.Warning.initializeFirebase env p = (Threw e, p)) /\
  (forall text account credential,
     Firebase.FIREBASE_SERVICE_ACCOUNT env = Some text -> text <> EmptyString ->
     JSON_parse text = Returned account ->
     Firebase.cert account = Returned credential ->
     Firebase.checks
       (JObject [("credential", credential);
                 ("databaseURL", Firebase.variable (Firebase.FIREBASE_DATABASE_URL env))])
       = Returned tt ->
     Firebase.Warning.initializeFirebase env p =
       (Firebase.firestore_of
          [JObject [("credential", credential);
                    ("databaseURL",
                     Firebase.variable (Firebase.FIREBASE_DATABASE_URL env))]],
        {| Firebase.apps :=
             [JObject [("credential", credential);
                       ("databaseURL",
                        Firebase.variable (Firebase.FIREBASE_DATABASE_URL env))]];
           Firebase.console := Firebase.console p;
           Firebase.configured := Firebase.configured p |})).
Proof.
  intros Ha.
  assert (Ht : forall text, text <> EmptyString ->
                            truthy (Firebase.variable (Some text)) = true).
  { intros text Hne. destruct text; [now elim Hne | reflexivity]. }
  unfold Firebase.Warning.initializeFirebase, Firebase.then_, Firebase.getApps,
    Firebase.lift, Firebase.say, Firebase.initializeApp, Firebase.getFirestore,
    Firebase.unit_.
  cbv beta zeta. rewrite Ha. cbn [List.length Nat.eqb].
  split; [|split].
  - intros Hc. rewrite Hc. cbv beta iota.
    cbn [Firebase.apps Firebase.console Firebase.configured]. now rewrite Ha.
  - intros text e Hc Hne Hparse. rewrite Hc, (Ht text Hne).
    cbn [Firebase.variable str]. cbv beta iota. rewrite Hparse. cbv beta iota.
    destruct p as [a c f]. cbn [Firebase.apps] in Ha. now subst a.
  - intros text account credential Hc Hne Hparse Hcert Hchecks.
    rewrite Hc, (Ht text Hne).
    cbn [Firebase.variable str]. cbv beta iota. rewrite Hparse, Hcert. cbv beta iota.
    rewrite Hchecks. cbv beta iota.
    cbn [Firebase.apps Firebase.console Firebase.configured]. now rewrite Ha.
Qed.

Lemma warning_version_goes_on_witness :
  (truthy (Firebase.variable (Firebase.FIREBASE_SERVICE_ACCOUNT Firebase.empty_env)) = false ->
   Firebase.Warning.initializeFirebase (B := reference_builtins) (S := Firebase.example_sdk)
     Firebase.empty_env Firebase.blank =
     (Firebase.firestore_of (AdminSdk := Firebase.example_sdk) [],
      {| Firebase.apps := [];
         Firebase.console := Firebase.console Firebase.blank
                             ++ [("warn", Firebase.not_configured)];
         Firebase.configured := Firebase.configured Firebase.blank |})) /\
  (forall text e,
     Firebase.FIREBASE_SERVICE_ACCOUNT Firebase.empty_env = Some text ->
     text <> EmptyString ->
     JSON_parse (Builtins := reference_builtins) text = Threw e ->
     Firebase.Warning.initializeFirebase (B := reference_builtins)
       (S := Firebase.example_sdk) Firebase.empty_env Firebase.blank =
       (Threw e, Firebase.blank)) /\
  (forall text account credential,
     Firebase.FIREBASE_SERVICE_ACCOUNT Firebase.empty_env = Some text ->
     text <> EmptyString ->
     JSON_parse (Builtins := reference_builtins) text = Returned account ->
     Firebase.cert (AdminSdk := Firebase.example_sdk) account = Returned credential ->
     Firebase.checks (AdminSdk := Firebase.example_sdk)
       (JObject [("credential", credential);
                 ("databaseURL",
                  Firebase.variable (Firebase.FIREBASE_DATABASE_URL Firebase.empty_env))])
       = Returned tt ->
     Firebase.Warning.initializeFirebase (B := reference_builtins)
       (S := Firebase.example_sdk) Firebase.empty_env Firebase.blank =
       (Firebase.firestore_of (AdminSdk := Firebase.example_sdk)
          [JObject [("credential", credential);
                    ("databaseURL",
                     Firebase.variable (Firebase.FIREBASE_DATABASE_URL Firebase.empty_env))]],
        {| Firebase.apps :=
             [JObject [("credential", credential);
                       ("databaseURL",
                        Firebase.variable
                          (Firebase.FIREBASE_DATABASE_URL Firebase.empty_env))]];
           Firebase.console := Firebase.console Firebase.blank;
           Firebase.configured := Firebase.configured Firebase.blank |})).
Proof.
  apply (warning_version_goes_on reference_builtins Firebase.example_sdk
           Firebase.empty_env Firebase.blank).
  reflexivity.
Defined.

(** ** The record and the store *)

Section Echo.
Context {B : Builtins}.

Lemma basic_data_clock (env env' : Env) (req : Request) :
  now_iso env = now_iso env' ->
  CaptureBasic.capturedData env req = CaptureBasic.capturedData env' req.
Proof. intros H. unfold CaptureBasic.capturedData. now rewrite H. Qed.

Lemma typed_data_clock (env env' : Env) (req : Request) :
  now_iso env = now_iso env' ->
  CaptureTyped.capturedData env req = CaptureTyped.capturedData env' req.
Proof. intros H. unfold CaptureTyped.capturedData. now rewrite H. Qed.

Lemma formats_data_clock (env env' : Env) (req : Request) (b : JsValue) (raw : string)
  (parsed : JsValue) :
  now_iso env = now_iso env' ->
  CaptureFormats.capturedData env req b raw parsed =
  CaptureFormats.capturedData env' req b raw parsed.
Proof. intros H. unfold CaptureFormats.capturedData. now rewrite H. Qed.

Lemma xml_data_clock (env env' : Env) (req : Request) (rawBody : string) :
  now_iso env = now_iso env' ->
  CaptureXml.capturedData env req rawBody = CaptureXml.capturedData env' req rawBody.
Proof. intros H. unfold CaptureXml.capturedData. now rewrite H. Qed.

End Echo.

(** X20.  On a POST request what a capture endpoint echoes under
    [data] is decided by the request and the time alone: with the same
    clock reading, two runs give the same record whatever the store does
    with the write (accept it, reject it, refuse the call, sooner or
    later) and whatever the random suffix is.  That record is the one
    built before the write; in the XML handler, the one built from the
    raw body when the conversion gave one. *)
Theorem record_does_not_depend_on_the_store (B : Builtins) (env env' : Env)
  (req : Request) :
  method req = "POST" ->
  now_iso env = now_iso env' ->
  (echoed (run (CaptureBasic.handler env) req) = echoed (run (CaptureBasic.handler env') req) /\
   echoed (run (CaptureBasic.handler env) req) = CaptureBasic.capturedData env req) /\
  (echoed (run (CaptureTyped.handler env) req) = echoed (run (CaptureTyped.handler env') req) /\
   echoed (run (CaptureTyped.handler env) req) = CaptureTyped.capturedData env req) /\
  (echoed (run (CaptureFormats.handler env) req) =
   echoed (run (CaptureFormats.handler env') req) /\
   get (echoed (run (CaptureFormats.handler env) req)) "method" = JString "POST") /\
  (echoed (run (CaptureXml.handler env) req) = echoed (run (CaptureXml.handler env') req) /\
   forall rawBody : string,
     CaptureXml.rawBody (body req) = Returned rawBody ->
     echoed (run (CaptureXml.handler env) req) = CaptureXml.capturedData env req rawBody).
Proof.
  intros Hm Hclock.
  split; [|split; [|split]].
  - unfold echoed.
    destruct (basic_post env req Hm) as (-> & _).
    destruct (basic_post env' req Hm) as (-> & _).
    cbn [payload]. change (get (envelope ?m ?d ?f) "data") with d.
    rewrite (basic_data_clock env env' req Hclock). split; reflexivity.
  - unfold echoed.
    destruct (typed_post env req Hm) as (-> & _).
    destruct (typed_post env' req Hm) as (-> & _).
    cbn [payload]. change (get (envelope ?m ?d ?f) "data") with d.
    rewrite (typed_data_clock env env' req Hclock). split; reflexivity.
  - unfold echoed.
    destruct (formats_post env req Hm) as (-> & _).
    destruct (formats_post env' req Hm) as (-> & _).
    cbn [payload]. change (get (envelope ?m ?d ?f) "data") with d.
    rewrite (formats_data_clock env env' req _ _ _ Hclock). split; [reflexivity|].
    cbn [get assoc String.eqb Ascii.eqb Bool.eqb CaptureFormats.capturedData].
    now rewrite Hm.
  - destruct (CaptureXml.rawBody (body req)) as [rawBody|e] eqn:Hraw.
    + unfold echoed.
      destruct (xml_post env req rawBody Hm Hraw) as (-> & _).
      destruct (xml_post env' req rawBody Hm Hraw) as (-> & _).
      cbn [payload]. change (get (envelope ?m ?d ?f) "data") with d.
      split; [now rewrite (xml_data_clock env env' req rawBody Hclock)|].
      intros raw' H. injection H as <-. reflexivity.
    + rewrite (xml_conversion_throws env req e Hm Hraw),
        (xml_conversion_throws env' req e Hm Hraw).
      split; [reflexivity | discriminate].
Qed.

Lemma record_does_not_depend_on_the_store_witness :
  (echoed (run (CaptureBasic.handler Examples.store_ok) Examples.note_xml) =
   echoed (run (CaptureBasic.handler Examples.store_strict) Examples.note_xml) /\
   echoed (run (CaptureBasic.handler Examples.store_ok) Examples.note_xml) =
   CaptureBasic.capturedData Examples.store_ok Examples.note_xml) /\
  (echoed (run (CaptureTyped.handler (B := reference_builtins) Examples.store_ok)
               Examples.note_xml) =
   echoed (run (CaptureTyped.handler (B := reference_builtins) Examples.store_strict)
               Examples.note_xml) /\
   echoed (run (CaptureTyped.handler (B := reference_builtins) Examples.store_ok)
               Examples.note_xml) =
   CaptureTyped.capturedData (B := reference_builtins) Examples.store_ok Examples.note_xml) /\
  (echoed (run (CaptureFormats.handler (B := reference_builtins) Examples.store_ok)
               Examples.note_xml) =
   echoed (run (CaptureFormats.handler (B := reference_builtins) Examples.store_strict)
               Examples.note_xml) /\
   get (echoed (run (CaptureFormats.handler (B := reference_builtins) Examples.store_ok)
                    Examples.note_xml)) "method" = JString "POST") /\
  (echoed (run (CaptureXml.handler (B := reference_builtins) Examples.store_ok)
               Examples.note_xml) =
   echoed (run (CaptureXml.handler (B := reference_builtins) Examples.store_strict)
               Examples.note_xml) /\
   forall rawBody : string,
     CaptureXml.rawBody (B := reference_builtins) (body Examples.note_xml)
       = Returned rawBody ->
     echoed (run (CaptureXml.handler (B := reference_builtins) Examples.store_ok)
                 Examples.note_xml) =
     CaptureXml.capturedData Examples.store_ok Examples.note_xml
       rawBody).
Proof.
  apply (record_does_not_depend_on_the_store reference_builtins Examples.store_ok
           Examples.store_strict Examples.note_xml).
  - reflexivity.
  - reflexivity.
Defined.
